(** * pyShelly: the block aggregate and the firmware catalogue

    A shallow embedding of [pyShelly/block.py] and [pyShelly/firmware.py].

    - Python objects that are mutated in place ([Block], [FirmwareManager])
      are records threaded through a state monad; an exception leaves the
      state as it was when it was raised, as in Python.
    - What the program does to its collaborators (HTTP requests, observer
      callbacks, the device registry of the parent, sub-device hooks) is
      recorded in a trace of events.
    - What the collaborators answer (HTTP responses, the catalogue download,
      the clock) is an explicit argument of the operation that asks.
    - [datetime] values are integers counting microseconds, the resolution
      of the Python type; a [timedelta] is their difference. *)

From Stdlib Require Import ZArith Lia.
From stdpp Require Import base option list strings gmap fin_maps.

Local Open Scope Z_scope.
Local Open Scope string_scope.
Local Open Scope list_scope.

(** ** Python values *)

Module py.

(** Scalar values held in info-value dictionaries. *)
Inductive pyval : Type :=
| VNone
| VBool (b : bool)
| VInt (n : Z)
| VStr (s : string).

(** Decoded JSON documents (HTTP responses and push payloads). *)
#[warnings="-register-all"]
Inductive json : Type :=
| JVal (v : pyval)
| JArr (l : list json)
| JObj (l : list (string * json)).

(** [bool(v)] *)
Definition truthy (v : pyval) : bool :=
  match v with
  | VNone => false
  | VBool b => b
  | VInt n => negb (Z.eqb n 0)
  | VStr s => negb (String.eqb s "")
  end.

Definition json_truthy (j : json) : bool :=
  match j with
  | JVal v => truthy v
  | JArr l => match l with [] => false | _ => true end
  | JObj l => match l with [] => false | _ => true end
  end.

(** [a == b]; a [bool] is the integer 0 or 1. *)
Definition py_eq (a b : pyval) : bool :=
  match a, b with
  | VNone, VNone => true
  | VBool x, VBool y => Bool.eqb x y
  | VInt x, VInt y => Z.eqb x y
  | VBool x, VInt y => Z.eqb (Z.b2z x) y
  | VInt x, VBool y => Z.eqb x (Z.b2z y)
  | VStr x, VStr y => String.eqb x y
  | _, _ => false
  end.

(** [a != b] *)
Definition py_ne (a b : pyval) : bool := negb (py_eq a b).

(** [a and b] evaluates to [a] when [a] is falsy, to [b] otherwise. *)
Definition py_and (a b : pyval) : pyval := if truthy a then b else a.

(** [d.get(k)] on an info-value dictionary: [None] for a missing key. *)
Definition dict_get (d : gmap string pyval) (k : string) : pyval :=
  default VNone (d !! k).

(** [o] as a Python value, [None] staying [None]. *)
Definition of_option_str (o : option string) : pyval :=
  match o with Some s => VStr s | None => VNone end.

(** Lookup in a decoded JSON object. *)
Fixpoint assoc_get (l : list (string * json)) (k : string) : option json :=
  match l with
  | [] => None
  | (k', v) :: l' => if String.eqb k' k then Some v else assoc_get l' k
  end.

(** [status == {}] *)
Definition is_empty_dict (j : json) : bool :=
  match j with JObj [] => true | _ => false end.

(** [j == s] for a string literal [s]. *)
Definition json_eq_str (j : json) (s : string) : bool :=
  match j with JVal (VStr s') => String.eqb s' s | _ => false end.

(** *** Floats

    A float other than zero is [m * 2^e] with a mantissa [m] of 53 bits; the
    pair [(m, e)] stands for it, and [(0, 0)] for zero.  The floats met here
    are the seconds of a [timedelta], which is less than [10^9] days and at
    least a microsecond: far inside the range of the exponents, which is
    left out. *)
Definition float : Type := Z * Z.

(** The fraction [a / (d * 2^e)]. *)
Definition scaled (a d e : Z) : Z * Z :=
  if Z.leb 0 e then (a, d * 2 ^ e) else (a * 2 ^ (- e), d).

(** The integer nearest to [N / D], the even one of two that are equally
    near. *)
Definition round_half_even (N D : Z) : Z :=
  let q := N / D in
  let r := N mod D in
  if Z.ltb D (2 * r) || (Z.eqb D (2 * r) && Z.odd q) then q + 1 else q.

(** [a / d] for two positive integers: the true division of [int] rounds
    the quotient to the nearest float, ties to even.  The exponent is the
    one for which the quotient has 53 bits before it is rounded. *)
Definition true_divide_pos (a d : Z) : float :=
  let e0 := Z.log2 a - Z.log2 d - 52 in
  let e := if Z.ltb (fst (scaled a d e0) / snd (scaled a d e0)) (2 ^ 52)
           then e0 - 1 else e0 in
  (round_half_even (fst (scaled a d e)) (snd (scaled a d e)), e).

(** [n / d] for an integer [n] and a positive integer [d]. *)
Definition true_divide (n d : Z) : float :=
  match n with
  | 0 => (0, 0)
  | Z.pos _ => true_divide_pos n d
  | Z.neg _ => (- fst (true_divide_pos (- n) d), snd (true_divide_pos (- n) d))
  end.

(** [f > n] for a float [f] and an integer [n]: the comparison of a float
    with an [int] is exact. *)
Definition float_gt (f : float) (n : Z) : bool :=
  if Z.leb 0 (snd f)
  then Z.ltb n (fst f * 2 ^ snd f)
  else Z.ltb (n * 2 ^ (- snd f)) (fst f).

(** [f <= n] *)
Definition float_le (f : float) (n : Z) : bool := negb (float_gt f n).

(** The exceptions, with their argument.  The text of a [TypeError] or
    [AttributeError] differs between versions of the interpreter; it is
    given as CPython 3.8 words it, and no statement depends on it. *)
Inductive exn : Type :=
| KeyError (key : string)
| TypeError (msg : string)
| AttributeError (msg : string)
| OtherError (msg : string).

(** Outcome of a call: a value or a raised exception. *)
Inductive result (A : Type) : Type :=
| Ok (a : A)
| Raise (e : exn).
Arguments Ok {A} a.
Arguments Raise {A} e.

(** [r] followed by [k], for computations without state. *)
Definition rbind {A B} (r : result A) (k : A -> result B) : result B :=
  match r with
  | Ok a => k a
  | Raise e => Raise e
  end.

(** [j is None] *)
Definition is_none (j : json) : bool :=
  match j with JVal VNone => true | _ => false end.

(** [k in s] for two strings: [k] occurs in [s]. *)
Fixpoint is_substring (k s : string) : bool :=
  String.prefix k s ||
  match s with
  | EmptyString => false
  | String _ s' => is_substring k s'
  end.

(** [type(v).__name__] *)
Definition type_name (v : pyval) : string :=
  match v with
  | VNone => "NoneType"
  | VBool _ => "bool"
  | VInt _ => "int"
  | VStr _ => "str"
  end.

(** [k in j] for a string [k] and a decoded JSON value [j]: a key of an
    object, an element of an array, a part of a string; the other values
    are not iterable. *)
Definition json_in (k : string) (j : json) : result bool :=
  match j with
  | JObj l => Ok (match assoc_get l k with Some _ => true | None => false end)
  | JArr l => Ok (existsb (fun x => json_eq_str x k) l)
  | JVal (VStr s) => Ok (is_substring k s)
  | JVal v =>
      Raise (TypeError (String.append "argument of type '"
                          (String.append (type_name v) "' is not iterable")))
  end.

(** [j[k]] for a string [k]: only an object is subscripted by a string. *)
Definition json_getitem (j : json) (k : string) : result json :=
  match j with
  | JObj l =>
      match assoc_get l k with
      | Some v => Ok v
      | None => Raise (KeyError k)
      end
  | JArr _ => Raise (TypeError "list indices must be integers or slices, not str")
  | JVal (VStr _) => Raise (TypeError "string indices must be integers")
  | JVal v =>
      Raise (TypeError (String.append "'"
                          (String.append (type_name v) "' object is not subscriptable")))
  end.

(** Stateful computations that may raise. *)
Definition M (S A : Type) : Type := S -> result A * S.

Definition ret {S A} (a : A) : M S A := fun s => (Ok a, s).
Definition raise {S A} (e : exn) : M S A := fun s => (Raise e, s).
Definition bind {S A B} (m : M S A) (k : A -> M S B) : M S B :=
  fun s => match m s with
           | (Ok a, s') => k a s'
           | (Raise e, s') => (Raise e, s')
           end.
Definition gets {S A} (f : S -> A) : M S A := fun s => (Ok (f s), s).
(** A computation without state, run in a stateful one. *)
Definition lift {S A} (r : result A) : M S A := fun s => (r, s).
Definition modify {S} (f : S -> S) : M S unit := fun s => (Ok tt, f s).

(** [try: m except Exception as ex: h(ex)] *)
Definition try_except {S A} (m : M S A) (h : exn -> M S A) : M S A :=
  fun s => match m s with
           | (Ok a, s') => (Ok a, s')
           | (Raise e, s') => h e s'
           end.

(** [for x in l: body(x)] *)
Fixpoint for_each {S A} (l : list A) (body : A -> M S unit) : M S unit :=
  match l with
  | [] => ret tt
  | x :: l' => bind (body x) (fun _ => for_each l' body)
  end.

(** A computation on a component [T] of the state [S]. *)
Definition zoom {S T A} (get : S -> T) (set : T -> S -> S) (m : M T A) : M S A :=
  fun s => let '(r, t) := m (get s) in (r, set t s).

End py.
Import py.

Notation "x <- c ;; k" := (bind c (fun x => k))
  (at level 100, c at next level, right associativity).
Notation "c ;;; k" := (bind c (fun _ => k))
  (at level 100, right associativity).

(** ** firmware.py *)

Module firmware.

Definition _URL_SHELLY_FIRMWARES : string :=
  "https://repo.shelly.cloud/files/firmware".

(** The manager.  [_firmwares] is [None] or what [_http_get] returned: the
    decoded ["data"] member of the catalogue document, of whatever JSON type
    it came (a JSON [null] is [None]), or the empty dictionary. *)
Record FirmwareManager : Type := {
  last_updated : option Z;
  _firmwares : json;
  _downloaded : bool
}.

(** [FirmwareManager.__init__] *)
Definition init : FirmwareManager :=
  {| last_updated := None; _firmwares := JVal VNone; _downloaded := false |}.

Section WithRemote.
(** [fetch url] is the outcome of the guarded statements of [_http_get],
    [json.loads(s(urlopen(url).read()))['data']]: the ["data"] member as it
    is, or the exception raised on the way. *)
Variable fetch : string -> result json.
(** [regex_ver v] is [re.search(REGEX_VER, v)] projected to its second
    group; [REGEX_VER] is a constant of [const.py]. *)
Variable regex_ver : string -> option string.

Definition _http_get (url : string) : json :=
  match fetch url with
  | Ok data => data
  | Raise ex => JObj []
  end.

(** The property [_list_firmwares]. *)
Definition _list_firmwares : M FirmwareManager json :=
  fun self =>
    if _downloaded self then (Ok (_firmwares self), self)
    else
      if is_none (_firmwares self) then
        let fws := _http_get _URL_SHELLY_FIRMWARES in
        (Ok fws,
         {| last_updated := last_updated self;
            _firmwares := fws;
            _downloaded := true |})
      else (Ok (_firmwares self), self).

(** [re.search] raises [TypeError] on a value that is not a string. *)
Definition format (value : json) : result string :=
  match value with
  | JVal (VStr v) =>
      match regex_ver v with
      | Some g2 => Ok g2
      | None => Ok v
      end
  | _ => Raise (TypeError "expected string or bytes-like object")
  end.

Definition version (shelly_type : string) (beta : bool)
  : M FirmwareManager (option string) :=
  fws <- _list_firmwares ;;
  present <- lift (json_in shelly_type fws) ;;
  if (present : bool) then
    fws' <- _list_firmwares ;;
    cfg <- lift (json_getitem fws' shelly_type) ;;
    has_beta <- (if beta then lift (json_in "beta_ver" cfg) else ret false) ;;
    if (has_beta : bool) then
      v <- lift (json_getitem cfg "beta_ver") ;;
      r <- lift (format v) ;;
      ret (Some r)
    else
      v <- lift (json_getitem cfg "version") ;;
      r <- lift (format v) ;;
      ret (Some r)
  else ret None.

(** The result is [cfg['beta_url']] as it is, or [None]. *)
Definition url (shelly_type : string) (beta : bool) : M FirmwareManager json :=
  fws <- _list_firmwares ;;
  present <- lift (json_in shelly_type fws) ;;
  if (present : bool) then
    fws' <- _list_firmwares ;;
    cfg <- lift (json_getitem fws' shelly_type) ;;
    has_beta <- (if beta then lift (json_in "beta_ver" cfg) else ret false) ;;
    if (has_beta : bool) then lift (json_getitem cfg "beta_url")
    else ret (JVal VNone)
  else ret (JVal VNone).
End WithRemote.

End firmware.

(** ** const.py

    [const.py] is not among the modelled sources: its constants are the
    fields of a record that every operation takes as an argument. *)

(** An info-value rule, a dictionary over the [ATTR_*] keys; the value under
    [ATTR_AUTO_SET] is the pair [[target, delay_seconds]]. *)
Record iv_cfg : Type := {
  attr_pos : option Z;
  attr_path : option string;
  attr_fmt : option string;
  attr_auto_set : option (pyval * Z)
}.

Record Const : Type := {
  SENSOR_UNAVAILABLE_SEC : Z;
  INFO_VALUE_DEVICE_TEMP : string;
  INFO_VALUE_CLOUD_STATUS : string;
  INFO_VALUE_CLOUD_ENABLED : string;
  INFO_VALUE_CLOUD_CONNECTED : string;
  INFO_VALUE_FW_VERSION : string;
  INFO_VALUE_LATEST_FIRMWARE_VERSION : string;
  INFO_VALUE_LATEST_BETA_FW_VERSION : string;
  INFO_VALUE_PAYLOAD : string;
  INFO_VALUE_BATTERY : string;
  INFO_VALUE_ILLUMINANCE : string;
  INFO_VALUE_TILT : string;
  INFO_VALUE_VIBRATION : string;
  INFO_VALUE_TEMP : string;
  INFO_VALUE_PPM : string;
  INFO_VALUE_SENSOR : string;
  INFO_VALUE_TOTAL_WORK_TIME : string;
  BLOCK_INFO_VALUES : list (string * iv_cfg);
  SHELLY_TYPES : gmap string (gmap string pyval);
  (** [re.search(REGEX_VER, v)], projected to [group(2)] *)
  REGEX_VER : string -> option string
}.

(** ** block.py *)

Module block.

(** *** Sub-device units

    The sub-device classes are not among the modelled sources.  A unit is
    the constructor call that made it (class, positional arguments after
    [self], keyword arguments) and the [lazy_load] attribute that
    [_add_device] writes. *)

Inductive arg : Type :=
| ANone
| AInt (n : Z)
| AList (l : list Z)
| AStr (s : string)
| ABool (b : bool).

Inductive kind : Type :=
| Bulb | Relay | Switch | ExtTemp | ExtHumidity | PowerMeter | Roller
| RGBW2W | RGBW2C | RGBWW | Dimmer | Sensor | Flood | DoorWindow
| Duo | Vintage | Gas.

Record Device : Type := {
  dev_kind : kind;
  dev_args : list arg;
  dev_kwargs : list (string * arg);
  lazy_load : bool
}.

(** [K(self, a1, ..., an, k1=v1, ...)] *)
Definition new_kw (k : kind) (args : list arg) (kw : list (string * arg)) : Device :=
  {| dev_kind := k; dev_args := args; dev_kwargs := kw; lazy_load := false |}.
Definition new (k : kind) (args : list arg) : Device := new_kw k args [].

Definition set_lazy_load (v : bool) (d : Device) : Device :=
  {| dev_kind := dev_kind d; dev_args := dev_args d;
     dev_kwargs := dev_kwargs d; lazy_load := v |}.

(** *** Observers *)

(** A registered callback: its identity and what calling it does, return
    ([None]) or raise. *)
Record callback : Type := {
  cb_id : nat;
  cb_raises : option exn
}.

(** *** The block *)

Record Block : Type := {
  blk_id : string;
  type : string;
  ip_addr : string;
  devices : list Device;
  discovery_src : string;
  protocols : list string;
  cb_updated : list callback;
  unavailable_after_sec : option Z;
  last_update_status_info : option Z;
  reload : bool;
  last_updated : option Z;
  sleep_device : bool;
  payload : pyval;
  settings : option json;
  exclude_info_values : list string;
  _available : option bool;
  (* attributes of [Base] *)
  info_values : gmap string pyval;
  info_values_updated : gmap string Z;
  _info_value_cfg : option (list (string * iv_cfg))
}.

Definition set_ip_addr (v : string) (b : Block) : Block :=
  {| blk_id := blk_id b; type := type b; ip_addr := v; devices := devices b;
     discovery_src := discovery_src b; protocols := protocols b;
     cb_updated := cb_updated b; unavailable_after_sec := unavailable_after_sec b;
     last_update_status_info := last_update_status_info b; reload := reload b;
     last_updated := last_updated b; sleep_device := sleep_device b;
     payload := payload b; settings := settings b;
     exclude_info_values := exclude_info_values b; _available := _available b;
     info_values := info_values b; info_values_updated := info_values_updated b;
     _info_value_cfg := _info_value_cfg b |}.

Definition set_devices (v : list Device) (b : Block) : Block :=
  {| blk_id := blk_id b; type := type b; ip_addr := ip_addr b; devices := v;
     discovery_src := discovery_src b; protocols := protocols b;
     cb_updated := cb_updated b; unavailable_after_sec := unavailable_after_sec b;
     last_update_status_info := last_update_status_info b; reload := reload b;
     last_updated := last_updated b; sleep_device := sleep_device b;
     payload := payload b; settings := settings b;
     exclude_info_values := exclude_info_values b; _available := _available b;
     info_values := info_values b; info_values_updated := info_values_updated b;
     _info_value_cfg := _info_value_cfg b |}.

Definition set_protocols (v : list string) (b : Block) : Block :=
  {| blk_id := blk_id b; type := type b; ip_addr := ip_addr b; devices := devices b;
     discovery_src := discovery_src b; protocols := v;
     cb_updated := cb_updated b; unavailable_after_sec := unavailable_after_sec b;
     last_update_status_info := last_update_status_info b; reload := reload b;
     last_updated := last_updated b; sleep_device := sleep_device b;
     payload := payload b; settings := settings b;
     exclude_info_values := exclude_info_values b; _available := _available b;
     info_values := info_values b; info_values_updated := info_values_updated b;
     _info_value_cfg := _info_value_cfg b |}.

Definition set_unavailable_after_sec (v : option Z) (b : Block) : Block :=
  {| blk_id := blk_id b; type := type b; ip_addr := ip_addr b; devices := devices b;
     discovery_src := discovery_src b; protocols := protocols b;
     cb_updated := cb_updated b; unavailable_after_sec := v;
     last_update_status_info := last_update_status_info b; reload := reload b;
     last_updated := last_updated b; sleep_device := sleep_device b;
     payload := payload b; settings := settings b;
     exclude_info_values := exclude_info_values b; _available := _available b;
     info_values := info_values b; info_values_updated := info_values_updated b;
     _info_value_cfg := _info_value_cfg b |}.

Definition set_last_update_status_info (v : option Z) (b : Block) : Block :=
  {| blk_id := blk_id b; type := type b; ip_addr := ip_addr b; devices := devices b;
     discovery_src := discovery_src b; protocols := protocols b;
     cb_updated := cb_updated b; unavailable_after_sec := unavailable_after_sec b;
     last_update_status_info := v; reload := reload b;
     last_updated := last_updated b; sleep_device := sleep_device b;
     payload := payload b; settings := settings b;
     exclude_info_values := exclude_info_values b; _available := _available b;
     info_values := info_values b; info_values_updated := info_values_updated b;
     _info_value_cfg := _info_value_cfg b |}.

Definition set_reload (v : bool) (b : Block) : Block :=
  {| blk_id := blk_id b; type := type b; ip_addr := ip_addr b; devices := devices b;
     discovery_src := discovery_src b; protocols := protocols b;
     cb_updated := cb_updated b; unavailable_after_sec := unavailable_after_sec b;
     last_update_status_info := last_update_status_info b; reload := v;
     last_updated := last_updated b; sleep_device := sleep_device b;
     payload := payload b; settings := settings b;
     exclude_info_values := exclude_info_values b; _available := _available b;
     info_values := info_values b; info_values_updated := info_values_updated b;
     _info_value_cfg := _info_value_cfg b |}.

Definition set_last_updated (v : option Z) (b : Block) : Block :=
  {| blk_id := blk_id b; type := type b; ip_addr := ip_addr b; devices := devices b;
     discovery_src := discovery_src b; protocols := protocols b;
     cb_updated := cb_updated b; unavailable_after_sec := unavailable_after_sec b;
     last_update_status_info := last_update_status_info b; reload := reload b;
     last_updated := v; sleep_device := sleep_device b;
     payload := payload b; settings := settings b;
     exclude_info_values := exclude_info_values b; _available := _available b;
     info_values := info_values b; info_values_updated := info_values_updated b;
     _info_value_cfg := _info_value_cfg b |}.

Definition set_sleep_device (v : bool) (b : Block) : Block :=
  {| blk_id := blk_id b; type := type b; ip_addr := ip_addr b; devices := devices b;
     discovery_src := discovery_src b; protocols := protocols b;
     cb_updated := cb_updated b; unavailable_after_sec := unavailable_after_sec b;
     last_update_status_info := last_update_status_info b; reload := reload b;
     last_updated := last_updated b; sleep_device := v;
     payload := payload b; settings := settings b;
     exclude_info_values := exclude_info_values b; _available := _available b;
     info_values := info_values b; info_values_updated := info_values_updated b;
     _info_value_cfg := _info_value_cfg b |}.

Definition set_settings (v : option json) (b : Block) : Block :=
  {| blk_id := blk_id b; type := type b; ip_addr := ip_addr b; devices := devices b;
     discovery_src := discovery_src b; protocols := protocols b;
     cb_updated := cb_updated b; unavailable_after_sec := unavailable_after_sec b;
     last_update_status_info := last_update_status_info b; reload := reload b;
     last_updated := last_updated b; sleep_device := sleep_device b;
     payload := payload b; settings := v;
     exclude_info_values := exclude_info_values b; _available := _available b;
     info_values := info_values b; info_values_updated := info_values_updated b;
     _info_value_cfg := _info_value_cfg b |}.

Definition set_exclude_info_values (v : list string) (b : Block) : Block :=
  {| blk_id := blk_id b; type := type b; ip_addr := ip_addr b; devices := devices b;
     discovery_src := discovery_src b; protocols := protocols b;
     cb_updated := cb_updated b; unavailable_after_sec := unavailable_after_sec b;
     last_update_status_info := last_update_status_info b; reload := reload b;
     last_updated := last_updated b; sleep_device := sleep_device b;
     payload := payload b; settings := settings b;
     exclude_info_values := v; _available := _available b;
     info_values := info_values b; info_values_updated := info_values_updated b;
     _info_value_cfg := _info_value_cfg b |}.

Definition set_available (v : option bool) (b : Block) : Block :=
  {| blk_id := blk_id b; type := type b; ip_addr := ip_addr b; devices := devices b;
     discovery_src := discovery_src b; protocols := protocols b;
     cb_updated := cb_updated b; unavailable_after_sec := unavailable_after_sec b;
     last_update_status_info := last_update_status_info b; reload := reload b;
     last_updated := last_updated b; sleep_device := sleep_device b;
     payload := payload b; settings := settings b;
     exclude_info_values := exclude_info_values b; _available := v;
     info_values := info_values b; info_values_updated := info_values_updated b;
     _info_value_cfg := _info_value_cfg b |}.

Definition set_info_values (v : gmap string pyval) (b : Block) : Block :=
  {| blk_id := blk_id b; type := type b; ip_addr := ip_addr b; devices := devices b;
     discovery_src := discovery_src b; protocols := protocols b;
     cb_updated := cb_updated b; unavailable_after_sec := unavailable_after_sec b;
     last_update_status_info := last_update_status_info b; reload := reload b;
     last_updated := last_updated b; sleep_device := sleep_device b;
     payload := payload b; settings := settings b;
     exclude_info_values := exclude_info_values b; _available := _available b;
     info_values := v; info_values_updated := info_values_updated b;
     _info_value_cfg := _info_value_cfg b |}.

Definition set_info_value_cfg (v : option (list (string * iv_cfg))) (b : Block) : Block :=
  {| blk_id := blk_id b; type := type b; ip_addr := ip_addr b; devices := devices b;
     discovery_src := discovery_src b; protocols := protocols b;
     cb_updated := cb_updated b; unavailable_after_sec := unavailable_after_sec b;
     last_update_status_info := last_update_status_info b; reload := reload b;
     last_updated := last_updated b; sleep_device := sleep_device b;
     payload := payload b; settings := settings b;
     exclude_info_values := exclude_info_values b; _available := _available b;
     info_values := info_values b; info_values_updated := info_values_updated b;
     _info_value_cfg := v |}.

(** [self.info_values[k] = v] *)
Definition setitem_info_values (k : string) (v : pyval) (b : Block) : Block :=
  set_info_values (<[k := v]> (info_values b)) b.

(** *** Collaborators *)

(** What the block does to the world around it. *)
Inductive event : Type :=
| EvHttpGet (ip url : string)          (* [shelly_http_get(ip, url, ...)] *)
| EvUpdated                            (* [raise_updated] of the block entered *)
| EvCallback (id : nat)                (* a callback of [cb_updated] called *)
| EvRemoveDevice (d : Device)          (* [parent.remove_device(d, src)] *)
| EvClose (d : Device)                 (* [d.close()] *)
| EvAddDevice (d : Device)             (* [parent.add_device(d, src)] *)
| EvDevCoap (d : Device)               (* the push hooks of [d] *)
| EvDevStatus (d : Device)             (* the status hooks of [d] *)
| EvDevUpdated (d : Device)            (* [d.raise_updated()] *)
| EvExceptionLog (e : exn).            (* [exception_log(e, ...)] *)

(** What the world answers, and the methods the block inherits from [Base]
    ([base.py] is not among the modelled sources). *)
Record Collab : Type := {
  (** [shelly_http_get(ip, url, ...)]: the pair [(success, res)] *)
  http : string -> string -> bool * json;
  (** the catalogue download guarded by [FirmwareManager._http_get] *)
  fetch : string -> result json;
  (** [Base._update_info_value(name, status, cfg)] on the block *)
  _update_info_value : string -> json -> iv_cfg -> Block -> Block;
  (** [Base._update_info_values_coap(payload)] on the block *)
  _update_info_values_coap : json -> Block -> Block;
  (** the guarded statements run for a sub-device on a status poll: its
      extraction rules, [update_status_information] and [raise_updated] *)
  dev_status : Device -> json -> option exn
}.

(** The block, the process-wide firmware manager and the events so far. *)
Record World : Type := {
  blk : Block;
  fmgr : firmware.FirmwareManager;
  trace : list event
}.

Definition set_blk (b : Block) (w : World) : World :=
  {| blk := b; fmgr := fmgr w; trace := trace w |}.
Definition set_fmgr (f : firmware.FirmwareManager) (w : World) : World :=
  {| blk := blk w; fmgr := f; trace := trace w |}.

Definition emit (e : event) : M World unit :=
  modify (fun w => {| blk := blk w; fmgr := fmgr w; trace := trace w ++ [e] |}).
Definition self : M World Block := gets blk.
Definition update (f : Block -> Block) : M World unit :=
  modify (fun w => set_blk (f (blk w)) w).
Definition on_block {A} (m : M Block A) : M World A := zoom blk set_blk m.
Definition on_fmgr {A} (m : M firmware.FirmwareManager A) : M World A :=
  zoom fmgr set_fmgr m.

(** [diff.total_seconds()] for a [timedelta] of [diff] microseconds: the
    microseconds divided by [10**6], a float. *)
Definition total_seconds (diff : Z) : float := true_divide diff 1000000.

(** [diff.total_seconds() > sec] and [diff.total_seconds() <= sec] for a
    whole number [sec] of seconds. *)
Definition total_seconds_gt (diff sec : Z) : bool := float_gt (total_seconds diff) sec.
Definition total_seconds_le (diff sec : Z) : bool := float_le (total_seconds diff) sec.

(** [if x:] on an optional dictionary: [None] and [{}] are falsy. *)
Definition cfg_truthy {A} (o : option (list A)) : list A :=
  match o with Some l => l | None => [] end.

Definition settings_truthy (o : option json) : bool :=
  match o with Some j => json_truthy j | None => false end.

(** [self.settings.get(k, dflt)] *)
Definition settings_get (k : string) (dflt : json) : M Block json :=
  fun self =>
    match settings self with
    | Some (JObj l) => (Ok (default dflt (assoc_get l k)), self)
    | Some _ => (Raise (AttributeError "object has no attribute 'get'"), self)
    | None => (Raise (AttributeError "'NoneType' object has no attribute 'get'"), self)
    end.

Definition _add_device (dev : Device) (lazy : bool) : M Block unit :=
  modify (fun self => set_devices ((devices self ++ [set_lazy_load lazy dev])) self).

Definition pos (n : Z) : iv_cfg :=
  {| attr_pos := Some n; attr_path := None; attr_fmt := None; attr_auto_set := None |}.
Definition pos_auto_set (n : Z) (target : pyval) (delay : Z) : iv_cfg :=
  {| attr_pos := Some n; attr_path := None; attr_fmt := None;
     attr_auto_set := Some (target, delay) |}.
Definition pos_path (n : Z) (p : string) : iv_cfg :=
  {| attr_pos := Some n; attr_path := Some p; attr_fmt := None; attr_auto_set := None |}.
Definition path (p : string) : iv_cfg :=
  {| attr_pos := None; attr_path := Some p; attr_fmt := None; attr_auto_set := None |}.

Section Ops.
Context (c : Const) (env : Collab).

(** **** Notification *)

Definition call (cb : callback) : M World unit :=
  emit (EvCallback (cb_id cb)) ;;;
  match cb_raises cb with
  | Some e => raise e
  | None => ret tt
  end.

Definition raise_updated : M World unit :=
  emit EvUpdated ;;;
  b <- self ;;
  for_each (cb_updated b) call.

(** **** The auto-set rules, run on every tick *)

Definition loop_rule (now : Z) (rule : string * iv_cfg) : M World unit :=
  let iv := rule.1 in
  let cfg := rule.2 in
  match attr_auto_set cfg with
  | Some param =>
      b <- self ;;
      let value := dict_get (info_values b) iv in
      let new_val := param.1 in
      if py_ne value new_val then
        let delay := param.2 in
        match info_values_updated b !! iv with
        | Some time =>
            let diff := now - time in
            if total_seconds_gt diff delay then
              update (setitem_info_values iv new_val) ;;;
              raise_updated
            else ret tt
        | None => ret tt
        end
      else ret tt
  | None => ret tt
  end.

Definition loop (now : Z) : M World unit :=
  b <- self ;;
  for_each (cfg_truthy (_info_value_cfg b)) (loop_rule now).

(** **** Availability *)

Definition available (now : Z) (b : Block) : bool :=
  match unavailable_after_sec b with
  | None => true
  | Some sec =>
      match last_updated b with
      | None => false
      | Some t => total_seconds_le (now - t) sec
      end
  end.

Definition check_available (now : Z) : M World unit :=
  b <- self ;;
  if bool_decide (Some (available now b) ≠ _available b) then
    update (set_available (Some (available now b))) ;;;
    raise_updated ;;;
    for_each (devices b) (fun dev => emit (EvDevUpdated dev))
  else ret tt.

(** **** HTTP *)

Definition http_get (url : string) (log_error : bool) : M World (bool * json) :=
  b <- self ;;
  emit (EvHttpGet (ip_addr b) url) ;;;
  ret (http env (ip_addr b) url).

(** **** Firmware *)

Definition fw_version (b : Block) : pyval :=
  dict_get (info_values b) (INFO_VALUE_FW_VERSION c).

Definition latest_fw_version (beta : bool) : M World pyval :=
  b <- self ;;
  if beta then
    v <- on_fmgr (firmware.version (fetch env) (REGEX_VER c) (type b) true) ;;
    ret (of_option_str v)
  else ret (dict_get (info_values b) (INFO_VALUE_LATEST_FIRMWARE_VERSION c)).

Definition has_fw_update (beta : bool) : M World pyval :=
  latest <- latest_fw_version beta ;;
  b <- self ;;
  let current := fw_version b in
  ret (py_and latest (py_and current (VBool (py_ne latest current)))).

Definition update_firmware (beta : bool) : M World unit :=
  b <- self ;;
  url <- (if beta
          then on_fmgr (firmware.url (fetch env) (type b) false)
          else ret (JVal VNone)) ;;
  if json_truthy url then
    match url with
    | JVal (VStr u) => http_get (String.append "/ota?url=" u) true ;;; ret tt
    | _ => raise (TypeError "can only concatenate str to str")
    end
  else
    http_get "/ota?update=1" true ;;; ret tt.

(** **** The status poll *)

(** Lines 135 to 145: the extraction rules and the payload. *)
Definition extract_status (status : json) : M World unit :=
  for_each (BLOCK_INFO_VALUES c) (fun rule =>
    b <- self ;;
    if bool_decide (rule.1 ∈ exclude_info_values b) then ret tt
    else update (_update_info_value env rule.1 status rule.2)) ;;;
  b <- self ;;
  for_each (cfg_truthy (_info_value_cfg b)) (fun rule =>
    update (_update_info_value env rule.1 status rule.2)) ;;;
  b <- self ;;
  if truthy (payload b)
  then update (setitem_info_values (INFO_VALUE_PAYLOAD c) (payload b))
  else ret tt.

(** Lines 147 to 153. *)
Definition derive_cloud_status : M World unit :=
  b <- self ;;
  if truthy (dict_get (info_values b) (INFO_VALUE_CLOUD_ENABLED c)) then
    if truthy (dict_get (info_values b) (INFO_VALUE_CLOUD_CONNECTED c)) then
      update (setitem_info_values (INFO_VALUE_CLOUD_STATUS c) (VStr "connected"))
    else
      update (setitem_info_values (INFO_VALUE_CLOUD_STATUS c) (VStr "disconnected"))
  else
    update (setitem_info_values (INFO_VALUE_CLOUD_STATUS c) (VStr "disabled")).

(** Lines 161 to 170. *)
Definition update_devices (status : json) : M World unit :=
  b <- self ;;
  for_each (devices b) (fun dev =>
    try_except
      (emit (EvDevStatus dev) ;;;
       match dev_status env dev status with
       | Some ex => raise ex
       | None => ret tt
       end)
      (fun ex => emit (EvExceptionLog ex))).

(** Lines 129 to 132. *)
Definition mark_polled (now : Z) : M World unit :=
  b <- self ;;
  (if bool_decide ("poll" ∈ protocols b) then ret tt
   else update (set_protocols (protocols b ++ ["poll"]))) ;;;
  update (set_last_updated (Some now)).

(** Lines 155 to 170. *)
Definition publish (status : json) : M World unit :=
  beta_ver <- latest_fw_version true ;;
  update (setitem_info_values (INFO_VALUE_LATEST_BETA_FW_VERSION c) beta_ver) ;;;
  raise_updated ;;;
  update_devices status.

(** The debug log line (which asks the cloud for the name of the block
    inside a [try]) has no effect on the block and is left out; [now] stands
    for both readings of the clock. *)
Definition update_status_information (now : Z) : M World unit :=
  update (set_last_update_status_info (Some now)) ;;;
  r <- http_get "/status" false ;;
  let success := r.1 in
  let status := r.2 in
  if negb success || is_empty_dict status then ret tt
  else
    mark_polled now ;;;
    extract_status status ;;;
    derive_cloud_status ;;;
    publish status.

(** **** Composition *)

Definition poll_settings : M World unit :=
  b <- self ;;
  if match SHELLY_TYPES c !! type b with
     | Some t => truthy (dict_get t "battery")
     | None => false
     end
  then ret tt
  else
    r <- http_get "/settings" true ;;
    if r.1 then update (set_settings (Some r.2)) else ret tt.

(** [self.type == n1 or self.type == n2 ...] *)
Definition is_type (ty : string) (names : list string) : bool :=
  existsb (String.eqb ty) names.

Definition add (dev : Device) : M Block unit := _add_device dev false.
Definition add_lazy (dev : Device) : M Block unit := _add_device dev true.

(** The conditional chain of [_setup], after the settings poll. *)
Definition setup_devices : M Block unit :=
  ty <- gets type ;;
  if is_type ty ["SHBLB-1"; "SHCL-255"] then
    add (new Bulb [])
  else if is_type ty ["SHSW-1"; "SHSK-1"] then
    add (new Relay [AInt 0; AList [112; 1101]; ANone; AList [118; 2101]]) ;;;
    add (new Switch [AInt 0; AList [118; 2101]; AInt 2102; AInt 2103]) ;;;
    add_lazy (new ExtTemp [AInt 0]) ;;;
    add_lazy (new ExtTemp [AInt 1]) ;;;
    add_lazy (new ExtTemp [AInt 2]) ;;;
    add_lazy (new ExtHumidity [AInt 0])
  else if is_type ty ["SHSW-PM"] then
    add (new Relay [AInt 0; AList [112; 1101]; AList [111; 4101]; AList [118; 2101]]) ;;;
    add (new PowerMeter [AInt 0; AList [111; 4101]]) ;;;
    add (new Switch [AInt 0; AList [118; 2101]; AInt 2102; AInt 2103]) ;;;
    add_lazy (new ExtTemp [AInt 0]) ;;;
    add_lazy (new ExtTemp [AInt 1]) ;;;
    add_lazy (new ExtTemp [AInt 2]) ;;;
    add_lazy (new ExtHumidity [AInt 0])
  else if is_type ty ["SHSW-21"] then
    st <- gets settings ;;
    if settings_truthy st then
      mode <- settings_get "mode" (JVal VNone) ;;
      (if json_eq_str mode "roller" then
         add (new Roller [])
       else
         add (new Relay [AInt 1; AList [112; 1101]; AList [111; 4101]; AList [118; 2101]]) ;;;
         add (new Relay [AInt 2; AList [122; 1201]; AList [111; 4101]; AList [128; 2201]])) ;;;
      add (new Switch [AInt 1; AList [118; 2101]; AInt 2102; AInt 2103]) ;;;
      add (new Switch [AInt 2; AList [118; 2201]; AInt 2202; AInt 2203]) ;;;
      add (new PowerMeter [AInt 0; AList [111; 4101]])
    else ret tt
  else if is_type ty ["SHSW-25"] then
    st <- gets settings ;;
    if settings_truthy st then
      mode <- settings_get "mode" (JVal VNone) ;;
      if json_eq_str mode "roller" then
        add (new Roller []) ;;;
        add (new PowerMeter [AInt 1; AList [111; 121; 4101; 4102]; AList [0; 1]])
      else
        add (new Relay [AInt 1; AList [112; 1101]; AList [111; 4101]; AList [118; 2101]]) ;;;
        add (new Relay [AInt 2; AList [122; 1201]; AList [121; 4201]; AList [128; 2201]]) ;;;
        add (new PowerMeter [AInt 1; AList [111; 4101]]) ;;;
        add (new PowerMeter [AInt 2; AList [121; 4201]]) ;;;
        add (new Switch [AInt 1; AList [118; 2101]; AInt 2102; AInt 2103]) ;;;
        add (new Switch [AInt 2; AList [128; 2201]; AInt 2202; AInt 2203])
    else ret tt
  else if is_type ty ["SHPLG-1"; "SHPLG2-1"; "SHPLG-S"] then
    add (new Relay [AInt 0; AList [112; 1101]; AList [111; 4101]]) ;;;
    add (new PowerMeter [AInt 0; AList [111; 4101]])
  else if is_type ty ["SHEM-3"] then
    add (new Relay [AInt 0; AList [112; 1101]]) ;;;
    add (new PowerMeter [AInt 1; AList [111; 4105]; ANone; AList [116; 4108];
                         AList [114; 4110]; AList [115; 4109]; AInt 4106]) ;;;
    add (new PowerMeter [AInt 2; AList [121; 4205]; ANone; AList [126; 4208];
                         AList [124; 4210]; AList [125; 4209]; AInt 4206]) ;;;
    add (new PowerMeter [AInt 3; AList [131; 4305]; ANone; AList [136; 4308];
                         AList [134; 4310]; AList [135; 4309]; AInt 4306])
  else if is_type ty ["SH2LED-1"] then
    add (new RGBW2W [AInt 0]) ;;;
    add (new RGBW2W [AInt 1])
  else if is_type ty ["SHEM"] then
    add (new Relay [AInt 0; AInt 112]) ;;;
    add (new_kw PowerMeter [AInt 1; AList [111]] [("voltage_to_block", ABool true)]) ;;;
    add (new_kw PowerMeter [AInt 2; AList [121]] [("voltage_to_block", ABool true)])
  else if is_type ty ["SHSW-44"] then
    for_each [0; 1; 2; 3] (fun channel =>
      let c10 := channel * 10 in
      let c100 := channel * 100 in
      let relay_pos := [112 + c10; 1101 + c100] in
      let power_pos := [111 + c10; 4101 + c100] in
      let switch_pos := [118 + c10; 2101 + c100] in
      add (new Relay [AInt (channel + 1); AList relay_pos; AList power_pos;
                      AList switch_pos]) ;;;
      add (new PowerMeter [AInt (channel + 1); AList power_pos]) ;;;
      add (new Switch [AInt (channel + 1); AList switch_pos]))
  else if is_type ty ["SHRGBWW-01"] then
    add (new RGBWW [])
  else if is_type ty ["SHDM-1"; "SHDM-2"] then
    modify (set_info_value_cfg (Some [(INFO_VALUE_DEVICE_TEMP c, pos 311)])) ;;;
    add (new Dimmer [AInt 121; AInt 111]) ;;;
    add (new Switch [AInt 1; AInt 131]) ;;;
    add (new Switch [AInt 2; AInt 141]) ;;;
    add_lazy (new PowerMeter [AInt 0; ANone])
  else if is_type ty ["SHHT-1"] then
    modify (set_sleep_device true) ;;;
    modify (set_unavailable_after_sec (Some (SENSOR_UNAVAILABLE_SEC c))) ;;;
    add (new Sensor [AInt 33; AStr "temperature"; AStr "tmp/tC"]) ;;;
    add (new Sensor [AInt 44; AStr "humidity"; AStr "hum/value"])
  else if is_type ty ["SHRGBW2"] then
    st <- gets settings ;;
    (if settings_truthy st then
       mode <- settings_get "mode" (JVal (VStr "color")) ;;
       if json_eq_str mode "color" then
         add (new RGBW2C []) ;;;
         add (new PowerMeter [AInt 0; AList [211]])
       else
         for_each [0; 1; 2; 3] (fun channel =>
           add (new RGBW2W [AInt (channel + 1)]) ;;;
           add (new PowerMeter [AInt (channel + 1); AList [211 + channel * 10]]))
     else ret tt) ;;;
    add (new Switch [AInt 0; AInt 118])
  else if is_type ty ["SHWT-1"] then
    modify (set_sleep_device true) ;;;
    modify (set_unavailable_after_sec (Some (SENSOR_UNAVAILABLE_SEC c))) ;;;
    add (new Flood []) ;;;
    add (new Sensor [AInt 33; AStr "temperature"; AStr "tmp/tC"])
  else if is_type ty ["SHDW-1"] then
    modify (set_sleep_device true) ;;;
    modify (set_unavailable_after_sec (Some (SENSOR_UNAVAILABLE_SEC c))) ;;;
    modify (set_info_value_cfg (Some
      [(INFO_VALUE_BATTERY c, pos 77);
       (INFO_VALUE_TILT c, pos 88);
       (INFO_VALUE_VIBRATION c, pos_auto_set 99 (VInt 0) 60);
       (INFO_VALUE_ILLUMINANCE c, pos 66)])) ;;;
    add (new DoorWindow [AInt 55])
  else if is_type ty ["SHDW-2"] then
    modify (set_sleep_device true) ;;;
    modify (fun self => set_exclude_info_values
              (exclude_info_values self ++ [INFO_VALUE_DEVICE_TEMP c]) self) ;;;
    modify (set_unavailable_after_sec (Some (SENSOR_UNAVAILABLE_SEC c))) ;;;
    modify (set_info_value_cfg (Some
      [(INFO_VALUE_BATTERY c, pos 3111);
       (INFO_VALUE_TILT c, pos 3109);
       (INFO_VALUE_VIBRATION c, pos_auto_set 6110 (VInt 0) 60);
       (INFO_VALUE_TEMP c, pos 3101);
       (INFO_VALUE_ILLUMINANCE c, pos 3106)])) ;;;
    add (new DoorWindow [AInt 3108])
  else if is_type ty ["SHBDUO-1"] then
    add (new Duo []) ;;;
    add (new_kw PowerMeter [AInt 0; AList [213]] [("tot_pos", AInt 214)])
  else if is_type ty ["SHVIN-1"] then
    add (new Vintage []) ;;;
    add (new_kw PowerMeter [AInt 0; AList [213]] [("tot_pos", AInt 214)])
  else if is_type ty ["SHBTN-1"] then
    add (new Switch [AInt 0; AInt 118; AInt 119; AInt 120; ABool true])
  else if is_type ty ["SHIX3-1"] then
    add (new Switch [AInt 1; AInt 118; AInt 119; AInt 120]) ;;;
    add (new Switch [AInt 2; AInt 128; AInt 129; AInt 130]) ;;;
    add (new Switch [AInt 3; AInt 138; AInt 139; AInt 140])
  else if is_type ty ["SHGS-1"] then
    modify (set_info_value_cfg (Some
      [(INFO_VALUE_PPM c, pos 122);
       (INFO_VALUE_SENSOR c, pos 118)])) ;;;
    add (new Gas [AInt 119])
  else if is_type ty ["SHAIR-1"] then
    modify (set_info_value_cfg (Some
      [(INFO_VALUE_TEMP c, pos_path 119 "ext_temperatures/0");
       (INFO_VALUE_TOTAL_WORK_TIME c, pos_path 121 "total_work_time")])) ;;;
    add (new Relay [AInt 0; AInt 112; AInt 111; AInt 118]) ;;;
    add (new PowerMeter [AInt 0; AList [111]]) ;;;
    add (new Switch [AInt 0; AInt 118])
  else ret tt.

Definition _setup : M World unit :=
  poll_settings ;;;
  on_block setup_devices.

(** The attributes [Block.__init__] and [Base.__init__] set before the
    first composition. *)
Definition new_block (block_id block_type ip discovery : string) : Block :=
  {| blk_id := block_id; type := block_type; ip_addr := ip; devices := [];
     discovery_src := discovery; protocols := []; cb_updated := [];
     unavailable_after_sec := None; last_update_status_info := None;
     reload := false; last_updated := None; sleep_device := false;
     payload := VNone; settings := None; exclude_info_values := [];
     _available := None;
     info_values := ∅; info_values_updated := ∅; _info_value_cfg := None |}.

(** [Block.__init__]: the new block takes the place of [blk]. *)
Definition init (block_id block_type ip discovery : string) : M World unit :=
  modify (set_blk (new_block block_id block_type ip discovery)) ;;;
  _setup ;;;
  update (set_available None).

Definition _reload_devices : M World unit :=
  b <- self ;;
  for_each (devices b) (fun device =>
    emit (EvRemoveDevice device) ;;;
    emit (EvClose device)) ;;;
  update (set_devices []) ;;;
  _setup.

(** **** The push payload

    The address and the info values of a unit are state of the sub-device
    classes; what [update_coap] does to a unit is recorded as the event
    [EvDevCoap]. *)

Definition update_coap (now : Z) (payload : json) (ip : string) : M World unit :=
  update (set_ip_addr ip) ;;;
  update (set_last_updated (Some now)) ;;;
  update (_update_info_values_coap env payload) ;;;
  b <- self ;;
  for_each (devices b) (fun dev => emit (EvDevCoap dev)) ;;;
  b <- self ;;
  if reload b then
    _reload_devices ;;;
    b <- self ;;
    for_each (devices b) (fun dev =>
      emit (EvDevCoap dev) ;;;
      emit (EvAddDevice dev)) ;;;
    update (set_reload false)
  else ret tt.

End Ops.

(** The topology composed for a model and its settings: the units of a new
    block of that model once the conditional chain has run on it. *)
Definition specs_for (c : Const) (model : string) (st : option json) : list Device :=
  devices (setup_devices c (set_settings st (new_block "" model "" ""))).2.

End block.

(** ** Concrete instances, for the examples *)

Module examples.
Import block.

Definition consts : Const := {|
  SENSOR_UNAVAILABLE_SEC := 600;
  INFO_VALUE_DEVICE_TEMP := "device_temp";
  INFO_VALUE_CLOUD_STATUS := "cloud_status";
  INFO_VALUE_CLOUD_ENABLED := "cloud_enabled";
  INFO_VALUE_CLOUD_CONNECTED := "cloud_connected";
  INFO_VALUE_FW_VERSION := "fw_version";
  INFO_VALUE_LATEST_FIRMWARE_VERSION := "latest_fw_version";
  INFO_VALUE_LATEST_BETA_FW_VERSION := "latest_beta_fw_version";
  INFO_VALUE_PAYLOAD := "payload";
  INFO_VALUE_BATTERY := "battery";
  INFO_VALUE_ILLUMINANCE := "illuminance";
  INFO_VALUE_TILT := "tilt";
  INFO_VALUE_VIBRATION := "vibration";
  INFO_VALUE_TEMP := "temperature";
  INFO_VALUE_PPM := "ppm";
  INFO_VALUE_SENSOR := "sensor";
  INFO_VALUE_TOTAL_WORK_TIME := "total_work_time";
  BLOCK_INFO_VALUES :=
    [("cloud_enabled", path "cloud_enabled");
     ("cloud_connected", path "cloud_connected")];
  SHELLY_TYPES := {[ "SHDW-2" := {[ "battery" := VBool true ]} ]};
  REGEX_VER := fun _ => None
|}.

(** An extraction that copies the scalar under the top-level key named by
    the path of the rule. *)
Definition copy_top_level (name : string) (status : json) (cfg : iv_cfg) (b : Block)
  : Block :=
  match attr_path cfg, status with
  | Some p, JObj l =>
      match assoc_get l p with
      | Some (JVal v) => setitem_info_values name v b
      | _ => b
      end
  | _, _ => b
  end.

(** A world in which every request fails and no hook raises. *)
Definition offline : Collab := {|
  http := fun _ _ => (false, JVal VNone);
  fetch := fun _ => Raise (OtherError "URLError");
  _update_info_value := copy_top_level;
  _update_info_values_coap := fun _ b => b;
  dev_status := fun _ _ => None
|}.

(** A world in which the device answers [status] and [sett]. *)
Definition online (status sett : json) : Collab := {|
  http := fun _ url => if String.eqb url "/settings" then (true, sett) else (true, status);
  fetch := fun _ => Raise (OtherError "URLError");
  _update_info_value := copy_top_level;
  _update_info_values_coap := fun _ b => b;
  dev_status := fun _ _ => None
|}.

(** A world in which the catalogue document has a null ["data"] member. *)
Definition null_catalogue : Collab := {|
  http := fun _ _ => (false, JVal VNone);
  fetch := fun _ => Ok (JVal VNone);
  _update_info_value := copy_top_level;
  _update_info_values_coap := fun _ b => b;
  dev_status := fun _ _ => None
|}.

Definition world_of (b : Block) : World :=
  {| blk := b; fmgr := firmware.init; trace := [] |}.

Definition fresh (model : string) : Block :=
  new_block "B0B21C" model "192.168.1.20" "coap".

(** A door/window sensor whose vibration flag was set at time [t]. *)
Definition shaken (v : pyval) (t : Z) : Block :=
  set_info_value_cfg
    (Some [("battery", pos 3111);
           ("vibration", pos_auto_set 6110 (VInt 0) 60)])
    (set_info_values {[ "vibration" := v ]}
       (let b := fresh "SHDW-2" in
        {| blk_id := blk_id b; type := type b; ip_addr := ip_addr b;
           devices := devices b; discovery_src := discovery_src b;
           protocols := protocols b; cb_updated := [{| cb_id := 7%nat; cb_raises := None |}];
           unavailable_after_sec := unavailable_after_sec b;
           last_update_status_info := last_update_status_info b;
           reload := reload b; last_updated := last_updated b;
           sleep_device := sleep_device b; payload := payload b;
           settings := settings b; exclude_info_values := exclude_info_values b;
           _available := _available b; info_values := info_values b;
           info_values_updated := {[ "vibration" := t ]};
           _info_value_cfg := _info_value_cfg b |})).

(** A block that knows the given firmware versions. *)
Definition with_versions (current latest : pyval) : Block :=
  set_info_values {[ "fw_version" := current; "latest_fw_version" := latest ]}
    (fresh "SHSW-1").

(** A block with the given observers. *)
Definition observed (cbs : list callback) : Block :=
  let b := fresh "SHSW-1" in
  {| blk_id := blk_id b; type := type b; ip_addr := ip_addr b;
     devices := devices b; discovery_src := discovery_src b;
     protocols := protocols b; cb_updated := cbs;
     unavailable_after_sec := unavailable_after_sec b;
     last_update_status_info := last_update_status_info b;
     reload := reload b; last_updated := last_updated b;
     sleep_device := sleep_device b; payload := payload b;
     settings := settings b; exclude_info_values := exclude_info_values b;
     _available := _available b; info_values := info_values b;
     info_values_updated := info_values_updated b;
     _info_value_cfg := _info_value_cfg b |}.

End examples.

(** ** Vocabulary of the statements *)

Import block.

(** The manager does not download (again): it is marked as downloaded, or
    holds a document. *)
Definition settled (fm : firmware.FirmwareManager) : Prop :=
  firmware._downloaded fm = true \/ is_none (firmware._firmwares fm) = false.

(** The whole numbers of seconds with which the comparison of the rounded
    [total_seconds()] is the comparison of the microseconds: the floats
    next to such a number are less than two microseconds away, so that a
    quotient at least one microsecond off is not rounded to it. *)
Definition exact_sec (sec : Z) : Prop := 0 <= sec < 2 ^ 34.

(** The events appended to the trace between two worlds. *)
Definition emitted (w w' : World) (evs : list event) : Prop :=
  trace w' = trace w ++ evs.

(** The guard of an auto-set rule: the value differs from the target and
    its time stamp is more than the delay old. *)
Definition due (now : Z) (b : Block) (rule : string * iv_cfg) : bool :=
  match attr_auto_set rule.2 with
  | Some param =>
      py_ne (dict_get (info_values b) rule.1) param.1 &&
      match info_values_updated b !! rule.1 with
      | Some time => total_seconds_gt (now - time) param.2
      | None => false
      end
  | None => false
  end.

(** The events of one notification of the observers [cbs], all returning. *)
Definition notification (cbs : list callback) : list event :=
  EvUpdated :: map (fun cb => EvCallback (cb_id cb)) cbs.

(** The settings poll is skipped for a battery-powered model. *)
Definition battery (c : Const) (model : string) : bool :=
  match SHELLY_TYPES c !! model with
  | Some t => truthy (dict_get t "battery")
  | None => false
  end.

(** The tri-state of the cloud connection. *)
Definition cloud_status (enabled connected : pyval) : string :=
  if truthy enabled then
    if truthy connected then "connected" else "disconnected"
  else "disabled".

(** [m] leaves the component [f] of the world as it is, also when it
    raises. *)
Definition keeps {A T} (f : World -> T) (m : M World A) : Prop :=
  forall w, f (m w).2 = f w.

(** [m] never raises. *)
Definition returns {A} (m : M World A) : Prop :=
  forall w, exists a, (m w).1 = Ok a.

(** The info-value names that the status poll reads and writes for the
    cloud state are pairwise different. *)
Definition cloud_names_distinct (c : Const) : Prop :=
  NoDup [INFO_VALUE_CLOUD_STATUS c; INFO_VALUE_CLOUD_ENABLED c;
         INFO_VALUE_CLOUD_CONNECTED c; INFO_VALUE_LATEST_BETA_FW_VERSION c].

(** Settings on which the composition does not raise: absent, falsy, or a
    JSON object. *)
Definition settings_ok (st : option json) : bool :=
  match st with
  | None => true
  | Some (JObj _) => true
  | Some j => negb (json_truthy j)
  end.

(** On two blocks of the model [model] whose settings are related by [R],
    [m] returns the same value, keeps model and settings, and appends the
    same units. *)
Definition composes (model : string) (R : option json -> option json -> Prop)
    {A} (m : M Block A) : Prop :=
  forall b1 b2,
    type b1 = model -> type b2 = model -> R (settings b1) (settings b2) ->
    (exists a, (m b1).1 = Ok a /\ (m b2).1 = Ok a) /\
    type (m b1).2 = model /\ type (m b2).2 = model /\
    settings (m b1).2 = settings b1 /\ settings (m b2).2 = settings b2 /\
    exists l, devices (m b1).2 = devices b1 ++ l /\
              devices (m b2).2 = devices b2 ++ l.

(** The topology of a model branches on the settings. *)
Definition depends_on_settings (c : Const) (model : string) : Prop :=
  exists s1 s2, settings_ok s1 = true /\ settings_ok s2 = true /\
                specs_for c model s1 <> specs_for c model s2.

(** What [version] and [url] read from the catalogue document [d]. *)
Definition version_of (rx : string -> option string) (d : json)
    (model : string) (beta : bool) : result (option string) :=
  rbind (json_in model d) (fun present =>
    if (present : bool) then
      rbind (json_getitem d model) (fun cfg =>
        rbind (if beta then json_in "beta_ver" cfg else Ok false) (fun has_beta =>
          rbind (json_getitem cfg (if (has_beta : bool) then "beta_ver" else "version"))
            (fun v => rbind (firmware.format rx v) (fun r => Ok (Some r)))))
    else Ok None).

Definition url_of (d : json) (model : string) (beta : bool) : result json :=
  rbind (json_in model d) (fun present =>
    if (present : bool) then
      rbind (json_getitem d model) (fun cfg =>
        rbind (if beta then json_in "beta_ver" cfg else Ok false) (fun has_beta =>
          if (has_beta : bool) then json_getitem cfg "beta_url" else Ok (JVal VNone)))
    else Ok (JVal VNone)).

(** The value an auto-set rule resets to. *)
Definition target_of (cfg : iv_cfg) : pyval :=
  match attr_auto_set cfg with
  | Some param => param.1
  | None => VNone
  end.

(** The events of a tick: one notification per rule that is due. *)
Definition tick_events (now : Z) (b : Block) (cfgs : list (string * iv_cfg))
  : list event :=
  flat_map (fun r => if due now b r then notification (cb_updated b) else []) cfgs.

(** The model identifiers that [_setup] tests for, in the order of the
    chain. *)
Definition known_models : list string :=
  ["SHBLB-1"; "SHCL-255"; "SHSW-1"; "SHSK-1"; "SHSW-PM"; "SHSW-21"; "SHSW-25";
   "SHPLG-1"; "SHPLG2-1"; "SHPLG-S"; "SHEM-3"; "SH2LED-1"; "SHEM"; "SHSW-44";
   "SHRGBWW-01"; "SHDM-1"; "SHDM-2"; "SHHT-1"; "SHRGBW2"; "SHWT-1"; "SHDW-1";
   "SHDW-2"; "SHBDUO-1"; "SHVIN-1"; "SHBTN-1"; "SHIX3-1"; "SHGS-1"; "SHAIR-1"].

(** The models whose branch reads the settings. *)
Definition settings_models : list string := ["SHSW-21"; "SHSW-25"; "SHRGBW2"].

(** The models whose branch configures the unavailability timeout. *)
Definition sleepers : list string := ["SHHT-1"; "SHWT-1"; "SHDW-1"; "SHDW-2"].

(** The block without its info values and their time stamps. *)
Definition strip (b : Block) : Block :=
  {| blk_id := blk_id b; type := type b; ip_addr := ip_addr b; devices := devices b;
     discovery_src := discovery_src b; protocols := protocols b;
     cb_updated := cb_updated b; unavailable_after_sec := unavailable_after_sec b;
     last_update_status_info := last_update_status_info b; reload := reload b;
     last_updated := last_updated b; sleep_device := sleep_device b;
     payload := payload b; settings := settings b;
     exclude_info_values := exclude_info_values b; _available := _available b;
     info_values := ∅; info_values_updated := ∅;
     _info_value_cfg := _info_value_cfg b |}.

(** The extraction methods of [Base] write info values and their time
    stamps, and nothing else of the block. *)
Definition extraction_writes_values_only (env : Collab) : Prop :=
  (forall name st cfg b, strip (_update_info_value env name st cfg b) = strip b) /\
  (forall payload b, strip (_update_info_values_coap env payload b) = strip b).


(** The events of the status hooks of the units. *)
Definition status_events (env : Collab) (status : json) (l : list Device)
  : list event :=
  flat_map (fun d => EvDevStatus d ::
                     match dev_status env d status with
                     | Some ex => [EvExceptionLog ex]
                     | None => []
                     end) l.

(** On a block of the model [model], [m] keeps the model and the attribute
    [f], whether it returns or raises. *)
Definition preserves {T} (model : string) (f : Block -> T) {A} (m : M Block A)
  : Prop :=
  forall b, type b = model -> f (m b).2 = f b /\ type (m b).2 = model.

(** The attributes of the block that the conditional chain of [_setup] never
    writes. *)
Definition untouched (b : Block) :=
  (blk_id b, ip_addr b, discovery_src b, protocols b, cb_updated b,
   last_update_status_info b, reload b, last_updated b, payload b, settings b,
   _available b, info_values b, info_values_updated b).

(** The timeout configuration of a block. *)
Definition timeout_cfg (b : Block) : option Z * bool :=
  (unavailable_after_sec b, sleep_device b).

(** The block after the settings poll, and the events of the poll. *)
Definition with_polled_settings (c : Const) (env : Collab) (b : Block) : Block :=
  if battery c (type b) then b
  else if (http env (ip_addr b) "/settings").1
       then set_settings (Some (http env (ip_addr b) "/settings").2) b
       else b.

Definition poll_events (c : Const) (b : Block) : list event :=
  if battery c (type b) then [] else [EvHttpGet (ip_addr b) "/settings"].

(** The events that detach the units [l]. *)
Definition detach_events (l : list Device) : list event :=
  flat_map (fun d => [EvRemoveDevice d; EvClose d]) l.

(** * Properties *)

(** ** The monad *)

Lemma bind_ok {S A B} (m : M S A) (k : A -> M S B) s a s' :
  m s = (Ok a, s') -> bind m k s = k a s'.
Proof. intros H. unfold bind. now rewrite H. Qed.

Lemma bind_raise {S A B} (m : M S A) (k : A -> M S B) s e s' :
  m s = (Raise e, s') -> bind m k s = (Raise e, s').
Proof. intros H. unfold bind. now rewrite H. Qed.

Lemma for_each_cons {S A} (x : A) (l : list A) (body : A -> M S unit) s :
  for_each (x :: l) body s = bind (body x) (fun _ => for_each l body) s.
Proof. reflexivity. Qed.

Lemma for_each_app {S A} (l1 l2 : list A) (body : A -> M S unit) s s1 :
  for_each l1 body s = (Ok tt, s1) ->
  for_each (l1 ++ l2) body s = for_each l2 body s1.
Proof.
  revert s. induction l1 as [|x l1 IH]; intros s H; simpl in *.
  - unfold ret in H. now inversion H.
  - unfold bind in *. destruct (body x s) as [[[]|e] s2]; [auto | discriminate].
Qed.

(** A loop whose every iteration is a no-op is a no-op. *)
Lemma for_each_skip {S A} (l : list A) (body : A -> M S unit) s :
  (forall x, x ∈ l -> body x s = (Ok tt, s)) ->
  for_each l body s = (Ok tt, s).
Proof.
  induction l as [|x l IH]; intros H; simpl; [reflexivity|].
  rewrite (bind_ok _ _ _ tt s); [|apply H; left].
  apply IH. intros y Hy. apply H. now right.
Qed.

(** A loop that only emits events. *)
Lemma for_each_emit {A} (l : list A) (f : A -> list event) (body : A -> M World unit) w :
  (forall x w0, x ∈ l -> body x w0 =
     (Ok tt, {| blk := blk w0; fmgr := fmgr w0; trace := trace w0 ++ f x |})) ->
  for_each l body w =
    (Ok tt, {| blk := blk w; fmgr := fmgr w; trace := trace w ++ flat_map f l |}).
Proof.
  revert w. induction l as [|x l IH]; intros w H; simpl.
  - unfold ret. rewrite app_nil_r. now destruct w.
  - erewrite bind_ok; [|apply H; left].
    rewrite IH; [|intros y w0 Hy; apply H; now right].
    simpl. now rewrite <- app_assoc.
Qed.

Section Keeps.
Context {T : Type} (f : World -> T).

Lemma keeps_ret {A} (a : A) : keeps f (ret a).
Proof. intros w. reflexivity. Qed.

Lemma keeps_raise {A} e : keeps f (@raise World A e).
Proof. intros w. reflexivity. Qed.

Lemma keeps_gets {A} (g : World -> A) : keeps f (gets g).
Proof. intros w. reflexivity. Qed.

Lemma keeps_bind {A B} (m : M World A) (k : A -> M World B) :
  keeps f m -> (forall a, keeps f (k a)) -> keeps f (bind m k).
Proof.
  intros Hm Hk w. unfold bind. specialize (Hm w).
  destruct (m w) as [[a|e] w1]; simpl in *; [|assumption].
  now rewrite Hk.
Qed.

Lemma keeps_for_each {A} (l : list A) (body : A -> M World unit) :
  (forall x, keeps f (body x)) -> keeps f (for_each l body).
Proof.
  intros H. induction l as [|x l IH]; simpl.
  - apply keeps_ret.
  - apply keeps_bind; auto.
Qed.

Lemma keeps_try_except {A} (m : M World A) h :
  keeps f m -> (forall e, keeps f (h e)) -> keeps f (try_except m h).
Proof.
  intros Hm Hh w. unfold try_except. specialize (Hm w).
  destruct (m w) as [[a|e] w1]; simpl in *; [assumption|].
  now rewrite Hh.
Qed.

Lemma keeps_if {A} (b : bool) (m1 m2 : M World A) :
  keeps f m1 -> keeps f m2 -> keeps f (if b then m1 else m2).
Proof. now destruct b. Qed.
End Keeps.

Lemma returns_ret {A} (a : A) : returns (ret a).
Proof. intros w. now exists a. Qed.

Lemma returns_bind {A B} (m : M World A) (k : A -> M World B) :
  returns m -> (forall a, returns (k a)) -> returns (bind m k).
Proof.
  intros Hm Hk w. unfold bind. destruct (Hm w) as [a Ha].
  destruct (m w) as [[a'|e] w1]; simpl in *; [apply Hk | discriminate].
Qed.

Lemma returns_for_each {A} (l : list A) (body : A -> M World unit) :
  (forall x, returns (body x)) -> returns (for_each l body).
Proof.
  intros H. induction l as [|x l IH]; simpl.
  - apply returns_ret.
  - apply returns_bind; auto.
Qed.

Lemma returns_if {A} (b : bool) (m1 m2 : M World A) :
  returns m1 -> returns m2 -> returns (if b then m1 else m2).
Proof. now destruct b. Qed.

Lemma returns_update g : returns (update g).
Proof. intros w. now exists tt. Qed.

Lemma returns_emit e : returns (emit e).
Proof. intros w. now exists tt. Qed.

Lemma returns_self : returns self.
Proof. intros w. now eexists. Qed.

Lemma keeps_emit_blk e : keeps blk (emit e).
Proof. intros w. reflexivity. Qed.

Lemma keeps_emit_fmgr e : keeps fmgr (emit e).
Proof. intros w. reflexivity. Qed.

Lemma keeps_update_trace g : keeps trace (update g).
Proof. intros w. reflexivity. Qed.

Lemma keeps_update_fmgr g : keeps fmgr (update g).
Proof. intros w. reflexivity. Qed.

Create HintDb keeps.
#[export] Hint Resolve keeps_ret keeps_raise keeps_gets keeps_emit_blk keeps_emit_fmgr
  keeps_update_trace keeps_update_fmgr returns_ret returns_update returns_emit
  returns_self : keeps.

(** Builds a [keeps] or [returns] fact along the structure of the code. *)
Ltac framing :=
  repeat first
    [ apply keeps_bind; [|intros ?]
    | apply keeps_for_each; intros ?
    | apply keeps_try_except; [|intros ?]
    | apply returns_bind; [|intros ?]
    | apply returns_for_each; intros ?
    | apply keeps_if
    | apply returns_if
    | solve [auto with keeps]
    | match goal with
      | |- keeps _ (match ?x with _ => _ end) => destruct x
      | |- returns (match ?x with _ => _ end) => destruct x
      end ].

(** ** Seconds as floats *)

Lemma round_half_even_error N D :
  0 < D -> 0 <= N ->
  N / D <= round_half_even N D <= N / D + 1 /\
  - D <= 2 * (round_half_even N D * D - N) <= D /\
  (N mod D = 0 -> round_half_even N D = N / D).
Proof.
  intros HD HN. unfold round_half_even.
  pose proof (Z.div_mod N D ltac:(lia)) as E.
  pose proof (Z.mod_pos_bound N D HD) as Hr.
  set (q := N / D) in *. set (r := N mod D) in *.
  destruct (Z.ltb D (2 * r) || (Z.eqb D (2 * r) && Z.odd q)) eqn:Hb.
  - split; [lia|]. split.
    + apply orb_true_iff in Hb as [Hb | Hb].
      * apply Z.ltb_lt in Hb. nia.
      * apply andb_true_iff in Hb as [Hb _]. apply Z.eqb_eq in Hb. nia.
    + intros H0. rewrite H0 in Hb. simpl in Hb.
      apply orb_true_iff in Hb as [Hb | Hb].
      * apply Z.ltb_lt in Hb. lia.
      * apply andb_true_iff in Hb as [Hb _]. apply Z.eqb_eq in Hb. lia.
  - split; [lia|]. split; [|reflexivity].
    apply orb_false_iff in Hb as [Hb _]. apply Z.ltb_ge in Hb. nia.
Qed.

(** The quotient that is rounded has 53 bits. *)
Lemma scaled_quotient a d :
  0 < a -> 0 < d ->
  let e0 := Z.log2 a - Z.log2 d - 52 in
  let e := if Z.ltb (fst (scaled a d e0) / snd (scaled a d e0)) (2 ^ 52)
           then e0 - 1 else e0 in
  0 < snd (scaled a d e) /\ 0 <= fst (scaled a d e) /\
  2 ^ 52 <= fst (scaled a d e) / snd (scaled a d e).
Proof.
  intros Ha Hd e0 e.
  pose proof (Z.log2_spec a Ha) as [La Ua].
  pose proof (Z.log2_spec d Hd) as [Ld Ud].
  pose proof (Z.log2_nonneg a) as Na. pose proof (Z.log2_nonneg d) as Nd.
  set (la := Z.log2 a) in *. set (ld := Z.log2 d) in *.
  assert (Hpos : forall e', 0 < snd (scaled a d e') /\ 0 <= fst (scaled a d e')).
  { intros e'. unfold scaled. destruct (Z.leb_spec 0 e'); simpl.
    - split; [|lia]. apply Z.mul_pos_pos; [lia|]. now apply Z.pow_pos_nonneg.
    - split; [lia|]. apply Z.mul_nonneg_nonneg; [lia|]. apply Z.pow_nonneg. lia. }
  assert (Hlow : forall e' p, 0 <= p -> e' + p + ld + 1 <= la ->
            2 ^ p <= fst (scaled a d e') / snd (scaled a d e')).
  { intros e' p Hp He'. destruct (Hpos e') as [HD HN].
    apply Z.div_le_lower_bound; [exact HD|].
    unfold scaled. destruct (Z.leb_spec 0 e'); simpl.
    - assert (H1 : d * 2 ^ e' * 2 ^ p <= 2 ^ (ld + 1) * 2 ^ e' * 2 ^ p).
      { apply Z.mul_le_mono_nonneg_r; [apply Z.pow_nonneg; lia|].
        apply Z.mul_le_mono_nonneg_r; [apply Z.pow_nonneg; lia|]. lia. }
      rewrite <- !Z.pow_add_r in H1 by lia.
      assert (2 ^ (ld + 1 + e' + p) <= 2 ^ la) by (apply Z.pow_le_mono_r; lia).
      lia.
    - assert (H1 : d * 2 ^ p <= 2 ^ (ld + 1) * 2 ^ p).
      { apply Z.mul_le_mono_nonneg_r; [apply Z.pow_nonneg; lia|]. lia. }
      rewrite <- Z.pow_add_r in H1 by lia.
      assert (H2 : 2 ^ la * 2 ^ (- e') <= a * 2 ^ (- e')).
      { apply Z.mul_le_mono_nonneg_r; [apply Z.pow_nonneg; lia|]. lia. }
      rewrite <- Z.pow_add_r in H2 by lia.
      assert (2 ^ (ld + 1 + p) <= 2 ^ (la + - e')) by (apply Z.pow_le_mono_r; lia).
      lia. }
  split; [apply Hpos|]. split; [apply Hpos|].
  unfold e.
  destruct (Z.ltb_spec (fst (scaled a d e0) / snd (scaled a d e0)) (2 ^ 52)).
  - apply Hlow; unfold e0; lia.
  - assumption.
Qed.

Lemma true_divide_pos_gt a sec :
  0 < a -> exact_sec sec ->
  float_gt (true_divide_pos a 1000000) sec = Z.ltb (sec * 1000000) a /\
  0 < fst (true_divide_pos a 1000000).
Proof.
  unfold exact_sec. intros Ha Hsec. unfold true_divide_pos.
  pose proof (scaled_quotient a 1000000 Ha ltac:(lia)) as H. cbv zeta in H.
  set (e := if Z.ltb _ _ then _ else _) in *. clearbody e.
  destruct H as (HD & HN & Hq).
  pose proof (round_half_even_error _ _ HD HN) as Hm.
  set (m := round_half_even _ _) in *. clearbody m.
  destruct Hm as (Hqm & Herr & Hexact).
  assert (Hm0 : 0 < m).
  { assert (0 < 2 ^ 52) by (apply Z.pow_pos_nonneg; lia). lia. }
  split; [|exact Hm0]. unfold float_gt. cbn [fst snd].
  revert HD HN Hq Hqm Herr Hexact. unfold scaled.
  destruct (Z.leb_spec 0 e) as [He | He]; cbn [fst snd];
    intros HD HN Hq Hqm Herr Hexact.
  - assert (HP : 1 <= 2 ^ e) by (apply (Z.pow_le_mono_r 2 0 e); lia).
    assert (H52 : 2 ^ 34 < 2 ^ 52) by (apply Z.pow_lt_mono_r; lia).
    assert (Hlow : 2 ^ 52 * (1000000 * 2 ^ e) <= a).
    { pose proof (Z.mul_div_le a (1000000 * 2 ^ e) HD).
      assert (2 ^ 52 * (1000000 * 2 ^ e) <= a / (1000000 * 2 ^ e) * (1000000 * 2 ^ e)).
      { apply Z.mul_le_mono_nonneg_r; [lia | exact Hq]. }
      lia. }
    assert (E1 : Z.ltb sec (m * 2 ^ e) = true) by (apply Z.ltb_lt; nia).
    assert (E2 : Z.ltb (sec * 1000000) a = true) by (apply Z.ltb_lt; nia).
    now rewrite E1, E2.
  - set (P := 2 ^ (- e)) in *.
    assert (HP : 0 < P) by (apply Z.pow_pos_nonneg; lia).
    destruct (Z.ltb_spec (sec * 1000000) a) as [Hlt | Hge].
    + apply Z.ltb_lt.
      destruct (Z.lt_ge_cases (sec * P) m) as [|Hc]; [assumption|exfalso].
      assert (H1 : 2 ^ 52 < 2 ^ 34 * P) by nia.
      assert (H2 : 19 <= - e).
      { destruct (Z.le_gt_cases 19 (- e)); [assumption|exfalso].
        assert (P <= 2 ^ 18) by (apply Z.pow_le_mono_r; lia).
        assert (2 ^ 34 * 2 ^ 18 = 2 ^ 52) by reflexivity. nia. }
      assert (H3 : 2 ^ 19 <= P) by (apply Z.pow_le_mono_r; lia).
      assert (2 ^ 19 = 524288) by reflexivity.
      nia.
    + apply Z.ltb_ge.
      assert (Hqle : a * P / 1000000 <= sec * P).
      { apply Z.div_le_upper_bound; [lia|]. nia. }
      destruct (Z.eq_dec (a * P / 1000000) (sec * P)) as [Heq | Hne]; [|lia].
      rewrite Hexact; [lia|].
      pose proof (Z.div_mod (a * P) 1000000 ltac:(lia)) as Edm.
      pose proof (Z.mod_pos_bound (a * P) 1000000 ltac:(lia)).
      nia.
Qed.

(** Below [2^34] seconds, rounding the quotient does not change how it
    compares with a whole number of seconds. *)
Lemma total_seconds_gt_exact diff sec :
  exact_sec sec -> total_seconds_gt diff sec = Z.ltb (sec * 1000000) diff.
Proof.
  intros Hsec. unfold total_seconds_gt, total_seconds, true_divide.
  destruct diff as [|p|p].
  - unfold exact_sec in Hsec. unfold float_gt. cbn [fst snd Z.leb Z.compare].
    destruct (Z.ltb_spec sec (0 * 2 ^ 0)), (Z.ltb_spec (sec * 1000000) 0);
      try reflexivity; lia.
  - apply true_divide_pos_gt; [lia | exact Hsec].
  - destruct (true_divide_pos_gt (Z.pos p) sec ltac:(lia) Hsec) as [_ Hm].
    change (- Z.neg p) with (Z.pos p).
    destruct (true_divide_pos (Z.pos p) 1000000) as [m e]. cbn [fst snd] in *.
    unfold exact_sec in Hsec. unfold float_gt. cbn [fst snd].
    assert (E : Z.ltb (sec * 1000000) (Z.neg p) = false) by (apply Z.ltb_ge; lia).
    rewrite E.
    destruct (Z.leb_spec 0 e).
    + apply Z.ltb_ge. assert (0 < 2 ^ e) by (apply Z.pow_pos_nonneg; lia). nia.
    + apply Z.ltb_ge. assert (0 < 2 ^ (- e)) by (apply Z.pow_pos_nonneg; lia). nia.
Qed.

Lemma total_seconds_le_exact diff sec :
  exact_sec sec -> total_seconds_le diff sec = Z.leb diff (sec * 1000000).
Proof.
  intros Hsec. unfold total_seconds_le, float_le.
  fold (total_seconds_gt diff sec). rewrite (total_seconds_gt_exact _ _ Hsec).
  destruct (Z.ltb_spec (sec * 1000000) diff), (Z.leb_spec diff (sec * 1000000));
    simpl; try reflexivity; lia.
Qed.

(** The bound is sharp: one microsecond past [2^34] seconds, the quotient is
    rounded to [2^34]. *)
Lemma total_seconds_rounded :
  total_seconds (2 ^ 34 * 1000000 + 1) = (2 ^ 52, -18) /\
  total_seconds_gt (2 ^ 34 * 1000000 + 1) (2 ^ 34) = false /\
  total_seconds_le (2 ^ 34 * 1000000 + 1) (2 ^ 34) = true.
Proof. vm_compute. repeat split. Qed.

(** ** The firmware catalogue *)

(** A settled manager answers with the document it holds. *)
Lemma settled_run fetch fm :
  settled fm ->
  firmware._list_firmwares fetch fm = (Ok (firmware._firmwares fm), fm).
Proof.
  intros [Hd | Hn]; unfold firmware._list_firmwares.
  - now rewrite Hd.
  - rewrite Hn. now destruct (firmware._downloaded fm).
Qed.

(** An access of the catalogue answers with the document the manager holds
    afterwards and leaves the manager settled; a settled manager is left as
    it is. *)
Lemma list_firmwares_run fetch fm :
  exists fm',
    firmware._list_firmwares fetch fm = (Ok (firmware._firmwares fm'), fm') /\
    settled fm' /\
    (settled fm -> fm' = fm).
Proof.
  unfold firmware._list_firmwares.
  destruct (firmware._downloaded fm) eqn:Hd.
  - exists fm. split; [reflexivity|]. split; [now left | auto].
  - destruct (is_none (firmware._firmwares fm)) eqn:Hn.
    + exists {| firmware.last_updated := firmware.last_updated fm;
                firmware._firmwares :=
                  firmware._http_get fetch firmware._URL_SHELLY_FIRMWARES;
                firmware._downloaded := true |}.
      split; [reflexivity|]. split; [now left|].
      intros [H | H]; congruence.
    + exists fm. split; [reflexivity|]. split; [now right | auto].
Qed.

Lemma list_firmwares_again fetch fetch' fm d fm' :
  firmware._list_firmwares fetch fm = (Ok d, fm') ->
  firmware._list_firmwares fetch' fm' = (Ok d, fm') /\
  settled fm' /\ (settled fm -> fm' = fm).
Proof.
  intros H. destruct (list_firmwares_run fetch fm) as (fm2 & H2 & Hs & Hk).
  rewrite H in H2. injection H2 as Hd Hf. subst fm2 d.
  split; [now apply settled_run | now split].
Qed.

(** After the access of the catalogue, [version] and [url] only read the
    document. *)
Lemma version_run fetch rx ty beta fm d fm' :
  firmware._list_firmwares fetch fm = (Ok d, fm') ->
  firmware.version fetch rx ty beta fm = (version_of rx d ty beta, fm').
Proof.
  intros H1. destruct (list_firmwares_again fetch fetch fm d fm' H1) as (H2 & _).
  unfold firmware.version, version_of, bind, lift, ret, rbind. rewrite H1.
  destruct (json_in ty d) as [[]|e]; try reflexivity.
  rewrite H2.
  destruct (json_getitem d ty) as [cfg|e]; [|reflexivity].
  destruct beta.
  - destruct (json_in "beta_ver" cfg) as [[]|e]; [| |reflexivity].
    + destruct (json_getitem cfg "beta_ver") as [v|e]; [|reflexivity].
      now destruct (firmware.format rx v).
    + destruct (json_getitem cfg "version") as [v|e]; [|reflexivity].
      now destruct (firmware.format rx v).
  - destruct (json_getitem cfg "version") as [v|e]; [|reflexivity].
    now destruct (firmware.format rx v).
Qed.

Lemma url_run fetch ty beta fm d fm' :
  firmware._list_firmwares fetch fm = (Ok d, fm') ->
  firmware.url fetch ty beta fm = (url_of d ty beta, fm').
Proof.
  intros H1. destruct (list_firmwares_again fetch fetch fm d fm' H1) as (H2 & _).
  unfold firmware.url, url_of, bind, lift, ret, rbind. rewrite H1.
  destruct (json_in ty d) as [[]|e]; try reflexivity.
  rewrite H2.
  destruct (json_getitem d ty) as [cfg|e]; [|reflexivity].
  destruct beta; [|reflexivity].
  now destruct (json_in "beta_ver" cfg) as [[]|e].
Qed.

(** On the document [None] every lookup raises [TypeError]. *)
Lemma version_of_none rx d ty beta :
  is_none d = true -> exists msg, version_of rx d ty beta = Raise (TypeError msg).
Proof. destruct d as [[]| |]; try discriminate. intros _. now eexists. Qed.

Lemma url_of_none d ty beta :
  is_none d = true -> exists msg, url_of d ty beta = Raise (TypeError msg).
Proof. destruct d as [[]| |]; try discriminate. intros _. now eexists. Qed.

(** Without the beta flag, [url] answers [None] whenever it returns, and it
    returns on every object. *)
Lemma url_of_plain d ty :
  url_of d ty false = Ok (JVal VNone) \/
  exists msg, url_of d ty false = Raise (TypeError msg).
Proof.
  unfold url_of, rbind, json_in, json_getitem.
  destruct d as [[| | |s]|l|l]; eauto.
  - destruct (is_substring ty s); eauto.
  - destruct (existsb _ l); eauto.
  - destruct (assoc_get l ty); eauto.
Qed.

Lemma url_of_plain_obj cat ty : url_of (JObj cat) ty false = Ok (JVal VNone).
Proof.
  unfold url_of, rbind, json_in, json_getitem. now destruct (assoc_get cat ty).
Qed.

(** ** Firmware update request *)

Lemma update_firmware_plain env w :
  update_firmware env false w =
    (Ok tt, {| blk := blk w; fmgr := fmgr w;
               trace := trace w ++ [EvHttpGet (ip_addr (blk w)) "/ota?update=1"] |}).
Proof. reflexivity. Qed.

Lemma update_firmware_beta env w d fm' :
  firmware._list_firmwares (fetch env) (fmgr w) = (Ok d, fm') ->
  update_firmware env true w =
    match url_of d (type (blk w)) false with
    | Ok _ => (Ok tt, {| blk := blk w; fmgr := fm';
                         trace := trace w ++ [EvHttpGet (ip_addr (blk w)) "/ota?update=1"] |})
    | Raise e => (Raise e, set_fmgr fm' w)
    end.
Proof.
  intros H. unfold update_firmware, self, bind, gets, on_fmgr, zoom. simpl.
  rewrite (url_run _ _ _ _ _ _ H).
  destruct (url_of_plain d (type (blk w))) as [E | [msg E]]; rewrite E; reflexivity.
Qed.

(** C10, as the code has it.  [update_firmware] never sends a request that
    carries a download URL: the URL is looked up with [beta=False], for
    which [url] answers [None] whenever it returns.  Without the beta flag,
    and with it whenever the catalogue document is a JSON object, the one
    request is the generic ["/ota?update=1"].  With the beta flag and a
    document on which the lookup raises, as the [None] that a download with
    a null ["data"] member leaves, [update_firmware] raises the [TypeError]
    of the lookup and sends no request; it has no other outcome. *)
Theorem update_firmware_generic (env : Collab) (w : World) (d : json)
    (fm' : firmware.FirmwareManager) :
  firmware._list_firmwares (fetch env) (fmgr w) = (Ok d, fm') ->
  let generic fm :=
    {| blk := blk w; fmgr := fm;
       trace := trace w ++ [EvHttpGet (ip_addr (blk w)) "/ota?update=1"] |} in
  (forall ty fm,
     (firmware.url (fetch env) ty false fm).1 = Ok (JVal VNone) \/
     exists msg, (firmware.url (fetch env) ty false fm).1 = Raise (TypeError msg)) /\
  update_firmware env false w = (Ok tt, generic (fmgr w)) /\
  (forall cat, d = JObj cat -> update_firmware env true w = (Ok tt, generic fm')) /\
  (is_none d = true ->
     exists msg, update_firmware env true w = (Raise (TypeError msg), set_fmgr fm' w)) /\
  (update_firmware env true w = (Ok tt, generic fm') \/
   exists msg, update_firmware env true w = (Raise (TypeError msg), set_fmgr fm' w)).
Proof.
  intros H generic. split; [|split; [|split; [|split]]].
  - intros ty fm. destruct (list_firmwares_run (fetch env) fm) as (fm2 & H2 & _).
    rewrite (url_run _ _ _ _ _ _ H2). simpl. apply url_of_plain.
  - apply update_firmware_plain.
  - intros cat ->. rewrite (update_firmware_beta env w _ _ H).
    now rewrite url_of_plain_obj.
  - intros Hn. rewrite (update_firmware_beta env w _ _ H).
    destruct (url_of_none d (type (blk w)) false Hn) as [msg ->]. eauto.
  - rewrite (update_firmware_beta env w _ _ H).
    destruct (url_of_plain d (type (blk w))) as [-> | [msg ->]]; eauto.
Qed.

Lemma update_firmware_generic_witness :
  exists w',
    update_firmware examples.offline true
      (examples.world_of (examples.fresh "SHSW-25")) = (Ok tt, w') /\
    trace w' = [EvHttpGet "192.168.1.20" "/ota?update=1"].
Proof.
  destruct (update_firmware_generic examples.offline
              (examples.world_of (examples.fresh "SHSW-25")) _ _ eq_refl)
    as (_ & _ & H & _).
  eexists. split; [apply (H []); reflexivity | reflexivity].
Defined.

(** C10 as stated fails for the beta flag: when the catalogue document has a
    null ["data"] member, the lookup of the URL raises [TypeError] and
    [update_firmware(True)] sends no request at all, the first time and
    every time after. *)
Lemma update_firmware_counterexample :
  let w := examples.world_of (examples.fresh "SHSW-25") in
  let w' := (update_firmware examples.null_catalogue true w).2 in
  fetch examples.null_catalogue firmware._URL_SHELLY_FIRMWARES = Ok (JVal VNone) /\
  (exists msg,
     update_firmware examples.null_catalogue true w = (Raise (TypeError msg), w')) /\
  trace w' = [] /\
  firmware._firmwares (fmgr w') = JVal VNone /\
  firmware._downloaded (fmgr w') = true /\
  (exists msg,
     update_firmware examples.null_catalogue true w' = (Raise (TypeError msg), w')).
Proof.
  intros w w'. split; [reflexivity|]. split; [eexists; reflexivity|].
  split; [reflexivity|]. split; [reflexivity|]. split; [reflexivity|].
  eexists. reflexivity.
Qed.

(** ** Availability *)

(** C4, as the code has it. [available] is true when no timeout is
    configured, whatever
    [last_updated] is; false when a timeout is configured and the block was
    never updated; otherwise, for a timeout of a whole number of seconds
    below 2^34, true exactly when the time since the last update is at most
    the timeout (times in microseconds, the timeout in seconds). *)
Theorem available_spec (now : Z) (b : Block) :
  (unavailable_after_sec b = None -> available now b = true) /\
  (forall sec, unavailable_after_sec b = Some sec ->
     last_updated b = None -> available now b = false) /\
  (forall sec t, unavailable_after_sec b = Some sec -> exact_sec sec ->
     last_updated b = Some t ->
     (available now b = true <-> now - t <= sec * 1000000)).
Proof.
  unfold available. split; [|split].
  - intros ->. reflexivity.
  - intros sec -> ->. reflexivity.
  - intros sec t -> Hsec ->. rewrite (total_seconds_le_exact _ _ Hsec).
    apply Z.leb_le.
Qed.

Lemma available_spec_witness :
  let b t := set_last_updated (Some t)
               (set_unavailable_after_sec (Some 600) (examples.fresh "SHHT-1")) in
  available 1000000000 (b 300000000) = false /\
  available 1000000000 (b 500000000) = true /\
  available 1000000000 (examples.fresh "SHSW-1") = true /\
  available 1000000000
    (set_unavailable_after_sec (Some 600) (examples.fresh "SHHT-1")) = false.
Proof.
  intros b. split; [|split; [|split]].
  - destruct (available 1000000000 (b 300000000)) eqn:E; [|reflexivity].
    apply (proj2 (proj2 (available_spec 1000000000 (b 300000000))) 600 300000000
             eq_refl ltac:(unfold exact_sec; lia) eq_refl) in E. lia.
  - apply (proj2 (proj2 (available_spec 1000000000 (b 500000000))) 600 500000000
             eq_refl ltac:(unfold exact_sec; lia) eq_refl). lia.
  - apply (proj1 (available_spec 1000000000 (examples.fresh "SHSW-1"))). reflexivity.
  - apply (proj1 (proj2 (available_spec 1000000000
             (set_unavailable_after_sec (Some 600) (examples.fresh "SHHT-1")))) 600);
      reflexivity.
Defined.

(** C4 as stated fails for a timeout of [2^34] seconds: one microsecond past
    the timeout the block is still available, because the seconds since the
    last update, a float, are rounded to the timeout. *)
Lemma available_counterexample :
  let b := set_last_updated (Some 0)
             (set_unavailable_after_sec (Some (2 ^ 34)) (examples.fresh "SHHT-1")) in
  let now := 2 ^ 34 * 1000000 + 1 in
  unavailable_after_sec b = Some (2 ^ 34) /\
  last_updated b = Some 0 /\
  2 ^ 34 * 1000000 < now - 0 /\
  available now b = true.
Proof. vm_compute. repeat split. Qed.

(** ** Firmware versions *)

Lemma latest_fw_version_blk c env beta w :
  blk (latest_fw_version c env beta w).2 = blk w /\
  trace (latest_fw_version c env beta w).2 = trace w.
Proof.
  unfold latest_fw_version, self, bind, gets, on_fmgr, zoom, ret.
  destruct beta; simpl; [|now split].
  destruct (firmware.version _ _ _ _ _) as [[v|e] fm']; simpl; now split.
Qed.

Lemma has_fw_update_eq c env beta w latest w' :
  latest_fw_version c env beta w = (Ok latest, w') ->
  has_fw_update c env beta w =
    (Ok (py_and latest (py_and (fw_version c (blk w))
                          (VBool (py_ne latest (fw_version c (blk w)))))), w').
Proof.
  intros H. unfold has_fw_update.
  rewrite (bind_ok _ _ _ _ _ H). unfold self, bind, gets, ret. simpl.
  pose proof (latest_fw_version_blk c env beta w) as [Hb _].
  rewrite H in Hb. simpl in Hb. now rewrite Hb.
Qed.

Lemma truthy_str s : truthy (VStr s) = true <-> s <> "".
Proof.
  simpl. rewrite Bool.negb_true_iff. split.
  - intros H ->. discriminate.
  - intros H. destruct (String.eqb s "") eqn:E; [|reflexivity].
    apply String.eqb_eq in E. contradiction.
Qed.

(** C7, as the code has it. Whenever the latest version is resolved,
    [has_fw_update] evaluates [latest and current and latest != current]:
    the result is [True] exactly when both values are truthy (present and
    not empty) and unequal, for strings when both are non-empty and
    different; every other result is falsy: it is the absent or empty
    operand itself ([None] or [''], not [False]) when one of them is, and
    the boolean [latest != current] when both are truthy, so [False] for
    two equal non-empty strings. *)
Theorem has_fw_update_spec (c : Const) (env : Collab) (beta : bool)
    (w w' : World) (latest : pyval) :
  latest_fw_version c env beta w = (Ok latest, w') ->
  let current := fw_version c (blk w) in
  exists v,
    has_fw_update c env beta w = (Ok v, w') /\
    (v = VBool true <->
       truthy latest = true /\ truthy current = true /\ py_eq latest current = false) /\
    (forall l cu, latest = VStr l -> current = VStr cu ->
       (v = VBool true <-> l <> "" /\ cu <> "" /\ l <> cu)) /\
    (v <> VBool true -> truthy v = false) /\
    (truthy latest = false -> v = latest) /\
    (truthy latest = true -> truthy current = false -> v = current) /\
    (truthy latest = true -> truthy current = true ->
       v = VBool (py_ne latest current)) /\
    (forall l, latest = VStr l -> current = VStr l -> l <> "" -> v = VBool false).
Proof.
  intros H current. eexists. split; [apply (has_fw_update_eq _ _ _ _ _ _ H)|].
  fold current. unfold py_and, py_ne.
  split; [|split; [|split; [|split; [|split; [|split]]]]].
  - destruct (truthy latest) eqn:Hl.
    + destruct (truthy current) eqn:Hc.
      * destruct (py_eq latest current); simpl; split; try discriminate; auto.
        intros (_ & _ & ?); discriminate.
      * split; [|intros (_ & ? & _); discriminate].
        intros E. rewrite E in Hc. discriminate.
    + split; [|intros (? & _); discriminate].
      intros E. rewrite E in Hl. discriminate.
  - intros l cu -> ->.
    rewrite <- !truthy_str. simpl.
    destruct (String.eqb l "") eqn:Hl, (String.eqb cu "") eqn:Hc; simpl;
      try (split; [discriminate | intros (? & ? & ?); discriminate]).
    destruct (String.eqb l cu) eqn:He; simpl.
    + apply String.eqb_eq in He. split; [discriminate | intros (_ & _ & ?); contradiction].
    + apply String.eqb_neq in He. split; [intros _; now repeat split | reflexivity].
  - destruct (truthy latest) eqn:Hl; [|now rewrite Hl].
    destruct (truthy current) eqn:Hc; [|now rewrite Hc].
    destruct (py_eq latest current); simpl; [reflexivity | congruence].
  - intros ->. reflexivity.
  - intros -> ->. reflexivity.
  - intros -> ->. reflexivity.
  - intros l -> -> Hl. rewrite (proj2 (truthy_str l) Hl). simpl.
    now rewrite String.eqb_refl.
Qed.

Lemma has_fw_update_spec_witness :
  let w := examples.world_of (examples.with_versions (VStr "1.2") (VStr "1.3")) in
  exists v, has_fw_update examples.consts examples.offline false w = (Ok v, w) /\
            v = VBool true.
Proof.
  intros w.
  destruct (has_fw_update_spec examples.consts examples.offline false w w (VStr "1.3")
              eq_refl) as (v & Hv & _ & Hs & _).
  exists v. split; [exact Hv|].
  apply (Hs "1.3" "1.2" eq_refl eq_refl).
  split; [discriminate | split; discriminate].
Defined.

(** C7 as stated fails: with both versions present and unequal, the latest
    one being the empty string, the result is that empty string and not
    [True]; with the current version absent the result is [None], not
    [False]. *)
Lemma has_fw_update_counterexample :
  let w1 := examples.world_of (examples.with_versions (VStr "1.2") (VStr "")) in
  let w2 := examples.world_of (set_info_values {[ "latest_fw_version" := VStr "1.3" ]}
                                 (examples.fresh "SHSW-1")) in
  info_values (blk w1) !! "fw_version" = Some (VStr "1.2") /\
  info_values (blk w1) !! "latest_fw_version" = Some (VStr "") /\
  (has_fw_update examples.consts examples.offline false w1).1 = Ok (VStr "") /\
  info_values (blk w2) !! "fw_version" = None /\
  (has_fw_update examples.consts examples.offline false w2).1 = Ok VNone.
Proof. vm_compute. repeat split. Qed.

(** ** A failed catalogue download *)

Lemma version_empty fetch rx ty beta fm :
  firmware._firmwares fm = JObj [] ->
  firmware.version fetch rx ty beta fm = (Ok None, fm).
Proof.
  intros Hc.
  assert (Hs : settled fm) by (right; now rewrite Hc).
  rewrite (version_run _ _ _ _ _ _ _ (settled_run fetch fm Hs)). now rewrite Hc.
Qed.

(** C9, as the code has it. When the one download of the catalogue fails,
    nothing is raised and the cache is the empty mapping, marked as
    downloaded; the query that triggered the download and every later
    version query answer [None] and leave the cache as it is, and so the
    has-update query for the beta channel answers [None]. *)
Theorem catalog_fetch_failure (c : Const) (env : Collab) (fm : firmware.FirmwareManager)
    (e : exn) :
  firmware._firmwares fm = JVal VNone ->
  firmware._downloaded fm = false ->
  fetch env firmware._URL_SHELLY_FIRMWARES = Raise e ->
  let failed := {| firmware.last_updated := firmware.last_updated fm;
                   firmware._firmwares := JObj [];
                   firmware._downloaded := true |} in
  firmware._list_firmwares (fetch env) fm = (Ok (JObj []), failed) /\
  (forall ty beta,
     firmware.version (fetch env) (REGEX_VER c) ty beta fm = (Ok None, failed)) /\
  (forall ty beta,
     firmware.version (fetch env) (REGEX_VER c) ty beta failed = (Ok None, failed)) /\
  (forall w, fmgr w = fm ->
     has_fw_update c env true w = (Ok VNone, set_fmgr failed w)) /\
  (forall w, fmgr w = failed ->
     has_fw_update c env true w = (Ok VNone, w)).
Proof.
  intros Hc Hd He failed.
  assert (Hl : firmware._list_firmwares (fetch env) fm = (Ok (JObj []), failed)).
  { unfold firmware._list_firmwares, firmware._http_get. now rewrite Hd, Hc, He. }
  assert (Hv1 : forall ty beta,
     firmware.version (fetch env) (REGEX_VER c) ty beta fm = (Ok None, failed)).
  { intros ty beta. now rewrite (version_run _ _ _ _ _ _ _ Hl). }
  assert (Hv2 : forall ty beta,
     firmware.version (fetch env) (REGEX_VER c) ty beta failed = (Ok None, failed)).
  { intros ty beta. now apply version_empty. }
  assert (Hh : forall w fm0, fmgr w = fm0 ->
     firmware.version (fetch env) (REGEX_VER c) (type (blk w)) true fm0 = (Ok None, failed) ->
     has_fw_update c env true w = (Ok VNone, set_fmgr failed w)).
  { intros w fm0 Hw Hv.
    apply (has_fw_update_eq c env true w VNone).
    unfold latest_fw_version, self, bind, gets, on_fmgr, zoom, ret. simpl.
    now rewrite Hw, Hv. }
  split; [exact Hl|]. split; [exact Hv1|]. split; [exact Hv2|]. split.
  - intros w Hw. apply (Hh w fm Hw). apply Hv1.
  - intros w Hw. rewrite (Hh w failed Hw (Hv2 _ _)).
    destruct w as [b f t]. simpl in Hw. subst f. reflexivity.
Qed.

Lemma catalog_fetch_failure_witness :
  let w := examples.world_of (examples.with_versions (VStr "1.2") (VStr "1.3")) in
  firmware.version (fetch examples.offline) (REGEX_VER examples.consts)
    "SHSW-1" true firmware.init =
    (Ok None, {| firmware.last_updated := None; firmware._firmwares := JObj [];
                 firmware._downloaded := true |}) /\
  (has_fw_update examples.consts examples.offline true w).1 = Ok VNone.
Proof.
  intros w.
  destruct (catalog_fetch_failure examples.consts examples.offline firmware.init
              (OtherError "URLError") eq_refl eq_refl eq_refl)
    as (_ & Hv & _ & Hh & _).
  split; [apply Hv|]. now rewrite (Hh w eq_refl).
Defined.

(** C9 as stated fails for the default query: after the download has
    failed, [has_fw_update()] (without the beta flag) reads the latest
    version from the info values of the block and still answers [True]. *)
Lemma catalog_fetch_failure_counterexample :
  let w := examples.world_of (examples.with_versions (VStr "1.2") (VStr "1.3")) in
  let after := (has_fw_update examples.consts examples.offline true w).2 in
  firmware._firmwares (fmgr after) = JObj [] /\
  firmware._downloaded (fmgr after) = true /\
  (has_fw_update examples.consts examples.offline false after).1 = Ok (VBool true).
Proof. vm_compute. repeat split. Qed.

(** ** The status poll *)

Lemma raise_updated_keeps_blk : keeps blk raise_updated.
Proof. unfold raise_updated, call, self. framing. Qed.

Lemma update_devices_keeps_blk env status : keeps blk (update_devices env status).
Proof. unfold update_devices, self. framing. Qed.

Lemma extract_status_keeps_trace c env status : keeps trace (extract_status c env status).
Proof. unfold extract_status, self. framing. Qed.

Lemma extract_status_returns c env status : returns (extract_status c env status).
Proof. unfold extract_status, self. framing. Qed.

Lemma derive_cloud_status_eq c w :
  derive_cloud_status c w =
    (Ok tt,
     set_blk (setitem_info_values (INFO_VALUE_CLOUD_STATUS c)
                (VStr (cloud_status
                         (dict_get (info_values (blk w)) (INFO_VALUE_CLOUD_ENABLED c))
                         (dict_get (info_values (blk w)) (INFO_VALUE_CLOUD_CONNECTED c))))
                (blk w)) w).
Proof.
  unfold derive_cloud_status, cloud_status, self, bind, gets, update, modify. simpl.
  destruct (truthy (dict_get _ (INFO_VALUE_CLOUD_ENABLED c)));
    [destruct (truthy (dict_get _ (INFO_VALUE_CLOUD_CONNECTED c)))|]; reflexivity.
Qed.

(** C5, as the code has it. When the status request fails or answers the
    empty dictionary, the cycle returns having written the time of the
    attempt, and nothing else:
    [last_updated], the info values and their time stamps, the protocols and
    the units are as before, the request is the only event (no observer is
    notified, no rule and no sub-device hook runs). *)
Theorem failed_poll_unchanged (c : Const) (env : Collab) (now : Z) (w : World) :
  (http env (ip_addr (blk w)) "/status").1 = false \/
  is_empty_dict (http env (ip_addr (blk w)) "/status").2 = true ->
  exists w',
    update_status_information c env now w = (Ok tt, w') /\
    blk w' = set_last_update_status_info (Some now) (blk w) /\
    last_updated (blk w') = last_updated (blk w) /\
    info_values (blk w') = info_values (blk w) /\
    info_values_updated (blk w') = info_values_updated (blk w) /\
    protocols (blk w') = protocols (blk w) /\
    devices (blk w') = devices (blk w) /\
    fmgr w' = fmgr w /\
    emitted w w' [EvHttpGet (ip_addr (blk w)) "/status"].
Proof.
  intros H. eexists. split.
  - unfold update_status_information, http_get, update, self, emit, bind, modify,
      gets, ret. simpl.
    destruct (http env (ip_addr (blk w)) "/status") as [success status]. simpl in *.
    destruct H as [-> | ->]; [reflexivity | now rewrite Bool.orb_true_r].
  - simpl. unfold emitted. simpl. repeat split.
Qed.

Lemma failed_poll_unchanged_witness :
  exists w',
    update_status_information examples.consts examples.offline 42
      (examples.world_of (examples.shaken (VInt 1) 0)) = (Ok tt, w') /\
    last_updated (blk w') = None /\
    info_values (blk w') = {[ "vibration" := VInt 1 ]} /\
    trace w' = [EvHttpGet "192.168.1.20" "/status"].
Proof.
  destruct (failed_poll_unchanged examples.consts examples.offline 42
              (examples.world_of (examples.shaken (VInt 1) 0)) (or_introl eq_refl))
    as (w' & H & _ & Hl & Hi & _ & _ & _ & _ & Ht).
  exists w'. split; [exact H|]. split; [exact Hl|]. split; [exact Hi | exact Ht].
Defined.

(** C5 as stated fails: a failed cycle does not leave the block unchanged.
    The time of the attempt is written before the request is sent, so after
    a request that fails at time 42 the block is not the block before. *)
Lemma failed_poll_counterexample :
  let w := examples.world_of (examples.shaken (VInt 1) 0) in
  let w' := (update_status_information examples.consts examples.offline 42 w).2 in
  (http examples.offline (ip_addr (blk w)) "/status").1 = false /\
  last_update_status_info (blk w) = None /\
  last_update_status_info (blk w') = Some 42 /\
  blk w' <> blk w.
Proof.
  intros w w'. split; [reflexivity|]. split; [reflexivity|]. split; [reflexivity|].
  intros E. apply (f_equal last_update_status_info) in E. discriminate E.
Qed.

Lemma update_run g w : update g w = (Ok tt, set_blk (g (blk w)) w).
Proof. reflexivity. Qed.

Lemma emit_run e w :
  emit e w = (Ok tt, {| blk := blk w; fmgr := fmgr w; trace := trace w ++ [e] |}).
Proof. reflexivity. Qed.

Lemma self_run w : self w = (Ok (blk w), w).
Proof. reflexivity. Qed.

Lemma returns_run {A} (m : M World A) w :
  returns m -> exists a w', m w = (Ok a, w').
Proof.
  intros H. destruct (H w) as [a Ha].
  destruct (m w) as [r w']. simpl in Ha. subst r. eauto.
Qed.

Lemma mark_polled_returns now : returns (mark_polled now).
Proof. unfold mark_polled. framing. Qed.

Lemma mark_polled_keeps_trace now : keeps trace (mark_polled now).
Proof. unfold mark_polled, self. framing. Qed.

(** A successful poll continues with the answer. *)
Lemma update_status_information_success c env now w status :
  http env (ip_addr (blk w)) "/status" = (true, status) ->
  is_empty_dict status = false ->
  update_status_information c env now w =
    (mark_polled now ;;; extract_status c env status ;;; derive_cloud_status c ;;;
     publish c env status)
      {| blk := set_last_update_status_info (Some now) (blk w);
         fmgr := fmgr w;
         trace := trace w ++ [EvHttpGet (ip_addr (blk w)) "/status"] |}.
Proof.
  intros Hh He.
  unfold update_status_information.
  unfold bind at 1. unfold update at 1, modify at 1.
  unfold bind at 1. unfold http_get at 1, self at 1, bind at 1, gets at 1.
  unfold emit at 1, modify at 1, bind at 1, ret at 1. simpl.
  rewrite Hh. simpl. now rewrite He.
Qed.

(** The block after [publish]: the latest beta version is added unless
    resolving it raised. *)
Lemma publish_blk c env status w :
  blk (publish c env status w).2 = blk w \/
  exists v, blk (publish c env status w).2 =
            setitem_info_values (INFO_VALUE_LATEST_BETA_FW_VERSION c) v (blk w).
Proof.
  unfold publish.
  pose proof (latest_fw_version_blk c env true w) as [Hb _].
  destruct (latest_fw_version c env true w) as [[v|e] w6] eqn:E; simpl in Hb.
  - right. exists v.
    rewrite (bind_ok _ _ _ _ _ E).
    rewrite (bind_ok _ _ _ _ _ (update_run _ w6)).
    pose proof (raise_updated_keeps_blk (set_blk
      (setitem_info_values (INFO_VALUE_LATEST_BETA_FW_VERSION c) v (blk w6)) w6)) as Hr.
    destruct (raise_updated _) as [[[]|e] w8] eqn:E2; simpl in Hr.
    + rewrite (bind_ok _ _ _ _ _ E2).
      rewrite update_devices_keeps_blk. rewrite Hr. now rewrite Hb.
    + rewrite (bind_raise _ _ _ _ _ E2). simpl. rewrite Hr. now rewrite Hb.
  - left. rewrite (bind_raise _ _ _ _ _ E). exact Hb.
Qed.

(** The block at the end of a successful poll: that after the derivation of
    the cloud status from the extracted values, with the latest beta version
    added unless resolving it raised. *)
Lemma update_status_information_blk c env now w status :
  http env (ip_addr (blk w)) "/status" = (true, status) ->
  is_empty_dict status = false ->
  exists (w4 : World) (b5 : Block),
    b5 = setitem_info_values (INFO_VALUE_CLOUD_STATUS c)
           (VStr (cloud_status
                    (dict_get (info_values (blk w4)) (INFO_VALUE_CLOUD_ENABLED c))
                    (dict_get (info_values (blk w4)) (INFO_VALUE_CLOUD_CONNECTED c))))
           (blk w4) /\
    (blk (update_status_information c env now w).2 = b5 \/
     exists v, blk (update_status_information c env now w).2 =
               setitem_info_values (INFO_VALUE_LATEST_BETA_FW_VERSION c) v b5).
Proof.
  intros Hh He.
  rewrite (update_status_information_success c env now w status Hh He).
  match goal with |- context [bind _ _ ?w0] => generalize w0 end. intros w1.
  destruct (returns_run _ w1 (mark_polled_returns now)) as ([] & w3 & E1).
  rewrite (bind_ok _ _ _ _ _ E1).
  destruct (returns_run _ w3 (extract_status_returns c env status)) as ([] & w4 & E2).
  rewrite (bind_ok _ _ _ _ _ E2).
  rewrite (bind_ok _ _ _ _ _ (derive_cloud_status_eq c w4)).
  exists w4. eexists. split; [reflexivity|].
  apply (publish_blk c env status).
Qed.

(** C2. After a successful status poll the cloud-status info value is the
    tri-state of the extracted [enabled] and [connected] values: a false
    [enabled] gives "disabled" whatever [connected] is, otherwise a true
    [connected] gives "connected" and a false one "disconnected". *)
Theorem cloud_status_derived (c : Const) (env : Collab) (now : Z) (w : World)
    (status : json) :
  cloud_names_distinct c ->
  http env (ip_addr (blk w)) "/status" = (true, status) ->
  is_empty_dict status = false ->
  let ivs := info_values (blk (update_status_information c env now w).2) in
  let enabled := dict_get ivs (INFO_VALUE_CLOUD_ENABLED c) in
  let connected := dict_get ivs (INFO_VALUE_CLOUD_CONNECTED c) in
  ivs !! INFO_VALUE_CLOUD_STATUS c = Some (VStr (cloud_status enabled connected)) /\
  (enabled = VBool false ->
     ivs !! INFO_VALUE_CLOUD_STATUS c = Some (VStr "disabled")) /\
  (enabled = VBool true -> connected = VBool true ->
     ivs !! INFO_VALUE_CLOUD_STATUS c = Some (VStr "connected")) /\
  (enabled = VBool true -> connected = VBool false ->
     ivs !! INFO_VALUE_CLOUD_STATUS c = Some (VStr "disconnected")).
Proof.
  intros Hd Hh He ivs enabled connected.
  assert (Hmain : ivs !! INFO_VALUE_CLOUD_STATUS c =
                  Some (VStr (cloud_status enabled connected))).
  { unfold cloud_names_distinct in Hd.
    apply NoDup_cons in Hd as [Hn1 Hd]. apply NoDup_cons in Hd as [Hn2 Hd].
    apply NoDup_cons in Hd as [Hn3 _].
    apply not_elem_of_cons in Hn1 as [Hse Hn1].
    apply not_elem_of_cons in Hn1 as [Hsc Hn1].
    apply not_elem_of_cons in Hn1 as [Hsb _].
    apply not_elem_of_cons in Hn2 as [Hec Hn2].
    apply not_elem_of_cons in Hn2 as [Heb _].
    apply not_elem_of_cons in Hn3 as [Hcb _].
    destruct (update_status_information_blk c env now w status Hh He)
      as (w4 & b5 & -> & Hb).
    unfold enabled, connected, ivs. clear enabled connected ivs.
    destruct Hb as [-> | [v ->]];
      unfold setitem_info_values, dict_get; simpl;
      repeat first [ rewrite lookup_insert_eq
                   | rewrite lookup_insert_ne by congruence ];
      reflexivity. }
  split; [exact Hmain|]. rewrite Hmain. unfold cloud_status.
  split; [|split].
  - intros ->. reflexivity.
  - intros -> ->. reflexivity.
  - intros -> ->. reflexivity.
Qed.

Lemma cloud_names_distinct_consts : cloud_names_distinct examples.consts.
Proof. apply (bool_decide_unpack _). vm_compute. exact I. Qed.

Lemma cloud_status_derived_witness :
  let status := JObj [("cloud_enabled", JVal (VBool false));
                      ("cloud_connected", JVal (VBool true))] in
  let w := examples.world_of (examples.fresh "SHSW-1") in
  info_values (blk (update_status_information examples.consts
                      (examples.online status (JObj [])) 42 w).2)
    !! "cloud_status" = Some (VStr "disabled").
Proof.
  intros status w.
  destruct (cloud_status_derived examples.consts (examples.online status (JObj [])) 42 w
              status cloud_names_distinct_consts eq_refl eq_refl) as (_ & H & _).
  apply H. reflexivity.
Defined.

(** ** Notification of the observers *)

Lemma call_ok cb w :
  cb_raises cb = None ->
  call cb w = (Ok tt, {| blk := blk w; fmgr := fmgr w;
                         trace := trace w ++ [EvCallback (cb_id cb)] |}).
Proof. intros H. unfold call, bind, emit, modify, ret. simpl. now rewrite H. Qed.

Lemma call_raise cb e w :
  cb_raises cb = Some e ->
  call cb w = (Raise e, {| blk := blk w; fmgr := fmgr w;
                           trace := trace w ++ [EvCallback (cb_id cb)] |}).
Proof. intros H. unfold call, bind, emit, modify, raise. simpl. now rewrite H. Qed.

Lemma for_each_call_ok cbs w :
  Forall (fun cb => cb_raises cb = None) cbs ->
  for_each cbs call w =
    (Ok tt, {| blk := blk w; fmgr := fmgr w;
               trace := trace w ++ map (fun cb => EvCallback (cb_id cb)) cbs |}).
Proof.
  intros H.
  rewrite (for_each_emit cbs (fun cb => [EvCallback (cb_id cb)])).
  - f_equal.
  - intros cb w0 Hcb. apply call_ok. rewrite Forall_forall in H. now apply H.
Qed.

(** Observers that all return: one notification, every observer called. *)
Lemma raise_updated_ok w :
  Forall (fun cb => cb_raises cb = None) (cb_updated (blk w)) ->
  raise_updated w =
    (Ok tt, {| blk := blk w; fmgr := fmgr w;
               trace := trace w ++ notification (cb_updated (blk w)) |}).
Proof.
  intros H. unfold raise_updated.
  rewrite (bind_ok _ _ _ _ _ (emit_run _ _)).
  rewrite (bind_ok _ _ _ _ _ (self_run _)). simpl.
  rewrite for_each_call_ok by assumption. simpl.
  unfold notification. now rewrite <- app_assoc.
Qed.

(** The first observer that raises ends the notification. *)
Lemma raise_updated_raise w pre cb post e :
  cb_updated (blk w) = pre ++ cb :: post ->
  Forall (fun x => cb_raises x = None) pre ->
  cb_raises cb = Some e ->
  raise_updated w =
    (Raise e, {| blk := blk w; fmgr := fmgr w;
                 trace := trace w ++ notification pre ++ [EvCallback (cb_id cb)] |}).
Proof.
  intros Hcbs Hpre Hcb. unfold raise_updated.
  rewrite (bind_ok _ _ _ _ _ (emit_run _ _)).
  rewrite (bind_ok _ _ _ _ _ (self_run _)). simpl. rewrite Hcbs.
  rewrite (for_each_app _ _ _ _ _ (for_each_call_ok pre _ Hpre)). simpl.
  rewrite (bind_raise _ _ _ _ _ (call_raise cb e _ Hcb)). simpl.
  unfold notification. simpl. now rewrite <- !app_assoc.
Qed.

Lemma keeps_update_blk {T} (f : Block -> T) g :
  (forall b, f (g b) = f b) -> keeps (fun w => f (blk w)) (update g).
Proof. intros H w. simpl. apply H. Qed.

(** Up to the notification, a successful poll neither emits an event nor
    touches the observers, provided the extraction of [Base] leaves them
    alone. *)
Lemma before_publish c env now status w :
  (forall name st cfg b,
     cb_updated (_update_info_value env name st cfg b) = cb_updated b) ->
  exists w5,
    (mark_polled now ;;; extract_status c env status ;;; derive_cloud_status c) w
      = (Ok tt, w5) /\
    trace w5 = trace w /\ cb_updated (blk w5) = cb_updated (blk w).
Proof.
  intros Hx.
  destruct (returns_run _ w (mark_polled_returns now)) as ([] & w3 & E1).
  destruct (returns_run _ w3 (extract_status_returns c env status)) as ([] & w4 & E2).
  rewrite (bind_ok _ _ _ _ _ E1), (bind_ok _ _ _ _ _ E2), derive_cloud_status_eq.
  eexists. split; [reflexivity|]. simpl.
  pose proof (mark_polled_keeps_trace now w) as T1.
  pose proof (extract_status_keeps_trace c env status w3) as T2.
  rewrite E1 in T1. rewrite E2 in T2. simpl in T1, T2.
  split; [congruence|].
  assert (K1 : keeps (fun w => cb_updated (blk w)) (mark_polled now)).
  { unfold mark_polled, self. framing; apply keeps_update_blk; reflexivity. }
  assert (K2 : keeps (fun w => cb_updated (blk w)) (extract_status c env status)).
  { unfold extract_status, self. framing; apply keeps_update_blk; auto. }
  specialize (K1 w). specialize (K2 w3). rewrite E1 in K1. rewrite E2 in K2.
  simpl in K1, K2. congruence.
Qed.

(** C8, as the code has it. A callback that raises ends the notification:
    the callbacks registered before it have been called, those after it are
    not, and the exception leaves [raise_updated].  It also ends a status
    cycle that had polled successfully: the cycle raises, having at most
    notified up to the failing callback, and no sub-device hook runs. *)
Theorem observer_failure_propagates (w : World) (pre post : list callback)
    (cb : callback) (e : exn) :
  cb_updated (blk w) = pre ++ cb :: post ->
  Forall (fun x => cb_raises x = None) pre ->
  cb_raises cb = Some e ->
  raise_updated w =
    (Raise e, {| blk := blk w; fmgr := fmgr w;
                 trace := trace w ++ notification pre ++ [EvCallback (cb_id cb)] |}) /\
  forall (c : Const) (env : Collab) (now : Z) (status : json),
    http env (ip_addr (blk w)) "/status" = (true, status) ->
    is_empty_dict status = false ->
    (forall name st cfg b,
       cb_updated (_update_info_value env name st cfg b) = cb_updated b) ->
    exists e' w',
      update_status_information c env now w = (Raise e', w') /\
      (emitted w w' [EvHttpGet (ip_addr (blk w)) "/status"] \/
       emitted w w' (EvHttpGet (ip_addr (blk w)) "/status"
                       :: notification pre ++ [EvCallback (cb_id cb)])).
Proof.
  intros Hcbs Hpre Hcb. split; [now apply (raise_updated_raise w pre cb post e)|].
  intros c env now status Hh He Hx.
  rewrite (update_status_information_success c env now w status Hh He).
  match goal with |- context [bind _ _ ?w0] => set (w1 := w0) end.
  destruct (before_publish c env now status w1 Hx) as (w5 & E & Ht & Hc).
  assert (E' : forall k : unit -> M World unit,
             (mark_polled now ;;; extract_status c env status ;;;
              derive_cloud_status c ;;; k tt) w1 = k tt w5).
  { intros k. revert E. unfold bind.
    destruct (mark_polled now w1) as [[[]|?] ?]; [|discriminate].
    destruct (extract_status c env status _) as [[[]|?] ?]; [|discriminate].
    destruct (derive_cloud_status c _) as [[[]|?] ?]; [|discriminate].
    intros [= ->]. reflexivity. }
  rewrite (E' (fun _ => publish c env status)). clear E'.
  unfold publish.
  pose proof (latest_fw_version_blk c env true w5) as [Hb Htr].
  destruct (latest_fw_version c env true w5) as [[v|e0] w6] eqn:E6; simpl in Hb, Htr.
  - rewrite (bind_ok _ _ _ _ _ E6).
    rewrite (bind_ok _ _ _ _ _ (update_run _ w6)).
    erewrite bind_raise.
    2:{ apply (raise_updated_raise _ pre cb post e); [|assumption|assumption].
        simpl. rewrite Hb, Hc. exact Hcbs. }
    do 2 eexists. split; [reflexivity|]. right. unfold emitted. simpl.
    rewrite Htr, Ht. unfold w1. simpl. now rewrite <- app_assoc.
  - rewrite (bind_raise _ _ _ _ _ E6).
    do 2 eexists. split; [reflexivity|]. left. unfold emitted.
    rewrite Htr, Ht. reflexivity.
Qed.

Lemma observer_failure_propagates_witness :
  let cbs := [ {| cb_id := 1%nat; cb_raises := None |};
               {| cb_id := 2%nat; cb_raises := Some (OtherError "boom") |};
               {| cb_id := 3%nat; cb_raises := None |} ] in
  (raise_updated (examples.world_of (examples.observed cbs))).1
    = Raise (OtherError "boom") /\
  trace (raise_updated (examples.world_of (examples.observed cbs))).2
    = [EvUpdated; EvCallback 1%nat; EvCallback 2%nat].
Proof.
  intros cbs.
  destruct (observer_failure_propagates (examples.world_of (examples.observed cbs))
              [ {| cb_id := 1%nat; cb_raises := None |} ]
              [ {| cb_id := 3%nat; cb_raises := None |} ]
              {| cb_id := 2%nat; cb_raises := Some (OtherError "boom") |}
              (OtherError "boom") eq_refl
              ltac:(repeat constructor) eq_refl) as [H _].
  rewrite H. split; reflexivity.
Defined.

(** C8 as stated fails: of three observers the second raises; the third is
    never called and the exception leaves [raise_updated], and with it the
    status cycle, whose sub-device hooks do not run. *)
Lemma observer_isolation_counterexample :
  let cbs := [ {| cb_id := 1%nat; cb_raises := None |};
               {| cb_id := 2%nat; cb_raises := Some (OtherError "boom") |};
               {| cb_id := 3%nat; cb_raises := None |} ] in
  let w := examples.world_of (examples.observed cbs) in
  let status := JObj [("cloud_enabled", JVal (VBool true))] in
  raise_updated w
    = (Raise (OtherError "boom"),
       {| blk := blk w; fmgr := fmgr w;
          trace := [EvUpdated; EvCallback 1%nat; EvCallback 2%nat] |}) /\
  (update_status_information examples.consts (examples.online status (JObj [])) 42 w).1
    = Raise (OtherError "boom") /\
  trace (update_status_information examples.consts
           (examples.online status (JObj [])) 42 w).2
    = [EvHttpGet "192.168.1.20" "/status"; EvUpdated; EvCallback 1%nat; EvCallback 2%nat].
Proof. vm_compute. repeat split. Qed.

(** ** The auto-set rules *)

Lemma loop_rule_not_due now r w :
  due now (blk w) r = false -> loop_rule now r w = (Ok tt, w).
Proof.
  unfold due, loop_rule. destruct (attr_auto_set r.2) as [param|]; [|reflexivity].
  intros H. rewrite (bind_ok _ _ _ _ _ (self_run w)).
  destruct (py_ne _ _); [|reflexivity].
  destruct (info_values_updated (blk w) !! r.1) as [time|]; [|reflexivity].
  simpl in H. now rewrite H.
Qed.

Lemma loop_rule_due now r w param :
  attr_auto_set r.2 = Some param ->
  due now (blk w) r = true ->
  Forall (fun cb => cb_raises cb = None) (cb_updated (blk w)) ->
  loop_rule now r w =
    (Ok tt, {| blk := setitem_info_values r.1 param.1 (blk w);
               fmgr := fmgr w;
               trace := trace w ++ notification (cb_updated (blk w)) |}).
Proof.
  unfold due, loop_rule. intros -> H Hcb.
  rewrite (bind_ok _ _ _ _ _ (self_run w)).
  apply andb_true_iff in H as [-> H].
  destruct (info_values_updated (blk w) !! r.1) as [time|]; [|discriminate].
  rewrite H.
  rewrite (bind_ok _ _ _ _ _ (update_run _ w)).
  now rewrite raise_updated_ok.
Qed.

(** A rule looks at the entries of its own name only. *)
Lemma due_setitem_other now b r k v :
  k <> r.1 -> due now (setitem_info_values k v b) r = due now b r.
Proof.
  intros Hk. unfold due, setitem_info_values, dict_get. simpl.
  now rewrite lookup_insert_ne.
Qed.

Lemma py_eq_refl v : py_eq v v = true.
Proof.
  destruct v; simpl; auto using Z.eqb_refl, String.eqb_refl.
  now destruct b.
Qed.

(** One tick in which at most the rule of [iv] is due. *)
Lemma loop_single now w cfgs iv cfg :
  _info_value_cfg (blk w) = Some cfgs ->
  NoDup cfgs.*1 ->
  (iv, cfg) ∈ cfgs ->
  (forall r, r ∈ cfgs -> r.1 <> iv -> due now (blk w) r = false) ->
  Forall (fun cb => cb_raises cb = None) (cb_updated (blk w)) ->
  loop now w = loop_rule now (iv, cfg) w /\ (loop now w).1 = Ok tt.
Proof.
  intros Hcfg Hnd Hin Hothers Hcbs.
  apply list_elem_of_split in Hin as (pre & post & ->).
  rewrite fmap_app, fmap_cons in Hnd. simpl in Hnd.
  apply NoDup_app in Hnd as (_ & Hpre & Hpost).
  apply NoDup_cons in Hpost as [Hpost _].
  assert (Hpre' : forall r, r ∈ pre -> due now (blk w) r = false).
  { intros r Hr. apply Hothers; [set_solver|].
    intros E. apply (Hpre iv); [|left]. rewrite <- E. now apply list_elem_of_fmap_2. }
  assert (Hpost' : forall r, r ∈ post -> due now (blk w) r = false /\ iv <> r.1).
  { intros r Hr.
    assert (r.1 <> iv).
    { intros E. apply Hpost. rewrite <- E. now apply list_elem_of_fmap_2. }
    split; [apply Hothers; [set_solver | assumption] | congruence]. }
  unfold loop. rewrite (bind_ok _ _ _ _ _ (self_run w)). rewrite Hcfg. simpl.
  rewrite (for_each_app pre _ _ w w).
  2:{ apply for_each_skip. intros r Hr. apply loop_rule_not_due. auto. }
  rewrite for_each_cons.
  destruct (due now (blk w) (iv, cfg)) eqn:Hdue.
  - assert (exists param, attr_auto_set cfg = Some param) as [param Hp].
    { unfold due in Hdue. simpl in Hdue. destruct (attr_auto_set cfg); [eauto | discriminate]. }
    pose proof (loop_rule_due now (iv, cfg) w param Hp Hdue Hcbs) as Hrun.
    rewrite (bind_ok _ _ _ _ _ Hrun), Hrun.
    rewrite for_each_skip; [now split|].
    intros r Hr. apply loop_rule_not_due. simpl.
    destruct (Hpost' r Hr) as [Hd Hne].
    now rewrite due_setitem_other.
  - pose proof (loop_rule_not_due now (iv, cfg) w Hdue) as Hrun.
    rewrite (bind_ok _ _ _ _ _ Hrun), Hrun.
    rewrite for_each_skip; [now split|].
    intros r Hr. apply loop_rule_not_due. now apply Hpost'.
Qed.

Lemma due_rule now b iv cfg target delay T :
  attr_auto_set cfg = Some (target, delay) ->
  info_values_updated b !! iv = Some T ->
  due now b (iv, cfg) =
    py_ne (dict_get (info_values b) iv) target && total_seconds_gt (now - T) delay.
Proof. unfold due. simpl. intros -> ->. reflexivity. Qed.

(** One tick in which at most the rule of [iv] is due, in full. *)
Lemma loop_tick now w cfgs iv cfg :
  _info_value_cfg (blk w) = Some cfgs ->
  NoDup cfgs.*1 ->
  (iv, cfg) ∈ cfgs ->
  (forall r, r ∈ cfgs -> r.1 <> iv -> due now (blk w) r = false) ->
  Forall (fun cb => cb_raises cb = None) (cb_updated (blk w)) ->
  loop now w =
    (Ok tt,
     match attr_auto_set cfg with
     | Some param =>
         if due now (blk w) (iv, cfg)
         then {| blk := setitem_info_values iv param.1 (blk w);
                 fmgr := fmgr w;
                 trace := trace w ++ notification (cb_updated (blk w)) |}
         else w
     | None => w
     end).
Proof.
  intros Hcfg Hnd Hin Hothers Hcbs.
  destruct (loop_single now w cfgs iv cfg Hcfg Hnd Hin Hothers Hcbs) as [-> _].
  destruct (attr_auto_set cfg) as [param|] eqn:Hp.
  - destruct (due now (blk w) (iv, cfg)) eqn:Hdue.
    + now rewrite (loop_rule_due now (iv, cfg) w param Hp Hdue Hcbs).
    + now apply loop_rule_not_due.
  - apply loop_rule_not_due. unfold due. simpl. now rewrite Hp.
Qed.

(** C1, as the code has it. Let the value of [iv] differ from the target of
    its auto-set rule [(target, delay)], with a delay of a whole number of
    seconds below 2^34, and have been stamped at time [T]; let no other
    rule be due and no observer raise.  Every tick no later
    than [T + delay] leaves the world as it is.  Over a run of such ticks,
    a tick later than [T + delay] and any further ticks, the value becomes
    the target, the observers are notified exactly once, and the time stamp
    of the value is never written. *)
Theorem auto_reset_ticks (w : World) (cfgs : list (string * iv_cfg))
    (iv : string) (cfg : iv_cfg) (target : pyval) (delay T : Z)
    (before after : list Z) (t : Z) :
  _info_value_cfg (blk w) = Some cfgs ->
  NoDup cfgs.*1 ->
  (iv, cfg) ∈ cfgs ->
  attr_auto_set cfg = Some (target, delay) ->
  exact_sec delay ->
  Forall (fun cb => cb_raises cb = None) (cb_updated (blk w)) ->
  info_values_updated (blk w) !! iv = Some T ->
  py_ne (dict_get (info_values (blk w)) iv) target = true ->
  (forall t' r, t' ∈ before ++ t :: after -> r ∈ cfgs -> r.1 <> iv ->
     due t' (blk w) r = false) ->
  Forall (fun t' => t' <= T + delay * 1000000) before ->
  T + delay * 1000000 < t ->
  (forall t', t' ∈ before -> loop t' w = (Ok tt, w)) /\
  exists w',
    for_each (before ++ t :: after) loop w = (Ok tt, w') /\
    info_values (blk w') = <[iv := target]> (info_values (blk w)) /\
    info_values_updated (blk w') = info_values_updated (blk w) /\
    emitted w w' (notification (cb_updated (blk w))).
Proof.
  intros Hcfg Hnd Hin Hauto Hex Hcbs HT Hne Hothers Hbefore Hlate.
  assert (Hwait : forall t', t' ∈ before -> loop t' w = (Ok tt, w)).
  { intros t' Ht'.
    rewrite (loop_tick t' w cfgs iv cfg Hcfg Hnd Hin); [|clear -Hothers Ht'|assumption].
    - rewrite Hauto, (due_rule _ _ _ _ _ _ _ Hauto HT), Hne.
      rewrite (total_seconds_gt_exact _ _ Hex). simpl.
      rewrite Forall_forall in Hbefore. specialize (Hbefore t' Ht').
      destruct (Z.ltb_spec (delay * 1000000) (t' - T)); [lia | reflexivity].
    - intros r. apply Hothers. apply elem_of_app. now left. }
  split; [exact Hwait|].
  set (w1 := {| blk := setitem_info_values iv target (blk w); fmgr := fmgr w;
                trace := trace w ++ notification (cb_updated (blk w)) |}).
  assert (Hfire : loop t w = (Ok tt, w1)).
  { rewrite (loop_tick t w cfgs iv cfg Hcfg Hnd Hin); [|clear -Hothers|assumption].
    - rewrite Hauto, (due_rule _ _ _ _ _ _ _ Hauto HT), Hne.
      rewrite (total_seconds_gt_exact _ _ Hex). simpl.
      destruct (Z.ltb_spec (delay * 1000000) (t - T)); [reflexivity | lia].
    - intros r. apply Hothers. apply elem_of_app. right. left. }
  assert (Hrest : forall t', t' ∈ after -> loop t' w1 = (Ok tt, w1)).
  { intros t' Ht'.
    rewrite (loop_tick t' w1 cfgs iv cfg Hcfg Hnd Hin); [| |assumption].
    - rewrite Hauto, (due_rule t' (blk w1) iv cfg target delay T Hauto HT).
      unfold w1, setitem_info_values, dict_get, py_ne. simpl.
      now rewrite lookup_insert_eq, py_eq_refl.
    - intros r Hr Hne'. unfold w1. simpl. rewrite due_setitem_other by congruence.
      apply (Hothers t' r); [|assumption|assumption].
      apply elem_of_app. right. now right. }
  exists w1. split; [|now repeat split].
  rewrite (for_each_app before _ _ w w) by now apply for_each_skip.
  rewrite for_each_cons, (bind_ok _ _ _ _ _ Hfire).
  now apply for_each_skip.
Qed.

Lemma shaken_others_not_due now v t r :
  r ∈ [("battery", pos 3111); ("vibration", pos_auto_set 6110 (VInt 0) 60)] ->
  r.1 <> "vibration" ->
  due now (blk (examples.world_of (examples.shaken v t))) r = false.
Proof.
  intros Hr Hne. apply elem_of_cons in Hr as [-> | Hr]; [reflexivity|].
  apply elem_of_cons in Hr as [-> | Hr]; [now contradiction Hne|].
  now apply elem_of_nil in Hr.
Qed.

Lemma auto_reset_ticks_witness :
  let w := examples.world_of (examples.shaken (VInt 1) 0) in
  loop 60000000 w = (Ok tt, w) /\
  exists w',
    for_each [30000000; 60000000; 61000000; 62000000; 500000000] loop w = (Ok tt, w') /\
    info_values (blk w') = <[ "vibration" := VInt 0 ]> (info_values (blk w)) /\
    info_values_updated (blk w') !! "vibration" = Some 0 /\
    trace w' = [EvUpdated; EvCallback 7%nat].
Proof.
  intros w.
  assert (Hnd : NoDup [("battery", pos 3111);
                       ("vibration", pos_auto_set 6110 (VInt 0) 60)].*1).
  { apply (bool_decide_unpack _). vm_compute. exact I. }
  assert (Hin : ("vibration", pos_auto_set 6110 (VInt 0) 60) ∈
                [("battery", pos 3111); ("vibration", pos_auto_set 6110 (VInt 0) 60)]).
  { right. left. }
  destruct (auto_reset_ticks w _ "vibration" _ (VInt 0) 60 0
              [30000000; 60000000] [62000000; 500000000] 61000000
              eq_refl Hnd Hin eq_refl ltac:(unfold exact_sec; lia)
              ltac:(repeat constructor) eq_refl eq_refl
              (fun t' r _ => shaken_others_not_due t' (VInt 1) 0 r)
              ltac:(repeat constructor; lia) ltac:(lia))
    as (Hwait & w' & Hrun & Hv & Hs & Ht).
  split; [apply Hwait; right; left|].
  exists w'. split; [exact Hrun|]. split; [exact Hv|].
  split; [now rewrite Hs | exact Ht].
Defined.

(** C1 as stated fails twice.  A flag set to 1 at time 0 with the rule
    [[0, 60]]: at the tick exactly 60 s later the flag is still 1 and nobody
    is notified (the comparison is strict); at the tick 61 s later the flag
    is cleared, but its time stamp is still 0 and not the time of the
    tick. *)
Lemma auto_reset_counterexample :
  let w := examples.world_of (examples.shaken (VInt 1) 0) in
  info_values (blk (loop 60000000 w).2) !! "vibration" = Some (VInt 1) /\
  trace (loop 60000000 w).2 = [] /\
  info_values (blk (loop 61000000 w).2) !! "vibration" = Some (VInt 0) /\
  info_values_updated (blk (loop 61000000 w).2) !! "vibration" = Some 0.
Proof. vm_compute. repeat split. Qed.

(** ** Composition *)

Section Composes.
Context (model : string).

Lemma composes_ret R {A} (a : A) : composes model R (ret a).
Proof.
  intros b1 b2 H1 H2 HR. simpl. split; [eauto|].
  repeat split; auto. exists []. now rewrite !app_nil_r.
Qed.

Lemma composes_modify R (f : Block -> Block) :
  (forall b, type (f b) = type b /\ settings (f b) = settings b /\
             devices (f b) = devices b) ->
  composes model R (modify f).
Proof.
  intros Hf b1 b2 H1 H2 HR. simpl. split; [eauto|].
  destruct (Hf b1) as (-> & -> & ->), (Hf b2) as (-> & -> & ->).
  repeat split; auto. exists []. now rewrite !app_nil_r.
Qed.

Lemma composes_add_device R dev lazy : composes model R (_add_device dev lazy).
Proof.
  intros b1 b2 H1 H2 HR. simpl. split; [eauto|].
  repeat split; auto. eexists. split; reflexivity.
Qed.

Lemma composes_bind R {A B} (m : M Block A) (k : A -> M Block B) :
  composes model R m -> (forall a, composes model R (k a)) ->
  composes model R (bind m k).
Proof.
  intros Hm Hk b1 b2 H1 H2 HR.
  destruct (Hm b1 b2 H1 H2 HR) as ((a & Ea1 & Ea2) & T1 & T2 & S1 & S2 & l & D1 & D2).
  unfold bind.
  destruct (m b1) as [r1 c1], (m b2) as [r2 c2]. simpl in *. subst r1 r2.
  assert (HR' : R (settings c1) (settings c2)) by now rewrite S1, S2.
  destruct (Hk a c1 c2 T1 T2 HR') as (Hr & T1' & T2' & S1' & S2' & l' & D1' & D2').
  split; [exact Hr|]. split; [exact T1'|]. split; [exact T2'|].
  split; [congruence|]. split; [congruence|].
  exists (l ++ l'). rewrite D1', D2', D1, D2, !app_assoc. now split.
Qed.

Lemma composes_gets_type R {B} (k : string -> M Block B) :
  composes model R (k model) -> composes model R (bind (gets type) k).
Proof.
  intros Hk b1 b2 H1 H2 HR. unfold bind, gets. rewrite H1, H2.
  now apply Hk.
Qed.

(** Reading the settings, when both blocks have the same. *)
Lemma composes_gets_settings (P : option json -> Prop) {B}
    (k : option json -> M Block B) :
  (forall st, P st -> composes model (fun s1 s2 => s1 = st /\ s2 = st) (k st)) ->
  composes model (fun s1 s2 => s1 = s2 /\ P s1) (bind (gets settings) k).
Proof.
  intros Hk b1 b2 H1 H2 [HR HP]. unfold bind, gets.
  assert (E : k (settings b2) = k (settings b1)) by now rewrite HR.
  cbv beta iota. rewrite E.
  apply (Hk (settings b1)); auto.
Qed.

Lemma composes_settings_get st key dflt :
  settings_ok st = true -> settings_truthy st = true ->
  composes model (fun s1 s2 => s1 = st /\ s2 = st) (settings_get key dflt).
Proof.
  intros Hok Ht b1 b2 H1 H2 [E1 E2]. unfold settings_get. rewrite E1, E2.
  destruct st as [[v|l|l]|]; simpl in *; try discriminate.
  - rewrite Ht in Hok. discriminate.
  - destruct l; discriminate.
  - split; [eauto|]. repeat split; auto. exists []. now rewrite !app_nil_r.
Qed.

Lemma composes_if R {A} (c : bool) (m1 m2 : M Block A) :
  (c = true -> composes model R m1) -> (c = false -> composes model R m2) ->
  composes model R (if c then m1 else m2).
Proof. destruct c; auto. Qed.

Lemma composes_for_each R {A} (l : list A) (body : A -> M Block unit) :
  (forall x, composes model R (body x)) -> composes model R (for_each l body).
Proof.
  intros H. induction l as [|x l IH]; simpl.
  - apply composes_ret.
  - apply composes_bind; auto.
Qed.
End Composes.

(** Walks the code along its syntax. *)
Ltac compose :=
  repeat match goal with
  | |- composes _ _ (ret _) => apply composes_ret
  | |- composes _ _ (_add_device _ _) => apply composes_add_device
  | |- composes _ _ (modify _) => apply composes_modify; intros ?; now repeat split
  | |- composes _ _ (for_each _ _) => apply composes_for_each; intros ?
  | |- composes _ _ (settings_get _ _) => apply composes_settings_get; assumption
  | |- composes _ (fun s1 s2 => s1 = s2 /\ _) (bind (gets settings) _) =>
      apply (composes_gets_settings _ (fun s => settings_ok s = true)); intros ? ?
  | |- composes _ _ (bind (gets type) _) => apply composes_gets_type
  | |- composes _ _ (bind _ _) => apply composes_bind; [|intros ?]
  | |- composes _ _ (if _ then _ else _) => apply composes_if; intros ?
  end.

(** The chain composes, for equal settings on which it does not raise. *)
Lemma setup_devices_composes c model :
  composes model (fun s1 s2 => s1 = s2 /\ settings_ok s1 = true) (setup_devices c).
Proof. unfold setup_devices, add, add_lazy. compose. Qed.

Lemma setup_devices_spec c b :
  settings_ok (settings b) = true ->
  (setup_devices c b).1 = Ok tt /\
  devices (setup_devices c b).2 = devices b ++ specs_for c (type b) (settings b) /\
  type (setup_devices c b).2 = type b /\
  settings (setup_devices c b).2 = settings b.
Proof.
  intros Hok.
  destruct (setup_devices_composes c (type b) b
              (set_settings (settings b) (new_block "" (type b) "" ""))
              eq_refl eq_refl (conj eq_refl Hok))
    as (([] & E1 & _) & T1 & _ & S1 & _ & l & D1 & D2).
  unfold specs_for. rewrite D2. simpl. auto.
Qed.

Lemma is_type_elem ty names : is_type ty names = true <-> ty ∈ names.
Proof.
  unfold is_type. rewrite existsb_exists. split.
  - intros (x & Hx & E). apply String.eqb_eq in E. subst. now apply list_elem_of_In.
  - intros H. exists ty. split; [now apply list_elem_of_In | apply String.eqb_refl].
Qed.

(** Off the three models that read the settings, the chain composes the
    same units whatever the settings are. *)
Lemma setup_devices_independent c model :
  model ∉ ["SHSW-21"; "SHSW-25"; "SHRGBW2"] ->
  composes model (fun _ _ => True) (setup_devices c).
Proof.
  intros Hm. unfold setup_devices, add, add_lazy.
  apply composes_gets_type.
  repeat match goal with
  | H : is_type model _ = true |- composes _ _ (bind (gets settings) _) =>
      exfalso; apply is_type_elem, list_elem_of_singleton in H; apply Hm;
      rewrite H; repeat constructor
  | |- composes _ _ (if is_type _ _ then _ else _) => apply composes_if; intros ?
  | |- _ => progress compose
  end.
Qed.

Lemma depends_on_settings_iff c model :
  depends_on_settings c model <-> model ∈ ["SHSW-21"; "SHSW-25"; "SHRGBW2"].
Proof.
  split.
  - intros (s1 & s2 & _ & _ & Hne).
    destruct (decide (model ∈ ["SHSW-21"; "SHSW-25"; "SHRGBW2"])) as [|Hm]; [assumption|].
    exfalso. apply Hne. unfold specs_for.
    destruct (setup_devices_independent c model Hm
                (set_settings s1 (new_block "" model "" ""))
                (set_settings s2 (new_block "" model "" "")) eq_refl eq_refl I)
      as (_ & _ & _ & _ & _ & l & -> & ->). reflexivity.
  - intros H.
    exists None, (Some (JObj [("mode", JVal (VStr "white"))])).
    split; [reflexivity|]. split; [reflexivity|].
    apply elem_of_cons in H as [-> | H]; [vm_compute; discriminate|].
    apply elem_of_cons in H as [-> | H]; [vm_compute; discriminate|].
    apply elem_of_cons in H as [-> | H]; [vm_compute; discriminate|].
    now apply elem_of_nil in H.
Qed.

Lemma poll_settings_run c env w :
  poll_settings c env w =
    (Ok tt,
     if battery c (type (blk w)) then w
     else {| blk := if (http env (ip_addr (blk w)) "/settings").1
                    then set_settings (Some (http env (ip_addr (blk w)) "/settings").2)
                           (blk w)
                    else blk w;
             fmgr := fmgr w;
             trace := trace w ++ [EvHttpGet (ip_addr (blk w)) "/settings"] |}).
Proof.
  unfold poll_settings, battery, http_get, self, bind, gets, emit, modify, ret, update.
  simpl. destruct (match SHELLY_TYPES c !! type (blk w) with
                   | Some t => truthy (dict_get t "battery") | None => false end);
    [reflexivity|].
  simpl. now destruct (http env (ip_addr (blk w)) "/settings").1.
Qed.

(** [_setup] on a world whose settings after the poll are [st]. *)
Lemma setup_run c env w w1 :
  poll_settings c env w = (Ok tt, w1) ->
  settings_ok (settings (blk w1)) = true ->
  exists b',
    _setup c env w = (Ok tt, {| blk := b'; fmgr := fmgr w1; trace := trace w1 |}) /\
    devices b' = devices (blk w1) ++ specs_for c (type (blk w1)) (settings (blk w1)) /\
    type b' = type (blk w1) /\ settings b' = settings (blk w1).
Proof.
  intros Hp Hok. unfold _setup. rewrite (bind_ok _ _ _ _ _ Hp).
  destruct (setup_devices_spec c (blk w1) Hok) as (Hr & Hd & Ht & Hs).
  unfold on_block, zoom.
  destruct (setup_devices c (blk w1)) as [r b']. simpl in *. subst r.
  exists b'. auto.
Qed.

(** C3, as the code has it. For every model whose topology branches on the
    settings, composing a block without settings (none stored, and the
    request for them fails) returns and creates none of the units that
    depend on the mode: no unit at all for SHSW-21 and SHSW-25, and for
    SHRGBW2 only the input switch, which is outside the test of the
    settings. *)
Theorem compose_without_settings (c : Const) (env : Collab) (w : World) (model : string) :
  type (blk w) = model ->
  depends_on_settings c model ->
  settings (blk w) = None ->
  devices (blk w) = [] ->
  (http env (ip_addr (blk w)) "/settings").1 = false ->
  (_setup c env w).1 = Ok tt /\
  settings (blk (_setup c env w).2) = None /\
  devices (blk (_setup c env w).2) =
    if String.eqb model "SHRGBW2" then [new Switch [AInt 0; AInt 118]] else [].
Proof.
  intros Hty Hdep Hs Hd Hh.
  pose proof (poll_settings_run c env w) as Hp. rewrite Hh in Hp.
  assert (Hs1 : forall w1, poll_settings c env w = (Ok tt, w1) ->
                  settings (blk w1) = None /\ devices (blk w1) = [] /\
                  type (blk w1) = model).
  { intros w1 E. rewrite Hp in E. injection E as <-.
    destruct (battery c (type (blk w))); simpl; auto. }
  destruct (Hs1 _ Hp) as (S1 & D1 & T1).
  destruct (setup_run c env w _ Hp) as (b' & E & Hd' & _ & Hs').
  { now rewrite S1. }
  rewrite E. simpl. rewrite Hs', Hd', S1, D1, T1. simpl.
  split; [reflexivity|]. split; [reflexivity|].
  apply depends_on_settings_iff in Hdep.
  apply elem_of_cons in Hdep as [-> | Hdep]; [vm_compute; reflexivity|].
  apply elem_of_cons in Hdep as [-> | Hdep]; [vm_compute; reflexivity|].
  apply elem_of_cons in Hdep as [-> | Hdep]; [vm_compute; reflexivity|].
  now apply elem_of_nil in Hdep.
Qed.

Lemma compose_without_settings_witness :
  devices (blk (_setup examples.consts examples.offline
                  (examples.world_of (examples.fresh "SHSW-25"))).2) = [] /\
  devices (blk (_setup examples.consts examples.offline
                  (examples.world_of (examples.fresh "SHRGBW2"))).2)
    = [new Switch [AInt 0; AInt 118]].
Proof.
  split.
  - apply (compose_without_settings examples.consts examples.offline
             (examples.world_of (examples.fresh "SHSW-25")) "SHSW-25" eq_refl
             (proj2 (depends_on_settings_iff examples.consts "SHSW-25")
                ltac:(repeat constructor))
             eq_refl eq_refl eq_refl).
  - apply (compose_without_settings examples.consts examples.offline
             (examples.world_of (examples.fresh "SHRGBW2")) "SHRGBW2" eq_refl
             (proj2 (depends_on_settings_iff examples.consts "SHRGBW2")
                ltac:(repeat constructor))
             eq_refl eq_refl eq_refl).
Defined.

(** C3 as stated fails for SHRGBW2: its topology follows the [mode]
    setting, yet a new block of that model whose settings cannot be fetched
    owns one unit, the input switch. *)
Lemma compose_without_settings_counterexample :
  let w := (init examples.consts examples.offline "B0B21C" "SHRGBW2" "192.168.1.20"
              "coap" (examples.world_of (examples.fresh ""))).2 in
  settings (blk w) = None /\
  devices (blk w) = [new Switch [AInt 0; AInt 118]] /\
  specs_for examples.consts "SHRGBW2" (Some (JObj [("mode", JVal (VStr "color"))]))
    <> specs_for examples.consts "SHRGBW2" (Some (JObj [("mode", JVal (VStr "white"))])).
Proof. vm_compute. repeat split. discriminate. Qed.

(** ** Reloading the topology *)

Lemma for_each_detach (l : list Device) w :
  for_each l (fun device => emit (EvRemoveDevice device) ;;; emit (EvClose device)) w =
    (Ok tt, {| blk := blk w; fmgr := fmgr w;
               trace := trace w
                 ++ flat_map (fun d => [EvRemoveDevice d; EvClose d]) l |}).
Proof.
  apply for_each_emit. intros d w0 _.
  unfold bind, emit, modify. simpl. now rewrite <- app_assoc.
Qed.

Lemma for_each_attach (l : list Device) w :
  for_each l (fun dev => emit (EvDevCoap dev) ;;; emit (EvAddDevice dev)) w =
    (Ok tt, {| blk := blk w; fmgr := fmgr w;
               trace := trace w
                 ++ flat_map (fun d => [EvDevCoap d; EvAddDevice d]) l |}).
Proof.
  apply for_each_emit. intros d w0 _.
  unfold bind, emit, modify. simpl. now rewrite <- app_assoc.
Qed.

Lemma for_each_dev_coap (l : list Device) w :
  for_each l (fun dev => emit (EvDevCoap dev)) w =
    (Ok tt, {| blk := blk w; fmgr := fmgr w;
               trace := trace w ++ flat_map (fun d => [EvDevCoap d]) l |}).
Proof. apply for_each_emit. intros d w0 _. reflexivity. Qed.

(** [_reload_devices], when the settings are fetched and are an object:
    every unit is detached and closed, in order, then the settings are
    requested, and the units are those composed for the model and the
    answer. *)
Lemma reload_devices_run c env w s :
  battery c (type (blk w)) = false ->
  http env (ip_addr (blk w)) "/settings" = (true, JObj s) ->
  exists b',
    _reload_devices c env w =
      (Ok tt, {| blk := b'; fmgr := fmgr w;
                 trace := trace w
                   ++ flat_map (fun d => [EvRemoveDevice d; EvClose d]) (devices (blk w))
                   ++ [EvHttpGet (ip_addr (blk w)) "/settings"] |}) /\
    devices b' = specs_for c (type (blk w)) (Some (JObj s)) /\
    type b' = type (blk w) /\
    settings b' = Some (JObj s).
Proof.
  intros Hb Hh. unfold _reload_devices.
  rewrite (bind_ok _ _ _ _ _ (self_run w)).
  rewrite (bind_ok _ _ _ _ _ (for_each_detach _ w)).
  rewrite (bind_ok _ _ _ _ _ (update_run _ _)).
  match goal with |- context [_setup c env ?w0] => set (w1 := w0) end.
  pose proof (poll_settings_run c env w1) as Hp.
  unfold w1 in Hp at 2 3 4 5 6 7 8. simpl in Hp. rewrite Hb, Hh in Hp. simpl in Hp.
  destruct (setup_run c env w1 _ Hp eq_refl) as (b' & E & Hd & Ht & Hs).
  simpl in *. exists b'. rewrite E, <- app_assoc. auto.
Qed.

(** C6. When a push payload finds the reload flag set (and the settings are
    fetched and are an object), [update_coap] returns and its events are,
    in this order: the push hooks of the units owned so far; for each of
    those units, once, its removal from the registry of the parent and its
    [close]; the request for the settings; for each new unit its push hooks
    and its addition to the registry.  Afterwards the units of the block are
    those composed for its model and the fetched settings, and the flag is
    cleared. *)
Theorem reload_on_push (c : Const) (env : Collab) (now : Z) (payload : json)
    (ip : string) (w : World) (s : list (string * json)) :
  let b1 := _update_info_values_coap env payload
              (set_last_updated (Some now) (set_ip_addr ip (blk w))) in
  let old := devices b1 in
  let new := specs_for c (type b1) (Some (JObj s)) in
  reload b1 = true ->
  battery c (type b1) = false ->
  http env (ip_addr b1) "/settings" = (true, JObj s) ->
  exists w',
    update_coap c env now payload ip w = (Ok tt, w') /\
    devices (blk w') = new /\
    settings (blk w') = Some (JObj s) /\
    reload (blk w') = false /\
    emitted w w'
      (flat_map (fun d => [EvDevCoap d]) old
       ++ flat_map (fun d => [EvRemoveDevice d; EvClose d]) old
       ++ [EvHttpGet (ip_addr b1) "/settings"]
       ++ flat_map (fun d => [EvDevCoap d; EvAddDevice d]) new).
Proof.
  intros b1 old new Hr Hb Hh. unfold update_coap.
  rewrite (bind_ok _ _ _ _ _ (update_run _ _)).
  rewrite (bind_ok _ _ _ _ _ (update_run _ _)).
  rewrite (bind_ok _ _ _ _ _ (update_run _ _)).
  rewrite (bind_ok _ _ _ _ _ (self_run _)).
  rewrite (bind_ok _ _ _ _ _ (for_each_dev_coap _ _)).
  rewrite (bind_ok _ _ _ _ _ (self_run _)).
  cbn [blk set_blk fmgr trace]. fold b1. rewrite Hr.
  match goal with |- context [bind (_reload_devices c env) _ ?w0] =>
    destruct (reload_devices_run c env w0 s Hb Hh) as (b' & E & Hd & Ht & Hs) end.
  rewrite (bind_ok _ _ _ _ _ E).
  rewrite (bind_ok _ _ _ _ _ (self_run _)).
  rewrite (bind_ok _ _ _ _ _ (for_each_attach _ _)).
  rewrite update_run.
  eexists. split; [reflexivity|].
  cbn [blk set_blk fmgr trace] in *. unfold emitted. cbn [trace].
  split; [exact Hd|]. split; [exact Hs|]. split; [reflexivity|].
  rewrite Hd. fold old new. now rewrite <- !app_assoc.
Qed.

Lemma reload_on_push_witness :
  let roller := JObj [("mode", JVal (VStr "roller"))] in
  let relay := JObj [("mode", JVal (VStr "relay"))] in
  let b := set_reload true
             (blk (init examples.consts (examples.online (JObj []) relay)
                     "B0B21C" "SHSW-25" "192.168.1.20" "coap"
                     (examples.world_of (examples.fresh ""))).2) in
  exists w',
    update_coap examples.consts (examples.online (JObj []) roller) 42 (JObj [])
      "192.168.1.20" (examples.world_of b) = (Ok tt, w') /\
    devices (blk w') =
      [new Roller [];
       new PowerMeter [AInt 1; AList [111; 121; 4101; 4102]; AList [0; 1]]] /\
    length (trace w') = 23%nat.
Proof.
  intros roller relay b.
  destruct (reload_on_push examples.consts (examples.online (JObj []) roller) 42
              (JObj []) "192.168.1.20" (examples.world_of b)
              [("mode", JVal (VStr "roller"))] eq_refl eq_refl eq_refl)
    as (w' & E & Hd & _ & _ & Ht).
  exists w'. split; [exact E|]. split; [exact Hd|].
  unfold emitted in Ht. rewrite Ht. reflexivity.
Defined.

(** * Further properties *)

(** ** The catalogue cache *)

(** X1. The catalogue is downloaded at most once.  After the first access of
    the manager, in whatever state it was and whatever the download
    answered, every later access, version query and URL query answers from
    the cache and leaves the manager as it is, whatever the remote side
    would answer by then ([fetch'] is any other behaviour of the remote
    side). *)
Theorem catalogue_fetched_once (fetch fetch' : string -> result json)
    (rx : string -> option string) (fm : firmware.FirmwareManager) :
  let first := firmware._list_firmwares fetch fm in
  firmware._list_firmwares fetch' first.2 = (first.1, first.2) /\
  forall ty beta,
    firmware.version fetch' rx ty beta first.2
      = ((firmware.version fetch rx ty beta fm).1, first.2) /\
    firmware.url fetch' ty beta first.2
      = ((firmware.url fetch ty beta fm).1, first.2).
Proof.
  intros first.
  destruct (list_firmwares_run fetch fm) as (fm' & H1 & _).
  destruct (list_firmwares_again fetch fetch' fm _ fm' H1) as (H2 & _).
  unfold first. rewrite H1. simpl.
  split; [exact H2|].
  intros ty beta.
  rewrite (version_run fetch' rx ty beta _ _ _ H2), (url_run fetch' ty beta _ _ _ H2),
          (version_run fetch rx ty beta _ _ _ H1), (url_run fetch ty beta _ _ _ H1).
  now split.
Qed.

Lemma catalogue_fetched_once_witness :
  let good := fun _ : string =>
    Ok (JObj [("SHSW-1", JObj [("version", JVal (VStr "1.9.0"))])]) in
  let bad := fun _ : string => @Raise json (OtherError "URLError") in
  let fm1 := (firmware._list_firmwares good firmware.init).2 in
  firmware.version bad (fun _ => None) "SHSW-1" false fm1 = (Ok (Some "1.9.0"), fm1).
Proof.
  intros good bad fm1.
  destruct (catalogue_fetched_once good bad (fun _ => None) firmware.init) as [_ H].
  destruct (H "SHSW-1" false) as [Hv _]. exact Hv.
Defined.

Lemma format_str rx v : firmware.format rx (JVal (VStr v)) = Ok (default v (rx v)).
Proof. unfold firmware.format. now destruct (rx v). Qed.

Lemma format_other rx j :
  (forall v, j <> JVal (VStr v)) -> exists msg, firmware.format rx j = Raise (TypeError msg).
Proof.
  intros H. destruct j as [[| | |v]| |]; simpl; eauto. now contradiction (H v).
Qed.

(** X2. What a version query answers, by the catalogue document [d] that it
    reads (the cached one, or the one downloaded by this very query).  On
    the document [None], which a download with a null ["data"] member
    leaves, it raises [TypeError] for every model.  On an object: [None]
    for a model that the object does not list; for a model listed with an
    object, with the beta flag and a ["beta_ver"] entry, that entry
    formatted, even when the stable version is missing; otherwise the
    formatted ["version"] entry, so that a beta query falls back to the
    stable version; [KeyError] when the entry that would be read is
    missing, and [TypeError] when it is not a string.  A formatted entry is
    the second group of its match with [REGEX_VER], and the entry itself
    when it does not match. *)
Theorem version_lookup (fetch : string -> result json) (rx : string -> option string)
    (fm fm' : firmware.FirmwareManager) (d : json) :
  firmware._list_firmwares fetch fm = (Ok d, fm') ->
  (is_none d = true ->
     forall ty beta, exists msg,
       firmware.version fetch rx ty beta fm = (Raise (TypeError msg), fm')) /\
  (forall cat, d = JObj cat ->
     (forall ty beta,
        assoc_get cat ty = None ->
        firmware.version fetch rx ty beta fm = (Ok None, fm')) /\
     (forall ty cfg v,
        assoc_get cat ty = Some (JObj cfg) ->
        assoc_get cfg "beta_ver" = Some (JVal (VStr v)) ->
        firmware.version fetch rx ty true fm = (Ok (Some (default v (rx v))), fm')) /\
     (forall ty beta cfg v,
        assoc_get cat ty = Some (JObj cfg) ->
        beta = false \/ assoc_get cfg "beta_ver" = None ->
        assoc_get cfg "version" = Some (JVal (VStr v)) ->
        firmware.version fetch rx ty beta fm = (Ok (Some (default v (rx v))), fm')) /\
     (forall ty beta cfg,
        assoc_get cat ty = Some (JObj cfg) ->
        beta = false \/ assoc_get cfg "beta_ver" = None ->
        assoc_get cfg "version" = None ->
        firmware.version fetch rx ty beta fm = (Raise (KeyError "version"), fm')) /\
     (forall ty cfg j,
        assoc_get cat ty = Some (JObj cfg) ->
        assoc_get cfg "beta_ver" = Some j ->
        (forall v, j <> JVal (VStr v)) ->
        exists msg, firmware.version fetch rx ty true fm = (Raise (TypeError msg), fm')) /\
     (forall ty beta cfg j,
        assoc_get cat ty = Some (JObj cfg) ->
        beta = false \/ assoc_get cfg "beta_ver" = None ->
        assoc_get cfg "version" = Some j ->
        (forall v, j <> JVal (VStr v)) ->
        exists msg, firmware.version fetch rx ty beta fm = (Raise (TypeError msg), fm'))).
Proof.
  intros H1.
  assert (Hv := fun ty beta => version_run fetch rx ty beta fm d fm' H1).
  split.
  { intros Hn ty beta. destruct (version_of_none rx d ty beta Hn) as [msg E].
    exists msg. now rewrite Hv, E. }
  intros cat ->.
  assert (Hread : forall ty (beta : bool) cfg (key : string),
            assoc_get cat ty = Some (JObj cfg) ->
            key = (if beta
                   then match assoc_get cfg "beta_ver" with
                        | Some _ => "beta_ver" | None => "version" end
                   else "version") ->
            version_of rx (JObj cat) ty beta =
              rbind (json_getitem (JObj cfg) key)
                (fun v => rbind (firmware.format rx v) (fun r => Ok (Some r)))).
  { intros ty beta cfg key Hty ->. unfold version_of, rbind, json_in, json_getitem.
    rewrite Hty. destruct beta; [|reflexivity].
    now destruct (assoc_get cfg "beta_ver"). }
  split; [|split; [|split; [|split; [|split]]]].
  - intros ty beta Hty. rewrite Hv. unfold version_of, rbind, json_in. now rewrite Hty.
  - intros ty cfg v Hty Hb. rewrite Hv, (Hread ty true cfg "beta_ver" Hty).
    + unfold json_getitem, rbind. now rewrite Hb, format_str.
    + now rewrite Hb.
  - intros ty beta cfg v Hty Hbeta Hver. rewrite Hv, (Hread ty beta cfg "version" Hty).
    + unfold json_getitem, rbind. now rewrite Hver, format_str.
    + destruct Hbeta as [-> | Hb]; [reflexivity|]. rewrite Hb. now destruct beta.
  - intros ty beta cfg Hty Hbeta Hver. rewrite Hv, (Hread ty beta cfg "version" Hty).
    + unfold json_getitem, rbind. now rewrite Hver.
    + destruct Hbeta as [-> | Hb]; [reflexivity|]. rewrite Hb. now destruct beta.
  - intros ty cfg j Hty Hb Hj. rewrite Hv, (Hread ty true cfg "beta_ver" Hty).
    + unfold json_getitem, rbind. rewrite Hb.
      destruct (format_other rx j Hj) as [msg ->]. eauto.
    + now rewrite Hb.
  - intros ty beta cfg j Hty Hbeta Hver Hj.
    rewrite Hv, (Hread ty beta cfg "version" Hty).
    + unfold json_getitem, rbind. rewrite Hver.
      destruct (format_other rx j Hj) as [msg ->]. eauto.
    + destruct Hbeta as [-> | Hb]; [reflexivity|]. rewrite Hb. now destruct beta.
Qed.

Lemma version_lookup_witness :
  let stable := [("version", JVal (VStr "1.9.0"))] in
  let rc := [("beta_ver", JVal (VStr "1.10.0-rc1"))] in
  let good := fun _ : string => Ok (JObj [("SHSW-1", JObj stable); ("SHSW-25", JObj rc)]) in
  let null := fun _ : string => Ok (JVal VNone) in
  (exists fm',
     firmware.version good (fun _ => None) "SHSW-1" true firmware.init
       = (Ok (Some "1.9.0"), fm') /\
     firmware.version good (fun _ => None) "SHSW-25" false firmware.init
       = (Raise (KeyError "version"), fm') /\
     firmware.version good (fun _ => None) "SHSW-25" true firmware.init
       = (Ok (Some "1.10.0-rc1"), fm') /\
     firmware.version good (fun _ => None) "SHXX" true firmware.init = (Ok None, fm')) /\
  (exists msg fm',
     firmware.version null (fun _ => None) "SHSW-1" true firmware.init
       = (Raise (TypeError msg), fm')).
Proof.
  intros stable rc good null. split.
  - destruct (version_lookup good (fun _ => None) firmware.init _ _ eq_refl)
      as (_ & H).
    destruct (H _ eq_refl) as (Hnone & Hbeta & Hstable & Herr & _).
    eexists. split; [|split; [|split]].
    + apply (Hstable "SHSW-1" true stable "1.9.0");
        [reflexivity | right; reflexivity | reflexivity].
    + apply (Herr "SHSW-25" false rc); [reflexivity | left; reflexivity | reflexivity].
    + apply (Hbeta "SHSW-25" rc "1.10.0-rc1"); reflexivity.
    + apply (Hnone "SHXX" true). reflexivity.
  - destruct (version_lookup null (fun _ => None) firmware.init _ _ eq_refl)
      as (H & _).
    destruct (H eq_refl "SHSW-1" true) as [msg E]. eauto.
Defined.

(** X3. What a URL query answers, by the catalogue document [d] that it
    reads.  On the document [None] it raises [TypeError] for every model.
    On an object: the ["beta_url"] entry, as it is, only when the beta flag
    is set and the model is listed with an object that has a ["beta_ver"]
    entry, [KeyError] when that object has no ["beta_url"], and [None] when
    the flag is not set, the model is not listed, or its object has no
    ["beta_ver"] entry. *)
Theorem url_lookup (fetch : string -> result json)
    (fm fm' : firmware.FirmwareManager) (d : json) :
  firmware._list_firmwares fetch fm = (Ok d, fm') ->
  (is_none d = true ->
     forall ty beta, exists msg,
       firmware.url fetch ty beta fm = (Raise (TypeError msg), fm')) /\
  (forall cat, d = JObj cat ->
     (forall ty cfg v u,
        assoc_get cat ty = Some (JObj cfg) ->
        assoc_get cfg "beta_ver" = Some v -> assoc_get cfg "beta_url" = Some u ->
        firmware.url fetch ty true fm = (Ok u, fm')) /\
     (forall ty cfg v,
        assoc_get cat ty = Some (JObj cfg) ->
        assoc_get cfg "beta_ver" = Some v -> assoc_get cfg "beta_url" = None ->
        firmware.url fetch ty true fm = (Raise (KeyError "beta_url"), fm')) /\
     (forall ty beta,
        beta = false \/ assoc_get cat ty = None \/
          (exists cfg, assoc_get cat ty = Some (JObj cfg) /\
                       assoc_get cfg "beta_ver" = None) ->
        firmware.url fetch ty beta fm = (Ok (JVal VNone), fm'))).
Proof.
  intros H1.
  assert (Hu := fun ty beta => url_run fetch ty beta fm d fm' H1).
  split.
  { intros Hn ty beta. destruct (url_of_none d ty beta Hn) as [msg E].
    exists msg. now rewrite Hu, E. }
  intros cat ->. split; [|split].
  - intros ty cfg v u Hty Hb Hurl. rewrite Hu.
    unfold url_of, rbind, json_in, json_getitem. now rewrite Hty, Hb, Hurl.
  - intros ty cfg v Hty Hb Hurl. rewrite Hu.
    unfold url_of, rbind, json_in, json_getitem. now rewrite Hty, Hb, Hurl.
  - intros ty beta H. rewrite Hu.
    destruct H as [-> | [Hty | (cfg & Hty & Hb)]].
    + now rewrite url_of_plain_obj.
    + unfold url_of, rbind, json_in. now rewrite Hty.
    + unfold url_of, rbind, json_in, json_getitem. rewrite Hty, Hb. now destruct beta.
Qed.

Lemma url_lookup_witness :
  let both := [("beta_ver", JVal (VStr "1.10.0-rc1"));
               ("beta_url", JVal (VStr "http://repo/SHSW-25.zip"))] in
  let rc := [("beta_ver", JVal (VStr "1.10.0-rc1"))] in
  let good := fun _ : string => Ok (JObj [("SHSW-25", JObj both); ("SHSW-1", JObj rc)]) in
  exists fm',
    firmware.url good "SHSW-25" true firmware.init
      = (Ok (JVal (VStr "http://repo/SHSW-25.zip")), fm') /\
    firmware.url good "SHSW-1" true firmware.init = (Raise (KeyError "beta_url"), fm') /\
    firmware.url good "SHSW-25" false firmware.init = (Ok (JVal VNone), fm').
Proof.
  intros both rc good.
  destruct (url_lookup good firmware.init _ _ eq_refl) as (_ & H).
  destruct (H _ eq_refl) as (Hurl & Herr & Hnone).
  eexists. split; [|split].
  - apply (Hurl "SHSW-25" both (JVal (VStr "1.10.0-rc1"))); reflexivity.
  - apply (Herr "SHSW-1" rc (JVal (VStr "1.10.0-rc1"))); reflexivity.
  - apply (Hnone "SHSW-25" false). left. reflexivity.
Defined.

(** ** The catalogue and the block *)

(** A query leaves the manager as the access of the catalogue leaves it. *)
Lemma version_manager fetch rx ty beta fm :
  (firmware.version fetch rx ty beta fm).2 = (firmware._list_firmwares fetch fm).2.
Proof.
  destruct (list_firmwares_run fetch fm) as (fm' & H1 & _).
  now rewrite (version_run _ _ _ _ _ _ _ H1), H1.
Qed.

Lemma url_manager fetch ty beta fm :
  (firmware.url fetch ty beta fm).2 = (firmware._list_firmwares fetch fm).2.
Proof.
  destruct (list_firmwares_run fetch fm) as (fm' & H1 & _).
  now rewrite (url_run _ _ _ _ _ _ H1), H1.
Qed.

Lemma raise_updated_keeps_manager : keeps fmgr raise_updated.
Proof. unfold raise_updated, call, self. framing. Qed.

Lemma update_devices_keeps_manager env status : keeps fmgr (update_devices env status).
Proof. unfold update_devices, self. framing. Qed.

Lemma loop_keeps_manager now : keeps fmgr (loop now).
Proof.
  unfold loop, loop_rule, raise_updated, call, self. framing.
Qed.

(** Up to [publish], a successful poll emits nothing, leaves the manager
    alone and keeps every attribute of the block that the extraction of
    [Base] and the writes of the cycle keep. *)
Lemma before_publish_frame {T} (f : Block -> T) c env now status w :
  (forall name st cfg b, f (_update_info_value env name st cfg b) = f b) ->
  (forall v b, f (set_protocols v b) = f b) ->
  (forall v b, f (set_last_updated v b) = f b) ->
  (forall k v b, f (setitem_info_values k v b) = f b) ->
  exists w5,
    (mark_polled now ;;; extract_status c env status ;;; derive_cloud_status c) w
      = (Ok tt, w5) /\
    trace w5 = trace w /\ fmgr w5 = fmgr w /\ f (blk w5) = f (blk w) /\
    is_Some (info_values (blk w5) !! INFO_VALUE_CLOUD_STATUS c).
Proof.
  intros Hx Hp Hl Hs.
  destruct (returns_run _ w (mark_polled_returns now)) as ([] & w3 & E1).
  destruct (returns_run _ w3 (extract_status_returns c env status)) as ([] & w4 & E2).
  rewrite (bind_ok _ _ _ _ _ E1), (bind_ok _ _ _ _ _ E2), derive_cloud_status_eq.
  eexists. split; [reflexivity|]. simpl.
  pose proof (mark_polled_keeps_trace now w) as T1.
  pose proof (extract_status_keeps_trace c env status w3) as T2.
  rewrite E1 in T1. rewrite E2 in T2. simpl in T1, T2.
  split; [congruence|].
  assert (M1 : keeps fmgr (mark_polled now)).
  { unfold mark_polled, self. framing. }
  assert (M2 : keeps fmgr (extract_status c env status)).
  { unfold extract_status, self. framing. }
  assert (K1 : keeps (fun w => f (blk w)) (mark_polled now)).
  { unfold mark_polled, self. framing; apply keeps_update_blk; auto. }
  assert (K2 : keeps (fun w => f (blk w)) (extract_status c env status)).
  { unfold extract_status, self. framing; apply keeps_update_blk; auto. }
  specialize (M1 w). specialize (M2 w3). specialize (K1 w). specialize (K2 w3).
  rewrite E1 in M1, K1. rewrite E2 in M2, K2. simpl in *.
  split; [congruence|]. split; [rewrite Hs; congruence|].
  unfold setitem_info_values. simpl. rewrite lookup_insert_eq. eauto.
Qed.

(** The beta branch of [latest_fw_version] is the version query of the
    manager. *)
Lemma latest_beta_run c env w :
  latest_fw_version c env true w =
    (match (firmware.version (fetch env) (REGEX_VER c) (type (blk w)) true (fmgr w)).1 with
     | Ok v => Ok (of_option_str v)
     | Raise e => Raise e
     end,
     set_fmgr (firmware.version (fetch env) (REGEX_VER c) (type (blk w)) true (fmgr w)).2 w).
Proof.
  unfold latest_fw_version.
  rewrite (bind_ok _ _ _ _ _ (self_run w)).
  unfold on_fmgr, zoom, bind, ret.
  now destruct (firmware.version _ _ _ _ _) as [[v|e] fm'].
Qed.

(** The manager after [publish] is the manager after its version query. *)
Lemma publish_manager c env status w :
  fmgr (publish c env status w).2 =
    (firmware.version (fetch env) (REGEX_VER c) (type (blk w)) true (fmgr w)).2.
Proof.
  unfold publish.
  pose proof (latest_beta_run c env w) as E.
  destruct (firmware.version _ _ _ _ _) as [[v|e] fm']; simpl in E.
  - rewrite (bind_ok _ _ _ _ _ E).
    rewrite (bind_ok _ _ _ _ _ (update_run _ _)).
    unfold bind.
    match goal with |- context [raise_updated ?w0] =>
      pose proof (raise_updated_keeps_manager w0) as Hr;
      destruct (raise_updated w0) as [[[]|e] w8] end; simpl in Hr |- *.
    + now rewrite update_devices_keeps_manager.
    + exact Hr.
  - now rewrite (bind_raise _ _ _ _ _ E).
Qed.

(** X4. Which operations reach the catalogue.  The default has-update query,
    the default firmware update and the tick of the auto-set rules leave the
    firmware manager untouched.  The beta has-update query, the beta
    firmware update and every status cycle whose poll succeeded leave the
    manager exactly as one access of the catalogue leaves it, also when the
    operation raised: settled, so that no later access downloads, whatever
    the download answered, and unchanged when it was settled before. *)
Theorem catalogue_reached (c : Const) (env : Collab) (now : Z) (w : World) :
  let after := (firmware._list_firmwares (fetch env) (fmgr w)).2 in
  fmgr (has_fw_update c env false w).2 = fmgr w /\
  fmgr (update_firmware env false w).2 = fmgr w /\
  fmgr (loop now w).2 = fmgr w /\
  fmgr (has_fw_update c env true w).2 = after /\
  fmgr (update_firmware env true w).2 = after /\
  (forall status,
     http env (ip_addr (blk w)) "/status" = (true, status) ->
     is_empty_dict status = false ->
     fmgr (update_status_information c env now w).2 = after) /\
  settled after /\
  (settled (fmgr w) -> after = fmgr w) /\
  (forall fetch',
     firmware._list_firmwares fetch' after = (Ok (firmware._firmwares after), after)).
Proof.
  intros after.
  destruct (list_firmwares_run (fetch env) (fmgr w)) as (fm' & H1 & Hs & Hk).
  assert (Ha : after = fm') by (unfold after; now rewrite H1).
  split; [reflexivity|]. split; [reflexivity|].
  split; [apply loop_keeps_manager|].
  split; [|split; [|split; [|split; [|split]]]].
  - unfold has_fw_update.
    pose proof (version_manager (fetch env) (REGEX_VER c) (type (blk w)) true (fmgr w))
      as Hm.
    pose proof (latest_beta_run c env w) as E.
    destruct (firmware.version _ _ _ _ _) as [[v|e] fm2]; simpl in E, Hm.
    + rewrite (bind_ok _ _ _ _ _ E). exact Hm.
    + rewrite (bind_raise _ _ _ _ _ E). exact Hm.
  - rewrite (update_firmware_beta env w _ _ H1), Ha.
    now destruct (url_of _ _ _).
  - intros status Hh He.
    rewrite (update_status_information_success c env now w status Hh He).
    match goal with |- context [bind _ _ ?w0] => set (w1 := w0) end.
    destruct (before_publish_frame (fun _ => tt) c env now status w1)
      as (w5 & E & _ & Hf & _); try reflexivity.
    assert (E' : (mark_polled now ;;; extract_status c env status ;;;
                  derive_cloud_status c ;;; publish c env status) w1
                 = publish c env status w5).
    { revert E. unfold bind.
      destruct (mark_polled now w1) as [[[]|?] ?]; [|discriminate].
      destruct (extract_status c env status _) as [[[]|?] ?]; [|discriminate].
      destruct (derive_cloud_status c _) as [[[]|?] ?]; [|discriminate].
      intros [= ->]. reflexivity. }
    rewrite E', publish_manager, version_manager, Hf. reflexivity.
  - now rewrite Ha.
  - rewrite Ha. exact Hk.
  - intros fetch'. rewrite Ha. now apply settled_run.
Qed.

Lemma catalogue_reached_witness :
  let w := examples.world_of (examples.with_versions (VStr "1.2") (VStr "1.3")) in
  fmgr (has_fw_update examples.consts examples.offline false w).2 = firmware.init /\
  firmware._firmwares (fmgr (has_fw_update examples.consts examples.offline true w).2)
    = JObj [] /\
  firmware._downloaded
    (fmgr (has_fw_update examples.consts examples.null_catalogue true w).2) = true.
Proof.
  intros w.
  destruct (catalogue_reached examples.consts examples.offline 0 w)
    as (H1 & _ & _ & H4 & _).
  destruct (catalogue_reached examples.consts examples.null_catalogue 0 w)
    as (_ & _ & _ & H4' & _).
  split; [exact H1|]. split; [now rewrite H4 | now rewrite H4'].
Defined.

Lemma seq3_then {S} (m1 m2 m3 k : M S unit) s s' :
  (m1 ;;; m2 ;;; m3) s = (Ok tt, s') ->
  (m1 ;;; m2 ;;; m3 ;;; k) s = k s'.
Proof.
  unfold bind.
  destruct (m1 s) as [[[]|?] ?]; [|discriminate].
  destruct (m2 _) as [[[]|?] ?]; [|discriminate].
  destruct (m3 _) as [[[]|?] ?]; [|discriminate].
  now intros [= ->].
Qed.

(** X5. A catalogue entry without version aborts the status cycle.  When the
    poll succeeds and the cached catalogue lists the model of the block with
    neither a ["beta_ver"] nor a ["version"] entry, the cycle raises
    [KeyError] after the block has been updated (the cloud status is
    written) and before anything else happens: the request is its only
    event, so no observer is notified and no sub-device is updated. *)
Theorem poll_aborted_by_catalogue (c : Const) (env : Collab) (now : Z) (w : World)
    (status : json) (cat cfg : list (string * json)) :
  http env (ip_addr (blk w)) "/status" = (true, status) ->
  is_empty_dict status = false ->
  (forall name st cf b, type (_update_info_value env name st cf b) = type b) ->
  firmware._firmwares (fmgr w) = JObj cat ->
  assoc_get cat (type (blk w)) = Some (JObj cfg) ->
  assoc_get cfg "beta_ver" = None ->
  assoc_get cfg "version" = None ->
  exists w',
    update_status_information c env now w = (Raise (KeyError "version"), w') /\
    emitted w w' [EvHttpGet (ip_addr (blk w)) "/status"] /\
    is_Some (info_values (blk w') !! INFO_VALUE_CLOUD_STATUS c) /\
    fmgr w' = fmgr w.
Proof.
  intros Hh He Hx Hc Hty Hb Hv.
  rewrite (update_status_information_success c env now w status Hh He).
  match goal with |- context [bind _ _ ?w0] => set (w1 := w0) end.
  destruct (before_publish_frame type c env now status w1 Hx)
    as (w5 & E & Ht & Hf & Hty5 & Hcs); try reflexivity.
  rewrite (seq3_then _ _ _ (publish c env status) w1 w5 E).
  unfold publish.
  pose proof (latest_beta_run c env w5) as El.
  rewrite Hf, Hty5 in El. unfold w1 in El at 1 2. simpl in El.
  assert (Hs : settled (fmgr w)) by (right; now rewrite Hc).
  rewrite (version_run _ _ _ _ _ _ _ (settled_run _ _ Hs)), Hc in El.
  unfold version_of, rbind, json_in, json_getitem in El.
  rewrite Hty, Hb, Hv in El. simpl in El.
  rewrite (bind_raise _ _ _ _ _ El).
  eexists. split; [reflexivity|].
  unfold emitted. simpl. rewrite Ht. repeat split; auto.
Qed.

Lemma poll_aborted_by_catalogue_witness :
  let status := JObj [("cloud_enabled", JVal (VBool true))] in
  let w := {| blk := examples.observed [ {| cb_id := 1%nat; cb_raises := None |} ];
              fmgr := {| firmware.last_updated := None;
                         firmware._firmwares := JObj [("SHSW-1", JObj [])];
                         firmware._downloaded := true |};
              trace := [] |} in
  exists w',
    update_status_information examples.consts (examples.online status (JObj [])) 42 w
      = (Raise (KeyError "version"), w') /\
    trace w' = [EvHttpGet "192.168.1.20" "/status"].
Proof.
  intros status w.
  destruct (poll_aborted_by_catalogue examples.consts (examples.online status (JObj []))
              42 w status [("SHSW-1", JObj [])] [] eq_refl eq_refl)
    as (w' & E & Ht & _); try reflexivity.
  - intros name st cf b. unfold examples.online, examples.copy_top_level. simpl.
    destruct (attr_path cf); [|reflexivity].
    destruct st; try reflexivity.
    destruct (assoc_get l s) as [[]|]; reflexivity.
  - exists w'. split; [exact E | exact Ht].
Defined.

(** ** Notification, in general *)

Lemma for_each_call_outcome cbs w :
  exists n,
    (for_each cbs call w).2 =
      {| blk := blk w; fmgr := fmgr w;
         trace := trace w ++ map (fun cb => EvCallback (cb_id cb)) (take n cbs) |} /\
    (((for_each cbs call w).1 = Ok tt /\ n = length cbs /\
      Forall (fun cb => cb_raises cb = None) cbs) \/
     (exists e cb, (for_each cbs call w).1 = Raise e /\
        (0 < n)%nat /\ cbs !! pred n = Some cb /\ cb_raises cb = Some e /\
        Forall (fun cb => cb_raises cb = None) (take (pred n) cbs))).
Proof.
  revert w. induction cbs as [|cb l IH]; intros w.
  - exists 0%nat. simpl. rewrite app_nil_r. split; [now destruct w|].
    left. auto.
  - rewrite for_each_cons. destruct (cb_raises cb) as [e|] eqn:Hcb.
    + exists 1%nat. rewrite (bind_raise _ _ _ _ _ (call_raise cb e w Hcb)). simpl.
      split; [reflexivity|]. right. exists e, cb. repeat split; auto.
    + rewrite (bind_ok _ _ _ _ _ (call_ok cb w Hcb)).
      destruct (IH {| blk := blk w; fmgr := fmgr w;
                      trace := trace w ++ [EvCallback (cb_id cb)] |})
        as (n & Hs & Hcase).
      exists (S n). rewrite Hs. simpl. rewrite <- app_assoc. split; [reflexivity|].
      destruct Hcase as [(Hr & Hn & Hall) | (e & cb' & Hr & Hpos & Hl & Hcb' & Hall)].
      * left. split; [exact Hr|]. split; [now rewrite Hn|]. now constructor.
      * right. exists e, cb'. split; [exact Hr|]. split; [lia|].
        destruct n; [lia|]. simpl in *. split; [exact Hl|]. split; [exact Hcb'|].
        now constructor.
Qed.

(** X6. What a notification does, whatever the observers do.  The callbacks
    that are called are a prefix of the registered ones, each called once
    and in the order of registration; block and manager are untouched.  The
    notification returns exactly when no registered callback raises, and
    then all of them were called; otherwise the last one called is the first
    that raises, and its exception is the one that leaves [raise_updated]. *)
Theorem notification_outcome (w : World) :
  let cbs := cb_updated (blk w) in
  let none := fun cb => cb_raises cb = None in
  exists n,
    (raise_updated w).2 =
      {| blk := blk w; fmgr := fmgr w;
         trace := trace w ++ notification (take n cbs) |} /\
    ((raise_updated w).1 = Ok tt <-> Forall none cbs) /\
    ((raise_updated w).1 = Ok tt -> n = length cbs) /\
    (forall e, (raise_updated w).1 = Raise e ->
       exists cb, (0 < n)%nat /\ cbs !! pred n = Some cb /\ cb_raises cb = Some e /\
                  Forall none (take (pred n) cbs)).
Proof.
  intros cbs none. unfold raise_updated.
  rewrite (bind_ok _ _ _ _ _ (emit_run _ _)).
  rewrite (bind_ok _ _ _ _ _ (self_run _)). cbn [blk]. fold cbs.
  match goal with |- context [for_each cbs call ?w0] =>
    destruct (for_each_call_outcome cbs w0) as (n & Hs & Hcase) end.
  exists n. rewrite Hs. cbn [blk fmgr trace]. unfold notification.
  rewrite <- app_assoc. split; [reflexivity|].
  destruct Hcase as [(Hr & Hn & Hall) | (e & cb & Hr & Hpos & Hl & Hcb & Hall)];
    rewrite Hr.
  - split; [tauto|]. split; [auto | discriminate].
  - split; [|split].
    + split; [discriminate|]. intros HF. exfalso.
      rewrite Forall_lookup in HF. specialize (HF _ _ Hl). unfold none in HF. congruence.
    + discriminate.
    + intros e' [= <-]. exists cb. auto.
Qed.

(** ** The availability check *)

Lemma for_each_dev_updated (l : list Device) w :
  for_each l (fun dev => emit (EvDevUpdated dev)) w =
    (Ok tt, {| blk := blk w; fmgr := fmgr w;
               trace := trace w ++ map EvDevUpdated l |}).
Proof.
  rewrite (for_each_emit l (fun d => [EvDevUpdated d])).
  - f_equal.
  - intros d w0 _. reflexivity.
Qed.

Lemma check_available_same now w :
  _available (blk w) = Some (available now (blk w)) ->
  check_available now w = (Ok tt, w).
Proof.
  intros H. unfold check_available.
  rewrite (bind_ok _ _ _ _ _ (self_run w)).
  rewrite bool_decide_eq_false_2; [reflexivity|]. intros Hne. now apply Hne.
Qed.

(** X7. The availability check notifies on a change only, and settles.  With
    observers that return: when the recorded availability already is the
    current one, the check does nothing; otherwise it records the current
    one, notifies the observers of the block once and then every sub-device,
    in order.  A second check at the same time does nothing. *)
Theorem availability_check_settles (now : Z) (w : World) :
  Forall (fun cb => cb_raises cb = None) (cb_updated (blk w)) ->
  let a := available now (blk w) in
  (_available (blk w) = Some a -> check_available now w = (Ok tt, w)) /\
  (_available (blk w) <> Some a ->
     check_available now w =
       (Ok tt, {| blk := set_available (Some a) (blk w); fmgr := fmgr w;
                  trace := trace w ++ notification (cb_updated (blk w))
                             ++ map EvDevUpdated (devices (blk w)) |})) /\
  check_available now (check_available now w).2 = (Ok tt, (check_available now w).2).
Proof.
  intros Hcbs a.
  assert (H1 : _available (blk w) = Some a -> check_available now w = (Ok tt, w)).
  { apply check_available_same. }
  assert (H2 : _available (blk w) <> Some a ->
     check_available now w =
       (Ok tt, {| blk := set_available (Some a) (blk w); fmgr := fmgr w;
                  trace := trace w ++ notification (cb_updated (blk w))
                             ++ map EvDevUpdated (devices (blk w)) |})).
  { intros Hne. unfold check_available.
    rewrite (bind_ok _ _ _ _ _ (self_run w)).
    rewrite bool_decide_eq_true_2 by (intros E; apply Hne; now rewrite <- E).
    rewrite (bind_ok _ _ _ _ _ (update_run _ _)).
    erewrite bind_ok; [|apply raise_updated_ok; exact Hcbs].
    rewrite for_each_dev_updated. simpl. now rewrite <- app_assoc. }
  split; [exact H1|]. split; [exact H2|].
  destruct (decide (_available (blk w) = Some a)) as [E|E].
  - rewrite (H1 E). simpl. now apply H1.
  - rewrite (H2 E). simpl. now apply check_available_same.
Qed.

Lemma availability_check_settles_witness :
  let w := examples.world_of (examples.shaken (VInt 1) 0) in
  trace (check_available 5 w).2 = [EvUpdated; EvCallback 7%nat] /\
  check_available 5 (check_available 5 w).2 = (Ok tt, (check_available 5 w).2).
Proof.
  intros w.
  destruct (availability_check_settles 5 w ltac:(repeat constructor))
    as (_ & H2 & H3).
  split; [|exact H3]. rewrite H2; [reflexivity | discriminate].
Defined.

(** X8. An observer that raises during the availability check costs the
    sub-devices their notification for good.  The new availability is
    recorded before the observers are called, so the exception leaves the
    check with the change recorded, no sub-device notified, and a later
    check at the same time finds nothing to do. *)
Theorem availability_check_interrupted (now : Z) (w : World)
    (pre post : list callback) (cb : callback) (e : exn) :
  cb_updated (blk w) = pre ++ cb :: post ->
  Forall (fun x => cb_raises x = None) pre ->
  cb_raises cb = Some e ->
  _available (blk w) <> Some (available now (blk w)) ->
  exists w',
    check_available now w = (Raise e, w') /\
    _available (blk w') = Some (available now (blk w)) /\
    emitted w w' (notification pre ++ [EvCallback (cb_id cb)]) /\
    check_available now w' = (Ok tt, w').
Proof.
  intros Hcbs Hpre Hcb Hne. unfold check_available at 1.
  rewrite (bind_ok _ _ _ _ _ (self_run w)).
  rewrite bool_decide_eq_true_2 by (intros E; apply Hne; now rewrite <- E).
  rewrite (bind_ok _ _ _ _ _ (update_run _ _)).
  erewrite bind_raise.
  2:{ apply (raise_updated_raise _ pre cb post e); [exact Hcbs | exact Hpre | exact Hcb]. }
  eexists. split; [reflexivity|]. simpl. split; [reflexivity|].
  split; [reflexivity|]. now apply check_available_same.
Qed.

Lemma availability_check_interrupted_witness :
  let cbs := [ {| cb_id := 1%nat; cb_raises := Some (OtherError "boom") |} ] in
  let w := examples.world_of
             (set_devices [new Relay [AInt 0]] (examples.observed cbs)) in
  exists w',
    check_available 5 w = (Raise (OtherError "boom"), w') /\
    trace w' = [EvUpdated; EvCallback 1%nat] /\
    check_available 5 w' = (Ok tt, w').
Proof.
  intros cbs w.
  destruct (availability_check_interrupted 5 w [] []
              {| cb_id := 1%nat; cb_raises := Some (OtherError "boom") |}
              (OtherError "boom") eq_refl ltac:(constructor) eq_refl
              ltac:(discriminate))
    as (w' & E & _ & Ht & Hs).
  exists w'. split; [exact E|]. split; [exact Ht | exact Hs].
Defined.

(** ** A tick over several rules *)

Lemma flat_map_ext_elem {A B} (f g : A -> list B) (l : list A) :
  (forall x, x ∈ l -> f x = g x) -> flat_map f l = flat_map g l.
Proof.
  induction l as [|x l IH]; intros H; simpl; [reflexivity|].
  rewrite (H x) by left. rewrite IH; [reflexivity|].
  intros y Hy. apply H. now right.
Qed.

Lemma due_target now b r : due now b r = true -> attr_auto_set r.2 = Some (target_of r.2, (default (VNone, 0) (attr_auto_set r.2)).2).
Proof.
  unfold due, target_of. destruct (attr_auto_set r.2) as [[t d]|]; [reflexivity | discriminate].
Qed.

(** The rules of a list with distinct names, run in order: each due rule
    resets its own value and notifies; nothing else of the block changes. *)
Lemma for_each_rules now (l : list (string * iv_cfg)) w :
  NoDup l.*1 ->
  Forall (fun cb => cb_raises cb = None) (cb_updated (blk w)) ->
  exists w',
    for_each l (loop_rule now) w = (Ok tt, w') /\
    fmgr w' = fmgr w /\
    blk w' = set_info_values (info_values (blk w')) (blk w) /\
    (forall r, r ∈ l -> due now (blk w) r = true ->
       info_values (blk w') !! r.1 = Some (target_of r.2)) /\
    (forall k, (forall r, r ∈ l -> r.1 = k -> due now (blk w) r = false) ->
       info_values (blk w') !! k = info_values (blk w) !! k) /\
    trace w' = trace w ++ tick_events now (blk w) l.
Proof.
  revert w. induction l as [|r l IH]; intros w Hnd Hcbs.
  - exists w. simpl. unfold tick_events. simpl. rewrite app_nil_r.
    repeat split; auto.
    + now destruct w as [[] ? ?].
    + intros r Hr. now apply elem_of_nil in Hr.
  - rewrite fmap_cons in Hnd. apply NoDup_cons in Hnd as [Hr Hnd].
    assert (Hkeys : forall r', r' ∈ l -> r'.1 <> r.1).
    { intros r' Hr' E. apply Hr. rewrite <- E. now apply list_elem_of_fmap_2. }
    rewrite for_each_cons.
    destruct (due now (blk w) r) eqn:Hdue.
    + pose proof (due_target now (blk w) r Hdue) as Hp.
      rewrite (bind_ok _ _ _ _ _ (loop_rule_due now r w _ Hp Hdue Hcbs)).
      cbn [fst].
      set (w1 := {| blk := setitem_info_values r.1 (target_of r.2) (blk w);
                    fmgr := fmgr w;
                    trace := trace w ++ notification (cb_updated (blk w)) |}).
      assert (Hsame : forall r', r' ∈ l -> due now (blk w1) r' = due now (blk w) r').
      { intros r' Hr'. unfold w1. simpl. apply due_setitem_other.
        intros E. now apply (Hkeys r' Hr'). }
      destruct (IH w1 Hnd Hcbs) as (w' & E & Hf & Hb & Hdues & Hother & Ht).
      exists w'. split; [exact E|]. split; [exact Hf|]. split; [rewrite Hb at 1; reflexivity|].
      split; [|split].
      * intros r' Hr' Hd'. apply elem_of_cons in Hr' as [-> | Hr'].
        -- rewrite Hother.
           ++ unfold w1, setitem_info_values. simpl. apply lookup_insert_eq.
           ++ intros r'' Hr'' E'. exfalso. now apply (Hkeys r'' Hr'').
        -- apply Hdues; [assumption|]. now rewrite Hsame.
      * intros k Hk.
        assert (k <> r.1).
        { intros ->. specialize (Hk r ltac:(left) eq_refl). congruence. }
        rewrite Hother.
        -- unfold w1, setitem_info_values. simpl. now apply lookup_insert_ne.
        -- intros r'' Hr'' E'. rewrite Hsame by assumption. apply Hk; [now right | assumption].
      * rewrite Ht. unfold tick_events, w1. simpl. rewrite Hdue, <- app_assoc.
        f_equal. f_equal. apply flat_map_ext_elem. intros r' Hr'.
        fold w1. now rewrite Hsame.
    + rewrite (bind_ok _ _ _ _ _ (loop_rule_not_due now r w Hdue)).
      destruct (IH w Hnd Hcbs) as (w' & E & Hf & Hb & Hdues & Hother & Ht).
      exists w'. split; [exact E|]. split; [exact Hf|]. split; [exact Hb|].
      split; [|split].
      * intros r' Hr' Hd'. apply elem_of_cons in Hr' as [-> | Hr']; [congruence|].
        now apply Hdues.
      * intros k Hk. apply Hother. intros r'' Hr''. apply Hk. now right.
      * rewrite Ht. unfold tick_events. simpl. now rewrite Hdue.
Qed.

Lemma rule_of_name (l : list (string * iv_cfg)) r r' :
  NoDup l.*1 -> r ∈ l -> r' ∈ l -> r.1 = r'.1 -> r = r'.
Proof.
  intros Hnd Hr Hr' E.
  apply list_elem_of_lookup in Hr as [i Hi]. apply list_elem_of_lookup in Hr' as [j Hj].
  assert (i = j).
  { eapply NoDup_lookup; [exact Hnd| |].
    - rewrite list_lookup_fmap, Hi. reflexivity.
    - rewrite list_lookup_fmap, Hj. simpl. now rewrite E. }
  subst. congruence.
Qed.

(** X9. A tick over any number of rules.  With rule names that are distinct
    and observers that return, a tick returns; every rule that is due has
    its value set to its target and the observers are notified once per due
    rule, in the order of the rules; every other info value, every time
    stamp and the rest of the block are as before.  After the tick no rule
    is due, so a second tick at the same time does nothing. *)
Theorem tick_resets_every_due_rule (now : Z) (w : World)
    (cfgs : list (string * iv_cfg)) :
  _info_value_cfg (blk w) = Some cfgs ->
  NoDup cfgs.*1 ->
  Forall (fun cb => cb_raises cb = None) (cb_updated (blk w)) ->
  exists w',
    loop now w = (Ok tt, w') /\
    blk w' = set_info_values (info_values (blk w')) (blk w) /\
    (forall r, r ∈ cfgs -> due now (blk w) r = true ->
       info_values (blk w') !! r.1 = Some (target_of r.2)) /\
    (forall k, (forall r, r ∈ cfgs -> r.1 = k -> due now (blk w) r = false) ->
       info_values (blk w') !! k = info_values (blk w) !! k) /\
    emitted w w' (tick_events now (blk w) cfgs) /\
    (forall r, r ∈ cfgs -> due now (blk w') r = false) /\
    loop now w' = (Ok tt, w').
Proof.
  intros Hcfg Hnd Hcbs.
  destruct (for_each_rules now cfgs w Hnd Hcbs) as (w' & E & Hf & Hb & Hdues & Hother & Ht).
  assert (Hrun : loop now w = (Ok tt, w')).
  { unfold loop. rewrite (bind_ok _ _ _ _ _ (self_run w)), Hcfg. exact E. }
  assert (Hnone : forall r, r ∈ cfgs -> due now (blk w') r = false).
  { intros r Hr. destruct (due now (blk w) r) eqn:Hdue.
    - pose proof (due_target now (blk w) r Hdue) as Hp.
      unfold due. rewrite Hp. cbn [fst]. unfold dict_get.
      rewrite (Hdues r Hr Hdue). simpl. unfold py_ne. now rewrite py_eq_refl.
    - rewrite <- Hdue. unfold due, dict_get. rewrite Hb. simpl.
      rewrite Hother; [reflexivity|].
      intros r' Hr' E'.
      now rewrite (rule_of_name cfgs r' r Hnd Hr' Hr E'). }
  exists w'. split; [exact Hrun|]. split; [exact Hb|]. split; [exact Hdues|].
  split; [exact Hother|]. split; [exact Ht|]. split; [exact Hnone|].
  assert (Hcfg' : _info_value_cfg (blk w') = Some cfgs) by (rewrite Hb; exact Hcfg).
  unfold loop. rewrite (bind_ok _ _ _ _ _ (self_run w')), Hcfg'.
  apply for_each_skip. intros r Hr. apply loop_rule_not_due. now apply Hnone.
Qed.

Lemma tick_resets_every_due_rule_witness :
  let b := set_info_value_cfg
             (Some [("tilt", pos_auto_set 88 (VInt 0) 10);
                    ("vibration", pos_auto_set 99 (VInt 0) 60)])
             (set_info_values {[ "tilt" := VInt 35; "vibration" := VInt 1 ]}
                (examples.shaken (VInt 1) 0)) in
  let b' := {| blk_id := blk_id b; type := type b; ip_addr := ip_addr b;
               devices := devices b; discovery_src := discovery_src b;
               protocols := protocols b; cb_updated := cb_updated b;
               unavailable_after_sec := unavailable_after_sec b;
               last_update_status_info := last_update_status_info b;
               reload := reload b; last_updated := last_updated b;
               sleep_device := sleep_device b; payload := payload b;
               settings := settings b; exclude_info_values := exclude_info_values b;
               _available := _available b; info_values := info_values b;
               info_values_updated := {[ "tilt" := 0; "vibration" := 0 ]};
               _info_value_cfg := _info_value_cfg b |} in
  exists w',
    loop 61000000 (examples.world_of b') = (Ok tt, w') /\
    info_values (blk w') !! "tilt" = Some (VInt 0) /\
    info_values (blk w') !! "vibration" = Some (VInt 0) /\
    trace w' = [EvUpdated; EvCallback 7%nat; EvUpdated; EvCallback 7%nat].
Proof.
  intros b b'.
  destruct (tick_resets_every_due_rule 61000000 (examples.world_of b') _ eq_refl)
    as (w' & E & _ & Hd & _ & Ht & _).
  - apply (bool_decide_unpack _). vm_compute. exact I.
  - repeat constructor.
  - exists w'. split; [exact E|].
    split; [apply (Hd ("tilt", pos_auto_set 88 (VInt 0) 10)); [left | reflexivity]|].
    split; [apply (Hd ("vibration", pos_auto_set 99 (VInt 0) 60));
            [right; left | reflexivity]|].
    exact Ht.
Defined.

Lemma loop_rule_due_raise now r w pre cb post e :
  due now (blk w) r = true ->
  cb_updated (blk w) = pre ++ cb :: post ->
  Forall (fun x => cb_raises x = None) pre ->
  cb_raises cb = Some e ->
  loop_rule now r w =
    (Raise e, {| blk := setitem_info_values r.1 (target_of r.2) (blk w);
                 fmgr := fmgr w;
                 trace := trace w ++ notification pre ++ [EvCallback (cb_id cb)] |}).
Proof.
  intros Hdue Hcbs Hpre Hcb.
  pose proof (due_target now (blk w) r Hdue) as Hp.
  unfold due in Hdue. unfold loop_rule. rewrite Hp in *. cbn [fst snd] in *.
  rewrite (bind_ok _ _ _ _ _ (self_run w)).
  apply andb_true_iff in Hdue as [-> Hdue].
  destruct (info_values_updated (blk w) !! r.1) as [time|]; [|discriminate].
  rewrite Hdue.
  rewrite (bind_ok _ _ _ _ _ (update_run _ w)).
  exact (raise_updated_raise
           (set_blk (setitem_info_values r.1 (target_of r.2) (blk w)) w)
           pre cb post e Hcbs Hpre Hcb).
Qed.

(** X10. An observer that raises during a tick.  The value of the first due
    rule has been reset before the observers are called, so the exception
    leaves the tick with that value at its target and the rules after it
    not looked at; the rule is then due at no later time, and the observers
    after the failing one never hear of the reset. *)
Theorem tick_interrupted (now : Z) (w : World)
    (before after : list (string * iv_cfg)) (r : string * iv_cfg)
    (pre post : list callback) (cb : callback) (e : exn) :
  _info_value_cfg (blk w) = Some (before ++ r :: after) ->
  (forall r', r' ∈ before -> due now (blk w) r' = false) ->
  due now (blk w) r = true ->
  cb_updated (blk w) = pre ++ cb :: post ->
  Forall (fun x => cb_raises x = None) pre ->
  cb_raises cb = Some e ->
  exists w',
    loop now w = (Raise e, w') /\
    blk w' = setitem_info_values r.1 (target_of r.2) (blk w) /\
    emitted w w' (notification pre ++ [EvCallback (cb_id cb)]) /\
    forall later, due later (blk w') r = false.
Proof.
  intros Hcfg Hbefore Hdue Hcbs Hpre Hcb.
  eexists. split; [|split; [|split]].
  - unfold loop. rewrite (bind_ok _ _ _ _ _ (self_run w)), Hcfg. simpl.
    rewrite (for_each_app before _ _ w w).
    2:{ apply for_each_skip. intros r' Hr'. apply loop_rule_not_due. auto. }
    rewrite for_each_cons.
    apply bind_raise. now apply (loop_rule_due_raise now r w pre cb post e).
  - reflexivity.
  - reflexivity.
  - intros later. simpl.
    pose proof (due_target now (blk w) r Hdue) as Hp.
    unfold due, setitem_info_values, dict_get. simpl. rewrite Hp. cbn [fst].
    rewrite lookup_insert_eq. simpl. unfold py_ne. now rewrite py_eq_refl.
Qed.

Lemma tick_interrupted_witness :
  let cbs := [ {| cb_id := 1%nat; cb_raises := Some (OtherError "boom") |};
               {| cb_id := 2%nat; cb_raises := None |} ] in
  let b := examples.shaken (VInt 1) 0 in
  let b' := {| blk_id := blk_id b; type := type b; ip_addr := ip_addr b;
               devices := devices b; discovery_src := discovery_src b;
               protocols := protocols b; cb_updated := cbs;
               unavailable_after_sec := unavailable_after_sec b;
               last_update_status_info := last_update_status_info b;
               reload := reload b; last_updated := last_updated b;
               sleep_device := sleep_device b; payload := payload b;
               settings := settings b; exclude_info_values := exclude_info_values b;
               _available := _available b; info_values := info_values b;
               info_values_updated := info_values_updated b;
               _info_value_cfg := _info_value_cfg b |} in
  exists w',
    loop 61000000 (examples.world_of b') = (Raise (OtherError "boom"), w') /\
    info_values (blk w') !! "vibration" = Some (VInt 0) /\
    trace w' = [EvUpdated; EvCallback 1%nat] /\
    due 62000000 (blk w') ("vibration", pos_auto_set 6110 (VInt 0) 60) = false.
Proof.
  intros cbs b b'.
  destruct (tick_interrupted 61000000 (examples.world_of b')
              [("battery", pos 3111)] []
              ("vibration", pos_auto_set 6110 (VInt 0) 60)
              [] [ {| cb_id := 2%nat; cb_raises := None |} ]
              {| cb_id := 1%nat; cb_raises := Some (OtherError "boom") |}
              (OtherError "boom") eq_refl)
    as (w' & E & Hb & Ht & Hlater); try reflexivity.
  - intros r' Hr'. apply list_elem_of_singleton in Hr' as ->. reflexivity.
  - constructor.
  - exists w'. split; [exact E|]. split; [rewrite Hb; reflexivity|].
    split; [exact Ht | apply Hlater].
Defined.

(** ** The status hooks of the units *)

(** X11. A failing sub-device does not stop the others.  [update_devices]
    always returns and leaves block and manager alone; the status hooks of
    every unit run once, in the order of the units, and an exception of one
    of them is logged right after it and goes no further. *)
Theorem sub_device_failures_isolated (env : Collab) (status : json) (w : World) :
  update_devices env status w =
    (Ok tt, {| blk := blk w; fmgr := fmgr w;
               trace := trace w ++ status_events env status (devices (blk w)) |}).
Proof.
  unfold update_devices. rewrite (bind_ok _ _ _ _ _ (self_run w)).
  apply for_each_emit. intros d w0 _.
  unfold try_except, bind, emit, modify, raise, ret. simpl.
  destruct (dev_status env d status); simpl; [|reflexivity].
  now rewrite <- app_assoc.
Qed.

(** ** A status cycle that succeeds *)






Lemma strip_fields b1 b2 :
  strip b1 = strip b2 ->
  type b1 = type b2 /\ cb_updated b1 = cb_updated b2 /\ devices b1 = devices b2 /\
  last_updated b1 = last_updated b2 /\ protocols b1 = protocols b2 /\
  unavailable_after_sec b1 = unavailable_after_sec b2 /\ reload b1 = reload b2 /\
  settings b1 = settings b2 /\ ip_addr b1 = ip_addr b2.
Proof. intros H. injection H. intros. repeat split; assumption. Qed.




(** ** A push payload without reload *)

(** X13. A push payload that finds the reload flag cleared.  When the
    extraction of [Base] writes values only, [update_coap] returns; its only
    events are the push hooks of the units, so it sends no request and
    leaves the registry alone; the block gets the address of the sender and
    the time of the payload as [last_updated], and is otherwise as before up
    to its info values; so it is available until the timeout after the
    payload, for a timeout of a whole number of seconds below 2^34. *)
Theorem push_without_reload (c : Const) (env : Collab) (now : Z) (payload : json)
    (ip : string) (w : World) :
  extraction_writes_values_only env ->
  reload (blk w) = false ->
  exists w',
    update_coap c env now payload ip w = (Ok tt, w') /\
    strip (blk w') = strip (set_last_updated (Some now) (set_ip_addr ip (blk w))) /\
    ip_addr (blk w') = ip /\
    last_updated (blk w') = Some now /\
    devices (blk w') = devices (blk w) /\
    fmgr w' = fmgr w /\
    (forall t sec, unavailable_after_sec (blk w) = Some sec -> exact_sec sec ->
       (available t (blk w') = true <-> t - now <= sec * 1000000)) /\
    emitted w w' (flat_map (fun d => [EvDevCoap d]) (devices (blk w))).
Proof.
  intros [_ Hx] Hr. unfold update_coap.
  rewrite (bind_ok _ _ _ _ _ (update_run _ _)).
  rewrite (bind_ok _ _ _ _ _ (update_run _ _)).
  rewrite (bind_ok _ _ _ _ _ (update_run _ _)).
  rewrite (bind_ok _ _ _ _ _ (self_run _)).
  rewrite (bind_ok _ _ _ _ _ (for_each_dev_coap _ _)).
  rewrite (bind_ok _ _ _ _ _ (self_run _)).
  cbn [blk set_blk fmgr trace].
  set (b0 := set_last_updated (Some now) (set_ip_addr ip (blk w))).
  specialize (Hx payload b0).
  destruct (strip_fields _ _ Hx) as (_ & _ & S3 & S4 & _ & S6 & S7 & _ & S9).
  rewrite S7. unfold b0 at 1. cbn [reload set_last_updated set_ip_addr]. rewrite Hr.
  eexists. split; [reflexivity|]. cbn [blk fmgr trace].
  split; [exact Hx|]. split; [rewrite S9; reflexivity|].
  split; [rewrite S4; reflexivity|]. split; [rewrite S3; reflexivity|].
  split; [reflexivity|]. split.
  - intros t sec Hsec Hex. unfold available. rewrite S6, S4. unfold b0.
    cbn -[total_seconds_le].
    rewrite Hsec, (total_seconds_le_exact _ _ Hex). apply Z.leb_le.
  - unfold emitted. cbn. now rewrite S3.
Qed.

Lemma push_without_reload_witness :
  let b := set_devices [new Sensor [AInt 33; AStr "temperature"; AStr "tmp/tC"]]
             (set_unavailable_after_sec (Some 600) (examples.fresh "SHHT-1")) in
  exists w',
    update_coap examples.consts examples.offline 1000000 (JObj []) "192.168.1.77"
      (examples.world_of b) = (Ok tt, w') /\
    ip_addr (blk w') = "192.168.1.77" /\
    available 601000000 (blk w') = true /\
    trace w' = [EvDevCoap (new Sensor [AInt 33; AStr "temperature"; AStr "tmp/tC"])].
Proof.
  intros b.
  assert (Hx : extraction_writes_values_only examples.offline).
  { split; [|reflexivity].
    intros name st cfg b0. unfold examples.offline, examples.copy_top_level. simpl.
    destruct (attr_path cfg); [|reflexivity].
    destruct st; try reflexivity.
    destruct (assoc_get l s) as [[]|]; reflexivity. }
  destruct (push_without_reload examples.consts examples.offline 1000000 (JObj [])
              "192.168.1.77" (examples.world_of b) Hx eq_refl)
    as (w' & E & _ & Hip & _ & _ & _ & Ha & Ht).
  exists w'. split; [exact E|]. split; [exact Hip|]. split; [|exact Ht].
  apply (Ha 601000000 600 eq_refl); unfold exact_sec; lia.
Defined.

(** ** Composition, model by model *)

Lemma is_type_false ty names : ty ∉ names -> is_type ty names = false.
Proof.
  intros H. destruct (is_type ty names) eqn:E; [|reflexivity].
  apply is_type_elem in E. contradiction.
Qed.

(** On a model that the chain does not test for, it does nothing. *)
Lemma setup_devices_unknown c b :
  type b ∉ known_models -> setup_devices c b = (Ok tt, b).
Proof.
  intros Hk. apply is_type_false in Hk. unfold is_type, known_models in Hk.
  cbn [existsb] in Hk.
  repeat (apply orb_false_elim in Hk as [? Hk]).
  unfold setup_devices, is_type. unfold bind at 1. unfold gets at 1.
  cbn [existsb].
  repeat match goal with
  | H : String.eqb (type b) _ = false |- _ => rewrite H; clear H
  end.
  reflexivity.
Qed.

(** The kinds of the units of the three models that read the settings, for
    settings that are a non-empty object. *)
Lemma kinds_shsw21 c x l :
  dev_kind <$> specs_for c "SHSW-21" (Some (JObj (x :: l))) =
    if json_eq_str (default (JVal VNone) (assoc_get (x :: l) "mode")) "roller"
    then [Roller; Switch; Switch; PowerMeter]
    else [Relay; Relay; Switch; Switch; PowerMeter].
Proof.
  unfold specs_for. cbv -[assoc_get json_eq_str default].
  now destruct (json_eq_str _ _).
Qed.

Lemma kinds_shsw25 c x l :
  dev_kind <$> specs_for c "SHSW-25" (Some (JObj (x :: l))) =
    if json_eq_str (default (JVal VNone) (assoc_get (x :: l) "mode")) "roller"
    then [Roller; PowerMeter]
    else [Relay; Relay; PowerMeter; PowerMeter; Switch; Switch].
Proof.
  unfold specs_for. cbv -[assoc_get json_eq_str default].
  now destruct (json_eq_str _ _).
Qed.

Lemma kinds_shrgbw2 c x l :
  dev_kind <$> specs_for c "SHRGBW2" (Some (JObj (x :: l))) =
    if json_eq_str (default (JVal (VStr "color")) (assoc_get (x :: l) "mode")) "color"
    then [RGBW2C; PowerMeter; Switch]
    else [RGBW2W; PowerMeter; RGBW2W; PowerMeter; RGBW2W; PowerMeter;
          RGBW2W; PowerMeter; Switch].
Proof.
  unfold specs_for. cbv -[assoc_get json_eq_str default].
  now destruct (json_eq_str _ _).
Qed.

Lemma known_model_has_units c model x l :
  model ∈ known_models -> specs_for c model (Some (JObj (x :: l))) <> [].
Proof.
  intros H E.
  assert (Hk : dev_kind <$> specs_for c model (Some (JObj (x :: l))) = [])
    by now rewrite E.
  clear E. unfold known_models in H.
  repeat (apply elem_of_cons in H as [-> | H];
          [first [ rewrite kinds_shsw21 in Hk; now destruct (json_eq_str _ _)
                 | rewrite kinds_shsw25 in Hk; now destruct (json_eq_str _ _)
                 | rewrite kinds_shrgbw2 in Hk; now destruct (json_eq_str _ _)
                 | now vm_compute in Hk ] |]).
  now apply elem_of_nil in H.
Qed.

(** X14. Which models have units.  On a block whose model is none of the
    identifiers the chain tests for, composition does nothing and does not
    raise: the block is exactly as it was after the settings poll.  For
    settings that are a non-empty object, the topology of a model is empty
    exactly when the model is not one of those identifiers. *)
Theorem units_iff_known_model (c : Const) (env : Collab) (model : string) :
  (model ∉ known_models ->
     forall w, type (blk w) = model ->
       _setup c env w = poll_settings c env w) /\
  (forall st, model ∉ known_models -> specs_for c model st = []) /\
  (forall x l, specs_for c model (Some (JObj (x :: l))) = [] <-> model ∉ known_models).
Proof.
  assert (Hnone : forall st, model ∉ known_models -> specs_for c model st = []).
  { intros st Hk. unfold specs_for. now rewrite setup_devices_unknown. }
  split; [|split; [exact Hnone|]].
  - intros Hk w Hty. unfold _setup.
    destruct (poll_settings c env w) as [r w1] eqn:Hp.
    assert (Hw1 : r = Ok tt /\ type (blk w1) = model).
    { rewrite poll_settings_run in Hp. injection Hp as <- <-. split; [reflexivity|].
      destruct (battery c (type (blk w))); simpl; [exact Hty|].
      now destruct (http env (ip_addr (blk w)) "/settings").1. }
    destruct Hw1 as [-> Hty1].
    rewrite (bind_ok _ _ _ _ _ Hp).
    unfold on_block, zoom. rewrite setup_devices_unknown by now rewrite Hty1.
    now destruct w1.
  - intros x l. split; [|apply Hnone].
    intros E Hin. now apply (known_model_has_units c model x l Hin).
Qed.

Lemma units_iff_known_model_witness :
  _setup examples.consts examples.offline (examples.world_of (examples.fresh "SHXX-9"))
    = (Ok tt, {| blk := examples.fresh "SHXX-9"; fmgr := firmware.init;
                 trace := [EvHttpGet "192.168.1.20" "/settings"] |}) /\
  specs_for examples.consts "SHSW-1" (Some (JObj [("mode", JVal (VStr "relay"))])) <> [].
Proof.
  destruct (units_iff_known_model examples.consts examples.offline "SHXX-9")
    as (H1 & _ & _).
  destruct (units_iff_known_model examples.consts examples.offline "SHSW-1")
    as (_ & _ & H3).
  split.
  - rewrite H1; [reflexivity| |reflexivity].
    apply (bool_decide_unpack _). vm_compute. exact I.
  - intros E. apply H3 in E. apply E. unfold known_models. repeat constructor.
Defined.

Lemma json_eq_str_iff j s : json_eq_str j s = true <-> j = JVal (VStr s).
Proof.
  destruct j as [[| | |s']| |]; simpl; split; try discriminate.
  - intros E. apply String.eqb_eq in E. now subst.
  - intros [= ->]. apply String.eqb_refl.
Qed.

(** X15. The [mode] setting is matched exactly, and its absence means
    different things.  For settings that are a non-empty object: SHSW-21 and
    SHSW-25 compose a roller only when [mode] is the string ["roller"], and
    relays for every other value and when the key is missing; SHRGBW2
    composes the colour light when [mode] is the string ["color"] or the key
    is missing, and four white channels for every other value. *)
Theorem mode_selects_topology (c : Const) (x : string * json) (l : list (string * json)) :
  let st := Some (JObj (x :: l)) in
  let mode := assoc_get (x :: l) "mode" in
  (mode = Some (JVal (VStr "roller")) ->
     dev_kind <$> specs_for c "SHSW-21" st = [Roller; Switch; Switch; PowerMeter] /\
     dev_kind <$> specs_for c "SHSW-25" st = [Roller; PowerMeter]) /\
  (mode <> Some (JVal (VStr "roller")) ->
     dev_kind <$> specs_for c "SHSW-21" st = [Relay; Relay; Switch; Switch; PowerMeter] /\
     dev_kind <$> specs_for c "SHSW-25" st
       = [Relay; Relay; PowerMeter; PowerMeter; Switch; Switch]) /\
  (mode = None \/ mode = Some (JVal (VStr "color")) ->
     dev_kind <$> specs_for c "SHRGBW2" st = [RGBW2C; PowerMeter; Switch]) /\
  (mode <> None -> mode <> Some (JVal (VStr "color")) ->
     dev_kind <$> specs_for c "SHRGBW2" st
       = [RGBW2W; PowerMeter; RGBW2W; PowerMeter; RGBW2W; PowerMeter;
          RGBW2W; PowerMeter; Switch]).
Proof.
  intros st mode. unfold st.
  rewrite kinds_shsw21, kinds_shsw25, kinds_shrgbw2. fold mode.
  split; [|split; [|split]].
  - intros ->. simpl. auto.
  - intros Hne.
    destruct (json_eq_str (default (JVal VNone) mode) "roller") eqn:E; [|auto].
    apply json_eq_str_iff in E. destruct mode as [j|]; simpl in E; [|discriminate].
    subst j. contradiction.
  - intros [-> | ->]; reflexivity.
  - intros Hsome Hne.
    destruct (json_eq_str (default (JVal (VStr "color")) mode) "color") eqn:E;
      [|reflexivity].
    apply json_eq_str_iff in E. destruct mode as [j|]; simpl in E; [|contradiction].
    subst j. contradiction.
Qed.

Lemma mode_selects_topology_witness :
  dev_kind <$> specs_for examples.consts "SHSW-25"
                 (Some (JObj [("name", JVal (VStr "hall"))]))
    = [Relay; Relay; PowerMeter; PowerMeter; Switch; Switch] /\
  dev_kind <$> specs_for examples.consts "SHRGBW2"
                 (Some (JObj [("name", JVal (VStr "hall"))]))
    = [RGBW2C; PowerMeter; Switch] /\
  dev_kind <$> specs_for examples.consts "SHSW-21"
                 (Some (JObj [("mode", JVal (VStr "roller"))]))
    = [Roller; Switch; Switch; PowerMeter].
Proof.
  destruct (mode_selects_topology examples.consts ("name", JVal (VStr "hall")) [])
    as (_ & Hrelay & Hcolor & _).
  destruct (mode_selects_topology examples.consts ("mode", JVal (VStr "roller")) [])
    as (Hroller & _).
  split; [apply Hrelay; discriminate|].
  split; [apply Hcolor; left; reflexivity|].
  apply Hroller. reflexivity.
Defined.

Lemma settings_not_ok j :
  settings_ok (Some j) = false ->
  settings_truthy (Some j) = true /\
  match j with JObj _ => False | _ => True end.
Proof.
  destruct j; simpl; try discriminate; intros H; split; auto;
    now apply negb_false_iff in H.
Qed.

(** With settings that are truthy and no object, the branch of each of the
    three models raises before it adds a unit. *)
Lemma setup_devices_bad_settings c b j :
  type b ∈ settings_models ->
  settings b = Some j ->
  settings_ok (Some j) = false ->
  exists msg, setup_devices c b = (Raise (AttributeError msg), b).
Proof.
  intros Hty Hs Hbad.
  destruct (settings_not_ok j Hbad) as [Ht Hj].
  unfold setup_devices. unfold bind at 1. unfold gets at 1. cbv beta iota.
  unfold settings_models in Hty.
  repeat (apply elem_of_cons in Hty as [-> | Hty];
    [ repeat match goal with
             | |- context [is_type ?t ?L] =>
                 let v := eval vm_compute in (is_type t L) in
                 change (is_type t L) with v
             end;
      cbv iota;
      unfold bind, gets, settings_get; cbv beta; rewrite Hs, Ht;
      cbv beta iota; rewrite ?Hs;
      destruct j; [eexists; reflexivity | eexists; reflexivity | contradiction] |]).
  now apply elem_of_nil in Hty.
Qed.

(** X16. When composition raises.  The conditional chain returns unless the
    model is SHSW-21, SHSW-25 or SHRGBW2 and the stored settings are truthy
    without being an object; then it raises [AttributeError] and leaves the
    block as it was, with no unit added.  For every other model the chain
    returns whatever the settings are, and the units do not depend on
    them. *)
Theorem composition_raises_iff (c : Const) (b : Block) :
  ((setup_devices c b).1 = Ok tt <->
     ~ (type b ∈ settings_models /\ settings_ok (settings b) = false)) /\
  (forall e, (setup_devices c b).1 = Raise e ->
     (exists msg, e = AttributeError msg) /\ (setup_devices c b).2 = b) /\
  (type b ∉ settings_models ->
     forall st, devices (setup_devices c b).2 = devices b ++ specs_for c (type b) st).
Proof.
  assert (Hind : type b ∉ settings_models ->
            (setup_devices c b).1 = Ok tt /\
            forall st, devices (setup_devices c b).2
                       = devices b ++ specs_for c (type b) st).
  { intros Hm. split.
    - destruct (setup_devices_independent c (type b) Hm b b eq_refl eq_refl I)
        as (([] & E & _) & _). exact E.
    - intros st. unfold specs_for.
      destruct (setup_devices_independent c (type b) Hm b
                  (set_settings st (new_block "" (type b) "" "")) eq_refl eq_refl I)
        as (_ & _ & _ & _ & _ & l & -> & ->). reflexivity. }
  assert (Hcases : (setup_devices c b).1 = Ok tt \/
            (type b ∈ settings_models /\ settings_ok (settings b) = false /\
             exists msg, setup_devices c b = (Raise (AttributeError msg), b))).
  { destruct (decide (type b ∈ settings_models)) as [Hin|Hout];
      [|left; now apply Hind].
    destruct (settings_ok (settings b)) eqn:Hok.
    - left. now apply setup_devices_spec.
    - right. split; [assumption|]. split; [reflexivity|].
      destruct (settings b) as [j|] eqn:Hs; [|discriminate].
      now apply (setup_devices_bad_settings c b j). }
  split; [|split].
  - split.
    + intros Hr [Hin Hbad].
      destruct Hcases as [_ | (_ & _ & msg & E)].
      * destruct (settings b) as [j|] eqn:Hs; [|discriminate].
        destruct (setup_devices_bad_settings c b j Hin Hs Hbad) as [msg E].
        rewrite E in Hr. discriminate.
      * rewrite E in Hr. discriminate.
    + intros Hn. destruct Hcases as [Hr | (Hin & Hbad & _)]; [exact Hr|].
      exfalso. apply Hn. now split.
  - intros e He. destruct Hcases as [Hr | (_ & _ & msg & E)]; [congruence|].
    rewrite E in He |- *. simpl in *. injection He as <-. split; [eauto | reflexivity].
  - intros Hm. now apply Hind.
Qed.

Lemma composition_raises_iff_witness :
  let bad := set_settings (Some (JArr [JVal (VInt 1)])) (examples.fresh "SHSW-25") in
  let odd := set_settings (Some (JArr [JVal (VInt 1)])) (examples.fresh "SHSW-1") in
  (exists msg, (setup_devices examples.consts bad).1 = Raise (AttributeError msg)) /\
  (setup_devices examples.consts bad).2 = bad /\
  (setup_devices examples.consts odd).1 = Ok tt.
Proof.
  intros bad odd.
  destruct (composition_raises_iff examples.consts bad) as (_ & Hraise & _).
  destruct (composition_raises_iff examples.consts odd) as (Hiff & _ & _).
  destruct (Hraise (AttributeError "object has no attribute 'get'") eq_refl)
    as [_ Hsame].
  split; [eexists; reflexivity|]. split; [exact Hsame|].
  apply Hiff. intros [Hin _]. revert Hin. unfold settings_models.
  rewrite !elem_of_cons, elem_of_nil. intros [H | [H | [H | []]]]; discriminate.
Defined.

(** ** What composition keeps *)

Section Preserves.
Context {T : Type} (model : string) (f : Block -> T).

Lemma preserves_ret {A} (a : A) : preserves model f (ret a).
Proof. intros b Hb. now split. Qed.

Lemma preserves_gets {A} (g : Block -> A) : preserves model f (gets g).
Proof. intros b Hb. now split. Qed.

Lemma preserves_modify (g : Block -> Block) :
  (forall b, f (g b) = f b /\ type (g b) = type b) -> preserves model f (modify g).
Proof. intros H b Hb. simpl. destruct (H b) as [-> ->]. now split. Qed.

Lemma preserves_add_device dev lazy :
  (forall v b, f (set_devices v b) = f b) ->
  preserves model f (_add_device dev lazy).
Proof. intros H b Hb. simpl. rewrite H. now split. Qed.

Lemma preserves_settings_get key dflt : preserves model f (settings_get key dflt).
Proof.
  intros b Hb. unfold settings_get.
  destruct (settings b) as [[| |]|]; now split.
Qed.

Lemma preserves_bind {A B} (m : M Block A) (k : A -> M Block B) :
  preserves model f m -> (forall a, preserves model f (k a)) ->
  preserves model f (bind m k).
Proof.
  intros Hm Hk b Hb. unfold bind. destruct (Hm b Hb) as [Hf Ht].
  destruct (m b) as [[a|e] b1]; simpl in *; [|now split].
  destruct (Hk a b1 Ht) as [Hf' Ht']. split; congruence.
Qed.

Lemma preserves_gets_type {B} (k : string -> M Block B) :
  preserves model f (k model) -> preserves model f (bind (gets type) k).
Proof. intros Hk b Hb. unfold bind, gets. rewrite Hb. now apply Hk. Qed.

Lemma preserves_if {A} (c : bool) (m1 m2 : M Block A) :
  (c = true -> preserves model f m1) -> (c = false -> preserves model f m2) ->
  preserves model f (if c then m1 else m2).
Proof. destruct c; auto. Qed.

Lemma preserves_for_each {A} (l : list A) (body : A -> M Block unit) :
  (forall x, preserves model f (body x)) -> preserves model f (for_each l body).
Proof.
  intros H. induction l as [|x l IH]; simpl.
  - apply preserves_ret.
  - apply preserves_bind; auto.
Qed.
End Preserves.

(** Walks the code along its syntax; [skip H] closes the branch of a model
    that the statement excludes, from the test [H] that selects it. *)
Ltac preserve_with skip :=
  repeat match goal with
  | |- preserves _ _ (ret _) => apply preserves_ret
  | |- preserves _ _ (gets _) => apply preserves_gets
  | |- preserves _ _ (settings_get _ _) => apply preserves_settings_get
  | |- preserves _ _ (_add_device _ _) =>
      apply preserves_add_device; intros ? ?; reflexivity
  | |- preserves _ _ (modify _) =>
      apply preserves_modify; intros ?; split; reflexivity
  | |- preserves _ _ (for_each _ _) => apply preserves_for_each; intros ?
  | |- preserves _ _ (bind (gets type) _) => apply preserves_gets_type
  | |- preserves _ _ (bind _ _) => apply preserves_bind; [|intros ?]
  | |- preserves _ _ (if is_type _ _ then _ else _) =>
      apply preserves_if; [let H := fresh "Hsel" in intros H; try skip H | intros _]
  | |- preserves _ _ (if _ then _ else _) => apply preserves_if; intros _
  end.

(** The chain writes the units, the rules, the exclusions and the timeout
    configuration of the block, and nothing else. *)
Lemma setup_devices_untouched c model :
  preserves model untouched (setup_devices c).
Proof.
  unfold setup_devices, add, add_lazy.
  preserve_with ltac:(fun H => fail).
Qed.

(** Off the four models that configure it, the chain leaves the timeout
    configuration alone. *)
Lemma setup_devices_timeout_cfg c model :
  model ∉ sleepers -> preserves model timeout_cfg (setup_devices c).
Proof.
  intros Hm. unfold setup_devices, add, add_lazy.
  preserve_with ltac:(fun H =>
    solve [ exfalso; apply is_type_elem, list_elem_of_singleton in H; apply Hm;
            rewrite H; unfold sleepers; repeat constructor ]).
Qed.

(** On those four models the chain configures the timeout. *)
Lemma setup_devices_sleeper c b :
  type b ∈ sleepers ->
  timeout_cfg (setup_devices c b).2 = (Some (SENSOR_UNAVAILABLE_SEC c), true).
Proof.
  intros Hty. unfold setup_devices. unfold bind at 1. unfold gets at 1. cbv beta iota.
  unfold sleepers in Hty.
  repeat (apply elem_of_cons in Hty as [-> | Hty];
    [ repeat match goal with
             | |- context [is_type ?t ?L] =>
                 let v := eval vm_compute in (is_type t L) in
                 change (is_type t L) with v
             end;
      cbv iota; reflexivity |]).
  now apply elem_of_nil in Hty.
Qed.

(** ** Construction and reload *)

Lemma poll_settings_full c env w :
  poll_settings c env w =
    (Ok tt, {| blk := with_polled_settings c env (blk w); fmgr := fmgr w;
               trace := trace w ++ poll_events c (blk w) |}).
Proof.
  rewrite poll_settings_run. unfold with_polled_settings, poll_events.
  destruct (battery c (type (blk w))); [|reflexivity].
  rewrite app_nil_r. now destruct w.
Qed.

Lemma with_polled_settings_type c env b :
  type (with_polled_settings c env b) = type b /\
  devices (with_polled_settings c env b) = devices b /\
  ip_addr (with_polled_settings c env b) = ip_addr b.
Proof.
  unfold with_polled_settings. destruct (battery c (type b)); [auto|].
  destruct (http env (ip_addr b) "/settings").1; auto.
Qed.

(** [_setup] is the poll followed by the chain on the polled block. *)
Lemma setup_full c env w :
  _setup c env w =
    ((setup_devices c (with_polled_settings c env (blk w))).1,
     {| blk := (setup_devices c (with_polled_settings c env (blk w))).2;
        fmgr := fmgr w;
        trace := trace w ++ poll_events c (blk w) |}).
Proof.
  unfold _setup. rewrite (bind_ok _ _ _ _ _ (poll_settings_full c env w)).
  unfold on_block, zoom. simpl. now destruct (setup_devices c _).
Qed.

(** X17. A reload that gets no new settings composes from the stored ones.
    When the model is battery powered the reload sends no request at all,
    and when the request for the settings fails the stored settings are
    kept; in both cases, provided the stored settings are absent, falsy or
    an object, the reload returns, detaches every unit once, and composes
    the topology of the model for the stored settings. *)
Theorem reload_composes_from_stored_settings (c : Const) (env : Collab) (w : World) :
  battery c (type (blk w)) = true \/
    (http env (ip_addr (blk w)) "/settings").1 = false ->
  settings_ok (settings (blk w)) = true ->
  exists b',
    _reload_devices c env w =
      (Ok tt, {| blk := b'; fmgr := fmgr w;
                 trace := trace w ++ detach_events (devices (blk w))
                            ++ poll_events c (blk w) |}) /\
    (battery c (type (blk w)) = true -> poll_events c (blk w) = []) /\
    devices b' = specs_for c (type (blk w)) (settings (blk w)) /\
    settings b' = settings (blk w).
Proof.
  intros Hno Hok. unfold _reload_devices.
  rewrite (bind_ok _ _ _ _ _ (self_run w)).
  rewrite (bind_ok _ _ _ _ _ (for_each_detach _ w)).
  rewrite (bind_ok _ _ _ _ _ (update_run _ _)).
  rewrite setup_full. cbn [blk set_blk fmgr trace].
  set (b0 := set_devices [] (blk w)).
  assert (Hb1 : with_polled_settings c env b0 = b0).
  { unfold with_polled_settings, b0. cbn.
    destruct Hno as [-> | Hf]; [reflexivity|].
    rewrite Hf. now destruct (battery c (type (blk w))). }
  rewrite Hb1.
  destruct (setup_devices_spec c b0 Hok) as (Hr & Hd & Ht & Hs).
  destruct (setup_devices c b0) as [r b']. simpl in *. subst r.
  exists b'. split; [|split; [|split]].
  - unfold detach_events. now rewrite <- app_assoc.
  - intros Hb. unfold poll_events. now rewrite Hb.
  - exact Hd.
  - exact Hs.
Qed.

Lemma reload_composes_from_stored_settings_witness :
  let b := set_devices [new Roller []]
             (set_settings (Some (JObj [("mode", JVal (VStr "roller"))]))
                (examples.fresh "SHSW-21")) in
  exists b',
    _reload_devices examples.consts examples.offline (examples.world_of b) =
      (Ok tt, {| blk := b'; fmgr := firmware.init;
                 trace := [EvRemoveDevice (new Roller []); EvClose (new Roller []);
                           EvHttpGet "192.168.1.20" "/settings"] |}) /\
    dev_kind <$> devices b' = [Roller; Switch; Switch; PowerMeter].
Proof.
  intros b.
  destruct (reload_composes_from_stored_settings examples.consts examples.offline
              (examples.world_of b) (or_intror eq_refl) eq_refl)
    as (b' & E & _ & Hd & _).
  exists b'. split; [exact E|]. rewrite Hd. reflexivity.
Defined.

Lemma init_full c env id model ip src w0 :
  let b1 := with_polled_settings c env (new_block id model ip src) in
  init c env id model ip src w0 =
    (match (setup_devices c b1).1 with
     | Ok _ => Ok tt
     | Raise e => Raise e
     end,
     {| blk := match (setup_devices c b1).1 with
               | Ok _ => set_available None (setup_devices c b1).2
               | Raise _ => (setup_devices c b1).2
               end;
        fmgr := fmgr w0;
        trace := trace w0 ++ poll_events c (new_block id model ip src) |}).
Proof.
  intros b1. unfold init.
  erewrite bind_ok; [|reflexivity].
  unfold bind at 1. rewrite setup_full. cbn [blk set_blk fmgr trace]. fold b1.
  destruct (setup_devices c b1) as [[[]|e] b2]; reflexivity.
Qed.

(** X18. What construction leaves behind.  When the settings after the poll
    are absent, falsy or an object, [__init__] returns; its only event is
    the request for the settings (none for a battery-powered model), so the
    units are not added to the registry of the parent; the units are the
    topology of the model for the settings after the poll; the new block has
    no observer, no protocol, no info value, no time of update and no
    recorded availability.  A reload of a block of the same model and
    address that ends with the same settings has the same units. *)
Theorem construction (c : Const) (env : Collab) (id model ip src : string) (w0 : World) :
  let nb := new_block id model ip src in
  let b1 := with_polled_settings c env nb in
  settings_ok (settings b1) = true ->
  exists b',
    init c env id model ip src w0 =
      (Ok tt, {| blk := b'; fmgr := fmgr w0;
                 trace := trace w0 ++ poll_events c nb |}) /\
    type b' = model /\
    devices b' = specs_for c model (settings b1) /\
    untouched b' = untouched b1 /\
    (cb_updated b' = [] /\ protocols b' = [] /\ info_values b' = ∅ /\
     last_updated b' = None /\ _available b' = None /\ reload b' = false) /\
    (forall w, type (blk w) = model ->
       settings (with_polled_settings c env (blk w)) = settings b1 ->
       devices (blk (_reload_devices c env w).2) = devices b').
Proof.
  intros nb b1 Hok.
  rewrite init_full. fold nb b1.
  destruct (setup_devices_spec c b1 Hok) as (Hr & Hd & Ht & Hs).
  destruct (with_polled_settings_type c env nb) as (T1 & D1 & _). fold b1 in T1, D1.
  destruct (setup_devices_untouched c model b1 T1) as [Hu _].
  rewrite Hr. eexists. split; [reflexivity|].
  assert (Hdev : devices (set_available None (setup_devices c b1).2)
                 = specs_for c model (settings b1)).
  { change (devices (setup_devices c b1).2 = specs_for c model (settings b1)).
    rewrite Hd, D1, T1. reflexivity. }
  assert (Hav : _available b1 = None).
  { unfold b1, with_polled_settings, nb. destruct (battery c _); [reflexivity|].
    now destruct (http env _ _).1. }
  assert (Hunt : untouched (set_available None (setup_devices c b1).2) = untouched b1).
  { rewrite <- Hu. unfold untouched. cbn -[setup_devices].
    unfold untouched in Hu. injection Hu. intros. congruence. }
  split; [cbn -[setup_devices]; now rewrite Ht|].
  split; [exact Hdev|]. split; [exact Hunt|].
  split.
  { injection Hunt. intros.
    assert (Hfields : cb_updated b1 = [] /\ protocols b1 = [] /\ info_values b1 = ∅ /\
              last_updated b1 = None /\ _available b1 = None /\ reload b1 = false).
    { unfold b1, with_polled_settings, nb. destruct (battery c _); [now repeat split|].
      destruct (http env _ _).1; now repeat split. }
    destruct Hfields as (F1 & F2 & F3 & F4 & F5 & F6).
    repeat split; cbn -[setup_devices]; congruence. }
  intros w Hty Hsame. rewrite Hdev.
  unfold _reload_devices.
  rewrite (bind_ok _ _ _ _ _ (self_run w)).
  rewrite (bind_ok _ _ _ _ _ (for_each_detach _ w)).
  rewrite (bind_ok _ _ _ _ _ (update_run _ _)).
  rewrite setup_full. cbn [blk set_blk fmgr trace snd].
  set (b0 := with_polled_settings c env (set_devices [] (blk w))).
  assert (Hb0 : settings b0 = settings b1 /\ type b0 = model /\ devices b0 = []).
  { destruct (with_polled_settings_type c env (set_devices [] (blk w)))
      as (T0 & D0 & _). fold b0 in T0, D0.
    split; [|split; [now rewrite T0 | now rewrite D0]].
    rewrite <- Hsame. unfold b0, with_polled_settings. cbn.
    destruct (battery c (type (blk w))); [reflexivity|].
    now destruct (http env (ip_addr (blk w)) "/settings").1. }
  destruct Hb0 as (S0 & T0 & D0).
  destruct (setup_devices_spec c b0) as (_ & Hd0 & _); [now rewrite S0|].
  rewrite Hd0, D0, T0, S0. reflexivity.
Qed.

Lemma construction_witness :
  let roller := JObj [("mode", JVal (VStr "roller"))] in
  exists b',
    init examples.consts (examples.online (JObj []) roller) "B0B21C" "SHSW-25"
      "192.168.1.20" "coap" (examples.world_of (examples.fresh "")) =
      (Ok tt, {| blk := b'; fmgr := firmware.init;
                 trace := [EvHttpGet "192.168.1.20" "/settings"] |}) /\
    dev_kind <$> devices b' = [Roller; PowerMeter] /\
    last_updated b' = None.
Proof.
  intros roller.
  destruct (construction examples.consts (examples.online (JObj []) roller) "B0B21C"
              "SHSW-25" "192.168.1.20" "coap" (examples.world_of (examples.fresh ""))
              eq_refl)
    as (b' & E & _ & Hd & _ & (_ & _ & _ & Hl & _) & _).
  exists b'. split; [exact E|]. split; [rewrite Hd; reflexivity | exact Hl].
Defined.

(** X19. Which blocks start out unavailable.  After construction, whether it
    returned or raised, the block has never been updated.  For the models
    SHHT-1, SHWT-1, SHDW-1 and SHDW-2 the unavailability timeout is the
    constant [SENSOR_UNAVAILABLE_SEC] and the block is marked as sleeping,
    so it is unavailable at every time until a first update; for every
    other model no timeout is configured and the block is available at
    every time. *)
Theorem availability_after_construction (c : Const) (env : Collab)
    (id model ip src : string) (w0 : World) (now : Z) :
  let b := blk (init c env id model ip src w0).2 in
  last_updated b = None /\
  (model ∈ sleepers ->
     timeout_cfg b = (Some (SENSOR_UNAVAILABLE_SEC c), true) /\
     available now b = false) /\
  (model ∉ sleepers ->
     timeout_cfg b = (None, false) /\ available now b = true).
Proof.
  intros b. unfold b. clear b. rewrite init_full. cbn [snd blk].
  set (b1 := with_polled_settings c env (new_block id model ip src)).
  destruct (with_polled_settings_type c env (new_block id model ip src))
    as (T1 & _). fold b1 in T1. cbn in T1.
  destruct (setup_devices_untouched c model b1 T1) as [Hu _].
  assert (Hb1 : last_updated b1 = None /\ timeout_cfg b1 = (None, false)).
  { unfold b1, with_polled_settings. destruct (battery c _); [now split|].
    destruct (http env _ _).1; now split. }
  destruct Hb1 as [Hl1 Hc1].
  set (X := (setup_devices c b1).2) in *.
  assert (Hl : last_updated X = None).
  { unfold untouched in Hu. injection Hu. intros. congruence. }
  set (b := match (setup_devices c b1).1 with
            | Ok _ => set_available None X | Raise _ => X end).
  assert (Hb : last_updated b = last_updated X /\ timeout_cfg b = timeout_cfg X).
  { unfold b. now destruct (setup_devices c b1).1. }
  destruct Hb as [Hbl Hbc].
  split; [congruence|]. split.
  - intros Hs.
    assert (Hcfg : timeout_cfg b = (Some (SENSOR_UNAVAILABLE_SEC c), true)).
    { rewrite Hbc. apply setup_devices_sleeper. now rewrite T1. }
    split; [exact Hcfg|].
    unfold timeout_cfg in Hcfg. injection Hcfg as Hu' _.
    unfold available. now rewrite Hu', Hbl, Hl.
  - intros Hs.
    assert (Hcfg : timeout_cfg b = (None, false)).
    { rewrite Hbc, <- Hc1.
      now destruct (setup_devices_timeout_cfg c model Hs b1 T1). }
    split; [exact Hcfg|].
    unfold timeout_cfg in Hcfg. injection Hcfg as Hu' _.
    unfold available. now rewrite Hu'.
Qed.

Lemma availability_after_construction_witness :
  let built model :=
    blk (init examples.consts examples.offline "B0B21C" model "192.168.1.20" "coap"
           (examples.world_of (examples.fresh ""))).2 in
  available 0 (built "SHDW-2") = false /\
  unavailable_after_sec (built "SHDW-2") = Some 600 /\
  available 0 (built "SHSW-25") = true.
Proof.
  intros built.
  destruct (availability_after_construction examples.consts examples.offline "B0B21C"
              "SHDW-2" "192.168.1.20" "coap" (examples.world_of (examples.fresh "")) 0)
    as (_ & Hs & _).
  destruct (availability_after_construction examples.consts examples.offline "B0B21C"
              "SHSW-25" "192.168.1.20" "coap" (examples.world_of (examples.fresh "")) 0)
    as (_ & _ & Ha).
  destruct Hs as [Hcfg Hun]; [unfold sleepers; repeat constructor|].
  split; [exact Hun|]. split; [exact (f_equal fst Hcfg)|].
  apply Ha. unfold sleepers. rewrite !elem_of_cons, elem_of_nil.
  intros [H | [H | [H | [H | []]]]]; discriminate.
Defined.
